(** * meme_search.py: trend-to-shorts discovery, ranking, export and download

    A shallow embedding of [src/meme_search.py] and the properties of its
    duration parser, its filter-and-rank stage, its per-country loop, its
    workbook export and its download-list builder.

    Conventions of the embedding.
    - A Python [str] is a [string]; each [ascii] is one character whose code
      point is below 256.  On that range the regular expression class [\d]
      and the digits accepted by [int()] are exactly ['0'..'9'].
    - A Python [int] is a [Z].  The interpreter's limit on the digits of a
      number that [int()] converts from a string is a setting of the
      [Runtime].  The decoder of a JSON document obeys the same limit, so
      every integer of a document is short enough for [str()].
    - A decoded JSON document is a [json]; a number with a fraction or an
      exponent is a [JFloat] and carries its value as a rational; a [dict]
      keeps its insertion order and is an association list whose keys are
      pairwise distinct.
    - Code that may raise returns a [result]; code that also talks to the
      outside world (HTTP, the console, the downloader) lives in the monad
      [M], which threads the state of an abstract [Runtime].
    - Widgets of the user interface (status text, progress bar, messages)
      are not modelled: they neither raise nor feed back into the data. *)

From Stdlib Require Import ZArith QArith List String Ascii Bool Lia Sorted Permutation.
From Stdlib Require Import DecimalString DecimalNat.
Import ListNotations.

#[local] Open Scope string_scope.
#[local] Open Scope Z_scope.

(** ** Python values *)

#[local] Set Warnings "-register-all".

Inductive json : Type :=
| JNull
| JBool (b : bool)
| JInt (n : Z)
| JFloat (q : Q)
| JStr (s : string)
| JArr (items : list json)
| JObj (fields : list (string * json)).

(** The exception classes the program can meet.  [External] stands for any
    exception raised inside a library call (HTTP status, quota, decoding). *)
Inductive exn : Type :=
| KeyError (key : string)
| TypeError
| ValueError
| AttributeError
| IndexError
| External (tag : string).

Inductive result (A : Type) : Type :=
| Ok (a : A)
| Raise (e : exn).
Arguments Ok {A} a.
Arguments Raise {A} e.

Definition rbind {A B} (r : result A) (k : A -> result B) : result B :=
  match r with
  | Ok a => k a
  | Raise e => Raise e
  end.

Declare Scope result_scope.
Delimit Scope result_scope with result.
Notation "x <-? r ; k" := (rbind r (fun x => k))
  (at level 61, r at next level, right associativity) : result_scope.

(** ** The world outside the program *)

(** What the script obtains from its libraries and from the network.  Every
    call receives the current [world] and hands back the next one, so an
    answer may depend on everything that happened before (clock, quota, the
    key that [random.choice] drew). *)
Class Runtime : Type := {
  world : Type;
  (** [repr] of a value that is neither a string, [None], a bool nor an int *)
  py_repr : json -> string;
  (** [str(e)] *)
  exn_str : exn -> string;
  (** [sys.get_int_max_str_digits()]: the most digits that [int()] converts,
      4300 unless the interpreter was told otherwise; 0 means no limit *)
  int_max_str_digits : Z;
  (** [print(line)] *)
  console_print : string -> world -> world;
  (** [build('youtube', 'v3', developerKey=get_youtube_api_key())] *)
  youtube_build : world -> result unit * world;
  (** [youtube.search().list(q=q, ..., publishedAfter=now - days).execute()] *)
  youtube_search : string -> Z -> world -> result json * world;
  (** [youtube.videos().list(part=..., id=ids).execute()] *)
  youtube_videos : string -> world -> result json * world;
  (** [requests.get(serpapi, params)], [raise_for_status()], [.json()] with
      the parameters [q], [geo] and [hl] *)
  serpapi_search : string -> string -> string -> world -> result json * world;
  (** [datetime.strptime(v, "%Y-%m-%dT%H:%M:%SZ").strftime("%Y-%m-%d")] *)
  published_date : json -> result string;
  (** what [DataFrame.to_excel] raises, if anything, for a sheet and its
      rows, and whether the writer had created the sheet by then *)
  to_excel_error : string -> list (list (string * json)) -> option (exn * bool);
  (** [yt_dlp.YoutubeDL(ydl_opts).download([link])] *)
  ydl_download : string -> world -> result unit * world
}.

(** [d.get(key)] on the association list of a dict. *)
Fixpoint assoc (key : string) (fields : list (string * json)) : option json :=
  match fields with
  | [] => None
  | (k, v) :: rest => if String.eqb k key then Some v else assoc key rest
  end.

(** [v[key]] with a string key. *)
Definition py_getitem (v : json) (key : string) : result json :=
  match v with
  | JObj fields =>
      match assoc key fields with
      | Some x => Ok x
      | None => Raise (KeyError key)
      end
  | _ => Raise TypeError
  end.

(** [v.get(key, default)]: only a dict has the method. *)
Definition py_get (v : json) (key : string) (default : json) : result json :=
  match v with
  | JObj fields =>
      match assoc key fields with
      | Some x => Ok x
      | None => Ok default
      end
  | _ => Raise AttributeError
  end.

Definition chars (s : string) : list json :=
  map (fun c => JStr (String c EmptyString)) (list_ascii_of_string s).

(** [for x in v]: a list yields its elements, a dict its keys, a string its
    characters; nothing else is iterable. *)
Definition py_iter (v : json) : result (list json) :=
  match v with
  | JArr items => Ok items
  | JObj fields => Ok (map (fun kv => JStr (fst kv)) fields)
  | JStr s => Ok (chars s)
  | _ => Raise TypeError
  end.

(** Truth value of [v] in a condition. *)
Definition py_truthy (v : json) : bool :=
  match v with
  | JNull => false
  | JBool b => b
  | JInt n => negb (n =? 0)
  | JFloat q => negb (Qeq_bool q 0)
  | JStr s => negb (String.eqb s "")
  | JArr items => match items with [] => false | _ => true end
  | JObj fields => match fields with [] => false | _ => true end
  end.

(** ** Strings *)

Definition is_digit (c : ascii) : bool :=
  ((48 <=? nat_of_ascii c) && (nat_of_ascii c <=? 57))%nat.

Definition digit_value (c : ascii) : Z := Z.of_nat (nat_of_ascii c) - 48.

(** [int(g)] for a run of decimal digits, most significant first. *)
Fixpoint int_of_digits_acc (acc : Z) (s : string) : Z :=
  match s with
  | EmptyString => acc
  | String c rest => int_of_digits_acc (acc * 10 + digit_value c) rest
  end.

Definition int_of_digits (s : string) : Z := int_of_digits_acc 0 s.

Fixpoint all_digits (s : string) : bool :=
  match s with
  | EmptyString => true
  | String c rest => is_digit c && all_digits rest
  end.

(** The longest prefix of digits, and what follows it: what a greedy [\d*]
    consumes. *)
Fixpoint span_digits (s : string) : string * string :=
  match s with
  | EmptyString => (EmptyString, EmptyString)
  | String c rest =>
      if is_digit c
      then let (d, r) := span_digits rest in (String c d, r)
      else (EmptyString, s)
  end.

(** ** [int()] *)

(** Characters that [int()] skips at both ends of a string: the ASCII white
    space and the two other white-space characters below 256, U+0085 and
    U+00A0.  The separators U+001C to U+001F are not skipped. *)
Definition is_space (c : ascii) : bool :=
  let n := nat_of_ascii c in
  (((9 <=? n) && (n <=? 13)) || (n =? 32) || (n =? 133) || (n =? 160))%nat.

Fixpoint lstrip (l : list ascii) : list ascii :=
  match l with
  | c :: rest => if is_space c then lstrip rest else l
  | [] => []
  end.

Definition strip (s : string) : string :=
  string_of_list_ascii (rev (lstrip (rev (lstrip (list_ascii_of_string s))))).

(** The literal after its first digit: digits, each optionally preceded by
    one underscore. *)
Fixpoint int_literal_tail (acc : Z) (s : string) : option Z :=
  match s with
  | EmptyString => Some acc
  | String c rest =>
      if is_digit c then int_literal_tail (acc * 10 + digit_value c) rest
      else if Ascii.eqb c "_" then
        match rest with
        | String d rest' =>
            if is_digit d then int_literal_tail (acc * 10 + digit_value d) rest'
            else None
        | EmptyString => None
        end
      else None
  end.

Definition int_literal (s : string) : option Z :=
  match s with
  | String c rest => if is_digit c then int_literal_tail (digit_value c) rest else None
  | EmptyString => None
  end.

Fixpoint count_digits (s : string) : Z :=
  match s with
  | EmptyString => 0
  | String c rest => (if is_digit c then 1 else 0) + count_digits rest
  end.

(** The guard of the interpreter on the length of a number: [n] digits are
    converted unless a limit is set and [n] exceeds it; 640 digits or fewer
    are always converted. *)
Definition digits_allowed `{Runtime} (n : Z) : bool :=
  negb ((640 <? n) && (0 <? int_max_str_digits) && (int_max_str_digits <? n)).

(** [int(s)] for a string in base ten: [ValueError] for a string that is
    not a literal and for one with more digits than allowed. *)
Definition int_of_string `{Runtime} (s : string) : result Z :=
  let r :=
    match strip s with
    | String "-" body => option_map Z.opp (int_literal body)
    | String "+" body => int_literal body
    | body => int_literal body
    end in
  match r with
  | Some n =>
      if digits_allowed (count_digits (strip s)) then Ok n else Raise ValueError
  | None => Raise ValueError
  end.

Definition py_int `{Runtime} (v : json) : result Z :=
  match v with
  | JInt n => Ok n
  | JBool b => Ok (if b then 1 else 0)
  | JFloat q => Ok (Z.quot (Qnum q) (Zpos (Qden q)))
  | JStr s => int_of_string s
  | _ => Raise TypeError
  end.

(** ** [parse_iso8601_duration] (lines 40-47) *)

(** One optional group [(?:(\d+)U)?] tried at the head of [s].  The greedy
    [\d+] takes the whole run of digits; the group matches when that run is
    not empty and is followed by the unit letter.  Giving digits back cannot
    help, since the character after a shorter run is a digit and not the
    letter, so otherwise the group matches the empty string and captures
    nothing.  Returns the capture and the rest of the input. *)
Definition match_unit (unit_letter : ascii) (s : string) : option string * string :=
  match span_digits s with
  | (String d ds, String c rest) =>
      if Ascii.eqb c unit_letter then (Some (String d ds), rest) else (None, s)
  | _ => (None, s)
  end.

Record duration_match : Type := mk_duration_match {
  group1 : option string;
  group2 : option string;
  group3 : option string
}.

(** [re.match(r'PT(?:(\d+)H)?(?:(\d+)M)?(?:(\d+)S)?', s)]: anchored at the
    start only; whatever follows the last group is ignored.  Every group is
    optional, so once the literal [PT] is read the match succeeds. *)
Definition re_match_duration (s : string) : option duration_match :=
  match s with
  | String "P" (String "T" r0) =>
      let (h, r1) := match_unit "H" r0 in
      let (m, r2) := match_unit "M" r1 in
      let (sec, _) := match_unit "S" r2 in
      Some (mk_duration_match h m sec)
  | _ => None
  end.

(** [int(match.group(i)) if match and match.group(i) else 0] *)
Definition group_value `{Runtime} (m : option duration_match)
    (group : duration_match -> option string) : result Z :=
  match m with
  | Some mt =>
      match group mt with
      | Some g => if String.eqb g "" then Ok 0 else int_of_string g
      | None => Ok 0
      end
  | None => Ok 0
  end.

(** The three conversions are made in the order hours, minutes, seconds;
    the first that raises ends the call. *)
Definition parse_iso8601_duration `{Runtime} (duration_str : string) : result Z :=
  let mt := re_match_duration duration_str in
  (hours <-? group_value mt group1;
   minutes <-? group_value mt group2;
   seconds <-? group_value mt group3;
   Ok (hours * 3600 + minutes * 60 + seconds))%result.

(** ** Lists *)

(** [l[:n]] *)
Definition py_slice_to {A} (n : Z) (l : list A) : list A :=
  if 0 <=? n then firstn (Z.to_nat n) l
  else firstn (Z.to_nat (Z.of_nat (List.length l) + n)) l.

Fixpoint map_result {A B} (f : A -> result B) (l : list A) : result (list B) :=
  match l with
  | [] => Ok []
  | x :: rest =>
      (y <-? f x;
       ys <-? map_result f rest;
       Ok (y :: ys))%result
  end.

(** A stable ascending sort on an integer key: [insert_by] puts [x] in front
    of the first element whose key is not smaller. *)
Fixpoint insert_by {A} (key : A -> Z) (x : A) (l : list A) : list A :=
  match l with
  | [] => [x]
  | y :: rest => if key x <=? key y then x :: l else y :: insert_by key x rest
  end.

Fixpoint sort_by {A} (key : A -> Z) (l : list A) : list A :=
  match l with
  | [] => []
  | x :: rest => insert_by key x (sort_by key rest)
  end.

(** [sorted(l, key=key, reverse=True)]: the interpreter reverses the list,
    sorts it stably in ascending order and reverses the outcome, so that
    equal keys keep their original order. *)
Definition sorted_reverse {A} (key : A -> Z) (l : list A) : list A :=
  rev (sort_by key (rev l)).

(** [','.join(l)]: every element has to be a string. *)
Fixpoint join_comma (l : list json) : result string :=
  match l with
  | [] => Ok ""
  | [JStr s] => Ok s
  | JStr s :: rest => (t <-? join_comma rest; Ok (s ++ "," ++ t))%result
  | _ :: _ => Raise TypeError
  end.

(** ** Dictionaries as insertion-ordered association lists *)

Section Dict.
Context {K V : Type} (eqb : K -> K -> bool).

Fixpoint dict_get (k : K) (d : list (K * V)) : option V :=
  match d with
  | [] => None
  | (k', v) :: rest => if eqb k' k then Some v else dict_get k rest
  end.

(** [d[k] = v]: an existing key keeps its place (and its key object). *)
Fixpoint dict_set (k : K) (v : V) (d : list (K * V)) : list (K * V) :=
  match d with
  | [] => [(k, v)]
  | (k', v') :: rest =>
      if eqb k' k then (k', v) :: rest else (k', v') :: dict_set k v rest
  end.
End Dict.

Definition num_value (v : json) : option Q :=
  match v with
  | JBool b => Some (if b then 1%Q else 0%Q)
  | JInt n => Some (inject_Z n)
  | JFloat q => Some q
  | _ => None
  end.

(** Equality of two hashable keys: [True == 1 == 1.0]. *)
Definition py_key_eqb (a b : json) : bool :=
  match a, b with
  | JStr s, JStr t => String.eqb s t
  | JNull, JNull => true
  | _, _ =>
      match num_value a, num_value b with
      | Some x, Some y => Qeq_bool x y
      | _, _ => false
      end
  end.

Definition py_hashable (v : json) : bool :=
  match v with
  | JArr _ | JObj _ => false
  | _ => true
  end.

(** ** State and exceptions *)

(** State and exceptions: a raised exception keeps the state reached. *)
Definition M (S A : Type) : Type := S -> result A * S.

Definition ret {S A} (a : A) : M S A := fun s => (Ok a, s).

Definition bind {S A B} (m : M S A) (k : A -> M S B) : M S B :=
  fun s =>
    match m s with
    | (Ok a, s') => k a s'
    | (Raise e, s') => (Raise e, s')
    end.

Definition lift {S A} (r : result A) : M S A := fun s => (r, s).

(** [try: m  except Exception as e: handler e] *)
Definition try_except {S A} (m : M S A) (handler : exn -> M S A) : M S A :=
  fun s =>
    match m s with
    | (Ok a, s') => (Ok a, s')
    | (Raise e, s') => handler e s'
    end.

(** A computation on the world, run where local variables [L] are also in
    scope. *)
Definition on_world {L W A} (m : M W A) : M (L * W) A :=
  fun s => let (r, w') := m (snd s) in (r, (fst s, w')).

Definition modify {S} (f : S -> S) : M S unit := fun s => (Ok tt, f s).

Fixpoint for_each {S A} (l : list A) (body : A -> M S unit) : M S unit :=
  match l with
  | [] => ret tt
  | x :: rest => bind (body x) (fun _ => for_each rest body)
  end.

Declare Scope monad_scope.
Delimit Scope monad_scope with monad.
Notation "x <- m ;; k" := (bind m (fun x => k))
  (at level 61, m at next level, right associativity) : monad_scope.

(** [str(v)], as an f-string formats [v]. *)
Definition py_str `{Runtime} (v : json) : string :=
  match v with
  | JStr s => s
  | JNull => "None"
  | JBool true => "True"
  | JBool false => "False"
  | JInt n => NilZero.string_of_int (Z.to_int n)
  | _ => py_repr v
  end.

(** ** [get_youtube_shorts] (lines 49-98) *)

Record video_info : Type := mk_video_info {
  title : json;
  video_id : json;
  view_count : Z;
  like_count : Z;
  published_at : json;
  channel_title : json;
  url : string
}.

(** Line 78: [parse_iso8601_duration(video['contentDetails']['duration'])];
    [re.match] refuses anything but a string. *)
Definition video_duration `{Runtime} (video : json) : result Z :=
  (details <-? py_getitem video "contentDetails";
   d <-? py_getitem details "duration";
   match d with
   | JStr duration_str => parse_iso8601_duration duration_str
   | _ => Raise TypeError
   end)%result.

(** [int(video['statistics'].get(field, 0))] *)
Definition statistic `{Runtime} (video : json) (field : string) : result Z :=
  (stats <-? py_getitem video "statistics";
   v <-? py_get stats field (JInt 0);
   py_int v)%result.

(** Lines 82-90, the entries in the order the dict display evaluates them. *)
Definition make_video_info `{Runtime} (video : json) : result video_info :=
  (snippet <-? py_getitem video "snippet";
   t <-? py_getitem snippet "title";
   vid <-? py_getitem video "id";
   views <-? statistic video "viewCount";
   likes <-? statistic video "likeCount";
   snippet' <-? py_getitem video "snippet";
   published <-? py_getitem snippet' "publishedAt";
   snippet'' <-? py_getitem video "snippet";
   channel <-? py_getitem snippet'' "channelTitle";
   vid' <-? py_getitem video "id";
   Ok (mk_video_info t vid views likes published channel
         ("https://www.youtube.com/watch?v=" ++ py_str vid')))%result.

(** Lines 77-91: the loop over [video_response['items']], [videos] being the
    list built so far. *)
Fixpoint collect_videos `{Runtime} (items : list json) (videos : list video_info)
    : result (list video_info) :=
  match items with
  | [] => Ok videos
  | video :: rest =>
      (duration <-? video_duration video;
       if duration <=? 60
       then (info <-? make_video_info video;
             collect_videos rest (videos ++ [info]))
       else collect_videos rest videos)%result
  end.

(** Line 94 *)
Definition rank_videos (videos : list video_info) (max_results : Z) : list video_info :=
  py_slice_to max_results (sorted_reverse view_count videos).

(** Line 69 *)
Definition search_video_ids (search_response : json) : result (list json) :=
  (items <-? py_getitem search_response "items";
   l <-? py_iter items;
   map_result (fun item => id <-? py_getitem item "id"; py_getitem id "videoId") l)%result.

(** Line 77: the items the loop visits. *)
Definition response_items (video_response : json) : result (list json) :=
  (items <-? py_getitem video_response "items";
   py_iter items)%result.

(** Lines 77-94 on the items of the detail response. *)
Definition rank_items `{Runtime} (items : list json) (max_results : Z)
    : result (list video_info) :=
  (videos <-? collect_videos items [];
   Ok (rank_videos videos max_results))%result.

(** Lines 77-94 on the answer of the detail request. *)
Definition rank_response `{Runtime} (video_response : json) (max_results : Z)
    : result (list video_info) :=
  (items <-? response_items video_response;
   rank_items items max_results)%result.

(** Lines 52-75: both requests; the answer of the second one. *)
Definition fetch_video_response `{Runtime} (search_query : json) (days_ago : Z)
    : M world json :=
  (_ <- youtube_build;;
   search_response <- youtube_search (py_str search_query ++ " #shorts") days_ago;;
   video_ids <- lift (search_video_ids search_response);;
   ids <- lift (join_comma video_ids);;
   youtube_videos ids)%monad.

(** The body of the [try] block. *)
Definition get_youtube_shorts_try `{Runtime} (search_query : json)
    (days_ago max_results : Z) : M world (list video_info) :=
  (video_response <- fetch_video_response search_query days_ago;;
   lift (rank_response video_response max_results))%monad.

Definition get_youtube_shorts `{Runtime} (search_query : json)
    (days_ago max_results : Z) : M world (list video_info) :=
  try_except (get_youtube_shorts_try search_query days_ago max_results)
    (fun e =>
       (_ <- modify (console_print ("YouTube API 오류: " ++ exn_str e));;
        ret [])%monad).

(** ** The analysis loop of [main] (lines 150-206) *)

Inductive country : Type := Korea | USA | Japan.

Definition country_eqb (a b : country) : bool :=
  match a, b with
  | Korea, Korea | USA, USA | Japan, Japan => true
  | _, _ => false
  end.

Definition country_eq_dec (a b : country) : {a = b} + {a <> b}.
Proof. decide equality. Defined.

(** The keys of [COUNTRY_QUERIES], which are also the options of the
    country selector. *)
Definition country_name (c : country) : string :=
  match c with
  | Korea => "한국"
  | USA => "미국"
  | Japan => "일본"
  end.

Record country_query : Type := mk_country_query {
  term : string;
  geo : string;
  hl : string
}.

Definition COUNTRY_QUERIES (c : country) : country_query :=
  match c with
  | Korea => mk_country_query "밈" "KR" "ko"
  | USA => mk_country_query "meme" "US" "en"
  | Japan => mk_country_query "ミーム" "JP" "ja"
  end.

Inductive period : Type := LastDay | LastWeek | LastMonth | LastYear.

Definition PERIOD_OPTIONS (p : period) : Z :=
  match p with
  | LastDay => 1
  | LastWeek => 7
  | LastMonth => 30
  | LastYear => 365
  end.

(** A value of [results]: [{"rising_related_queries": [...]}] with its
    [{"query": q, "value": v}] items, or [{"error": msg}]. *)
Inductive country_result : Type :=
| RisingQueries (rising_related_queries : list (json * json))
| CountryError (msg : string).

(** The two dicts the loop fills: [results] and [youtube_results]. *)
Record report : Type := mk_report {
  results : list (country * country_result);
  youtube_results : list (country * list (json * list video_info))
}.

Definition empty_report : report := mk_report [] [].

Definition set_result (c : country) (r : country_result) (rep : report) : report :=
  mk_report (dict_set country_eqb c r (results rep)) (youtube_results rep).

Definition set_youtube (c : country) (d : list (json * list video_info))
    (rep : report) : report :=
  mk_report (results rep) (dict_set country_eqb c d (youtube_results rep)).

(** [v[:n]] for a non-negative [n] on a decoded value.  A dict refuses a
    slice (with [TypeError], or with [KeyError] from Python 3.12 on), and so
    do numbers, booleans and [None]. *)
Definition py_slice_json (v : json) (n : nat) : result json :=
  match v with
  | JArr items => Ok (JArr (firstn n items))
  | JStr s => Ok (JStr (substring 0 n s))
  | _ => Raise TypeError
  end.

(** Lines 176-177 *)
Definition rising_queries_of (data : json) : result json :=
  (related_queries <-? py_get data "related_queries" (JObj []);
   rising <-? py_get related_queries "rising" JNull;
   if py_truthy rising
   then (rising' <-? py_get related_queries "rising" (JArr []);
         py_slice_json rising' 15)
   else Ok (JArr []))%result.

(** Lines 180-183: one [{"query": ..., "value": ...}] per item. *)
Definition query_value (item : json) : result (json * json) :=
  (q <-? py_getitem item "query";
   v <-? py_getitem item "value";
   Ok (q, v))%result.

(** Line 194: [youtube_results[country][key] = shorts_data] *)
Definition store_shorts {W} (c : country) (key : json)
    (shorts_data : list video_info) : M (report * W) unit :=
  fun s =>
    let rep := fst s in
    match dict_get country_eqb c (youtube_results rep) with
    | None => (Raise (KeyError (country_name c)), s)
    | Some d =>
        if py_hashable key
        then (Ok tt, (set_youtube c (dict_set py_key_eqb key shorts_data d) rep, snd s))
        else (Raise TypeError, s)
    end.

(** Lines 190-194: one pass of the inner loop. *)
Definition search_shorts `{Runtime} (selected_period : period) (c : country)
    (item : json) : M (report * world) unit :=
  (key <- lift (py_getitem item "query");;
   shorts_data <- on_world (get_youtube_shorts key (PERIOD_OPTIONS selected_period) 5);;
   key' <- lift (py_getitem item "query");;
   store_shorts c key' shorts_data)%monad.

(** Lines 159-194: the body of the [try] block for one country. *)
Definition process_country_try `{Runtime} (selected_period : period) (c : country)
    : M (report * world) unit :=
  (let q := COUNTRY_QUERIES c in
   data <- on_world (serpapi_search (term q) (geo q) (hl q));;
   rising_queries <- lift (rising_queries_of data);;
   items <- lift (py_iter rising_queries);;
   pairs <- lift (map_result query_value items);;
   _ <- modify (fun s => (set_result c (RisingQueries pairs) (fst s), snd s));;
   _ <- modify (fun s => (set_youtube c [] (fst s), snd s));;
   for_each items (search_shorts selected_period c))%monad.

(** Lines 158-198 *)
Definition process_country `{Runtime} (selected_period : period) (c : country)
    : M (report * world) unit :=
  try_except (process_country_try selected_period c)
    (fun e => modify (fun s => (set_result c (CountryError (exn_str e)) (fst s), snd s))).

(** Lines 150-201: the whole loop, from two empty dicts. *)
Definition run_analysis `{Runtime} (selected_countries : list country)
    (selected_period : period) (w : world) : result unit * (report * world) :=
  for_each selected_countries (process_country selected_period) (empty_report, w).

(** ** The workbook export of [main] (lines 211-343) *)

Definition row : Type := list (string * json).

Record sheet : Type := mk_sheet {
  sheet_name : string;
  sheet_rows : list row
}.

(** The sheets of [writer.book], in the order of their creation.  The writer
    starts without any sheet. *)
Definition workbook : Type := list sheet.

(** Lines 219-235: the row of one video. *)
Definition youtube_row `{Runtime} (c : country) (query : json) (short : video_info)
    : result row :=
  (let thumbnail_url :=
     "https://i.ytimg.com/vi/" ++ py_str (video_id short) ++ "/hqdefault.jpg" in
   date <-? published_date (published_at short);
   Ok [("Country", JStr (country_name c));
       ("Search Query", query);
       ("Title", title short);
       ("Channel", channel_title short);
       ("Views", JInt (view_count short));
       ("Likes", JInt (like_count short));
       ("Published Date", JStr date);
       ("url", JStr (url short));
       ("thumbnail_url", JStr thumbnail_url)])%result.

(** Lines 215-235 *)
Definition youtube_data `{Runtime}
    (yr : list (country * list (json * list video_info))) : result (list row) :=
  (per_country <-? map_result (fun cq : country * list (json * list video_info) =>
     per_query <-? map_result (fun qs : json * list video_info =>
       map_result (youtube_row (fst cq) (fst qs)) (snd qs)) (snd cq);
     Ok (List.concat per_query)) yr;
   Ok (List.concat per_country))%result.

(** Lines 241-248: [data.get("rising_related_queries", [])] is empty for an
    entry that holds an error. *)
Definition trends_data (rs : list (country * country_result)) : list row :=
  flat_map (fun cr : country * country_result =>
    match snd cr with
    | RisingQueries l =>
        map (fun qv : json * json =>
               [("Country", JStr (country_name (fst cr)));
                ("Related Query", fst qv);
                ("Value", snd qv)]) l
    | CountryError _ => []
    end) rs.

(** [pd.DataFrame(rows).to_excel(writer, sheet_name=name, index=False)] on
    the sheets of the writer.  When the call raises after the sheet was
    created, the sheet stays in the workbook, its cells partly written. *)
Definition to_excel `{Runtime} (name : string) (rows : list row) : M workbook unit :=
  fun book =>
    match to_excel_error name rows with
    | Some (e, created) =>
        (Raise e, if created then (book ++ [mk_sheet name rows])%list else book)
    | None => (Ok tt, (book ++ [mk_sheet name rows])%list)
    end.

(** [writer.sheets[name]] *)
Fixpoint find_sheet (name : string) (book : workbook) : result sheet :=
  match book with
  | [] => Raise (KeyError name)
  | sh :: rest => if String.eqb (sheet_name sh) name then Ok sh else find_sheet name rest
  end.

(** Lines 255-330, the styling loop: it looks the sheet up and then changes
    fills, fonts, alignments, sizes, images and links of its cells; every
    fallible step of it sits in its own [try]. *)
Definition style_sheet (name : string) : M workbook unit :=
  fun book =>
    match find_sheet name book with
    | Ok _ => (Ok tt, book)
    | Raise e => (Raise e, book)
    end.

(** Lines 214-330: the body of the [with] block. *)
Definition export_body `{Runtime} (rep : report) : M workbook unit :=
  (rows <- lift (youtube_data (youtube_results rep));;
   _ <- to_excel "YouTube Shorts" rows;;
   _ <- to_excel "Meme Keyword" (trends_data (results rep));;
   for_each ["YouTube Shorts"; "Meme Keyword"] style_sheet)%monad.

(** Leaving the [with] block saves the workbook; one without a sheet cannot
    be saved. *)
Definition save_workbook (book : workbook) : result unit :=
  match book with
  | [] => Raise IndexError
  | _ :: _ => Ok tt
  end.

(** Lines 211-341.  The writer starts without a sheet and saves on leaving
    the block, also when the body has raised; an exception of the save then
    takes the place of the one that was under way.  The outcome is the
    workbook offered for download, or the exception that line 342
    catches. *)
Definition export_excel `{Runtime} (rep : report) : result workbook :=
  let (r, book) := export_body rep [] in
  (_ <-? save_workbook book;
   _ <-? r;
   Ok book)%result.

(** ** The download section of [main] (lines 397-463) *)

(** A cell of the uploaded sheet as [pd.read_excel] delivers it. *)
Inductive xl_cell : Type :=
| XlMissing
| XlStr (s : string)
| XlNumber (q : Q)
| XlBool (b : bool)
| XlTimestamp (iso : string).

Definition pd_isna (c : xl_cell) : bool :=
  match c with
  | XlMissing => true
  | _ => false
  end.

Definition isinstance_str (c : xl_cell) : bool :=
  match c with
  | XlStr _ => true
  | _ => false
  end.

(** [s.startswith(needle)] *)
Fixpoint starts_with (needle s : string) : bool :=
  match needle, s with
  | EmptyString, _ => true
  | String a needle', String b s' => Ascii.eqb a b && starts_with needle' s'
  | String _ _, EmptyString => false
  end.

(** [needle in hay] *)
Fixpoint str_contains (needle hay : string) : bool :=
  starts_with needle hay
  || match hay with
     | EmptyString => false
     | String _ rest => str_contains needle rest
     end.

(** [s.split(sep)] for a separator of one character. *)
Fixpoint split_on (sep : ascii) (s : string) : list string :=
  match s with
  | EmptyString => [EmptyString]
  | String c rest =>
      if Ascii.eqb c sep then EmptyString :: split_on sep rest
      else match split_on sep rest with
           | piece :: pieces => String c piece :: pieces
           | [] => [String c EmptyString]
           end
  end.

(** Lines 417-419 *)
Definition normalize_url (url : string) : string :=
  if str_contains "youtube.com/shorts/" url
  then let video_id := last (split_on "/" url) EmptyString in
       "https://www.youtube.com/watch?v=" ++ video_id
  else url.

(** Lines 412-420: the loop over the rows, reading the cell of column
    [url]; [video_links] is the list built so far. *)
Fixpoint build_video_links (urls : list xl_cell) (video_links : list string)
    : list string :=
  match urls with
  | [] => video_links
  | cell :: rest =>
      if pd_isna cell || negb (isinstance_str cell)
      then build_video_links rest video_links
      else match cell with
           | XlStr url => build_video_links rest (video_links ++ [normalize_url url])
           | _ => build_video_links rest video_links
           end
  end.

Record download_summary : Type := mk_download_summary {
  video_links : list string;
  num_videos : Z;
  downloaded_count : Z;
  failed_list : list (string * string)
}.

(** Lines 441-451: one attempt per link, failures collected. *)
Fixpoint download_loop `{Runtime} (links : list string)
    (failed : list (string * string)) (downloaded : Z)
    : M world (list (string * string) * Z) :=
  match links with
  | [] => ret (failed, downloaded)
  | link :: rest =>
      (st <- try_except
               (_ <- ydl_download link;; ret (failed, downloaded + 1))
               (fun e => ret ((failed ++ [(link, exn_str e)])%list, downloaded));;
       download_loop rest (fst st) (snd st))%monad
  end.

(** [df.get(name)] on the columns of a frame. *)
Fixpoint column (name : string) (df : list (string * list xl_cell))
    : option (list xl_cell) :=
  match df with
  | [] => None
  | (k, v) :: rest => if String.eqb k name then Some v else column name rest
  end.

(** Lines 400-456: [None] when the sheet has no column [url]. *)
Definition download_videos `{Runtime} (df_urls : list (string * list xl_cell))
    : M world (option download_summary) :=
  match column "url" df_urls with
  | None => ret None
  | Some urls =>
      (let links := build_video_links urls [] in
       st <- download_loop links [] 0;;
       ret (Some (mk_download_summary links (Z.of_nat (List.length links))
                    (snd st) (fst st))))%monad
  end.

(** ** The result display of [main] (lines 346-382) *)

(** The calls into the user interface that the display makes. *)
Inductive st_widget : Type :=
| StHeader (text : string)
| StColumns
| StSubheader (text : string)
| StTrends (rows : list (json * json))
| StWrite (text : string)
| StTabs (labels : list json)
| StShorts (shorts : list video_info).

Definition COUNTRY_FLAGS (c : country) : string :=
  match c with
  | Korea => "🇰🇷"
  | USA => "🇺🇸"
  | Japan => "🇯🇵"
  end.

(** [entry["rising_related_queries"]] *)
Definition rising_of_entry (entry : country_result) : result (list (json * json)) :=
  match entry with
  | RisingQueries l => Ok l
  | CountryError _ => Raise (KeyError "rising_related_queries")
  end.

Section Display.
Context {RT : Runtime}.
(** A call into the user interface: what it does to the world and whether
    it raises is up to the library. *)
Variable st_call : st_widget -> M world unit.

(** Lines 368-379: the content of one tab. *)
Definition display_tab (tab : json * list video_info) : M world unit :=
  match snd tab with
  | _ :: _ =>
      (_ <- st_call (StWrite ("**키워드: " ++ py_str (fst tab) ++ "**"));;
       st_call (StShorts (snd tab)))%monad
  | [] => st_call (StWrite "검색 결과가 없습니다.")
  end.

(** Lines 349-382: the section of one country. *)
Definition display_country (rep : report) (c : country) : M world unit :=
  (_ <- st_call (StHeader (COUNTRY_FLAGS c ++ " " ++ country_name c));;
   _ <- st_call StColumns;;
   _ <- st_call (StSubheader "급상승 검색어");;
   entry <- lift (match dict_get country_eqb c (results rep) with
                  | Some entry => Ok entry
                  | None => Raise (KeyError (country_name c))
                  end);;
   rows <- lift (rising_of_entry entry);;
   _ <- match rows with
        | _ :: _ => st_call (StTrends rows)
        | [] => st_call (StWrite "검색 결과가 없습니다.")
        end;;
   _ <- st_call (StSubheader "YouTube Shorts 결과");;
   _ <- match dict_get country_eqb c (youtube_results rep) with
        | Some tabs =>
            (_ <- st_call (StTabs (map fst tabs));;
             for_each tabs display_tab)%monad
        | None => ret tt
        end;;
   st_call (StWrite ""))%monad.

(** Lines 346-382: one section per key of [results], in order. *)
Definition display_results (rep : report) : M world unit :=
  for_each (map fst (results rep)) (display_country rep).
End Display.

(** ** Vocabulary of the statements *)

(** One unit of a duration [PT[nH][nM][nS]]: its digits when present. *)
Definition duration_field (n : option string) (unit_letter : string) : string :=
  match n with
  | Some digits => digits ++ unit_letter
  | None => ""
  end.

Definition field_wf (n : option string) : Prop :=
  match n with
  | Some digits => digits <> "" /\ all_digits digits = true
  | None => True
  end.

Definition field_value (n : option string) : Z :=
  match n with
  | Some digits => int_of_digits digits
  | None => 0
  end.

(** The digits of a unit are few enough for [int()] to convert them. *)
Definition field_allowed `{Runtime} (n : option string) : Prop :=
  match n with
  | Some digits => digits_allowed (Z.of_nat (String.length digits)) = true
  | None => True
  end.

(** What a group of the regular expression can capture out of [s]: nothing,
    or a non-empty run of digits that is not longer than [s]. *)
Definition capture_of (s : string) (g : option string) : Prop :=
  match g with
  | Some d =>
      d <> "" /\ all_digits d = true /\ (String.length d <= String.length s)%nat
  | None => True
  end.

(** Orders on the sort key, and the elements that carry a given key. *)
Definition ascending {A} (key : A -> Z) (a b : A) : Prop := key a <= key b.
Definition descending {A} (key : A -> Z) (a b : A) : Prop := key b <= key a.

Fixpoint has_char (c : ascii) (s : string) : bool :=
  match s with
  | EmptyString => false
  | String x rest => Ascii.eqb x c || has_char c rest
  end.

Definition no_slash (s : string) : Prop := has_char "/" s = false.

(** The cells of a column that hold a string, in order. *)
Definition string_cells (urls : list xl_cell) : list string :=
  flat_map (fun cell => match cell with XlStr s => [s] | _ => [] end) urls.

(** Two reports agree on every country but [c]. *)
Definition same_elsewhere (c : country) (rep rep' : report) : Prop :=
  forall b, b <> c ->
    dict_get country_eqb b (results rep') = dict_get country_eqb b (results rep) /\
    dict_get country_eqb b (youtube_results rep')
    = dict_get country_eqb b (youtube_results rep).

(** The provider reports no rising queries: the answer has no
    [related_queries], or that has no [rising], an empty one or [null]. *)
Definition reports_no_rising (data : json) : Prop :=
  exists fields,
    data = JObj fields /\
    (assoc "related_queries" fields = None \/
     exists related,
       assoc "related_queries" fields = Some (JObj related) /\
       (assoc "rising" related = None \/
        assoc "rising" related = Some (JArr []) \/
        assoc "rising" related = Some JNull)).

(** [str(n)] for a natural number: its decimal numeral. *)
Definition decimal (n : nat) : string := NilZero.string_of_uint (Nat.to_uint n).

Definition first_is_digit (s : string) : bool :=
  match s with
  | String c _ => is_digit c
  | EmptyString => false
  end.

(** The number a unit stands for, an absent unit standing for zero. *)
Definition unit_count (n : option nat) : Z :=
  match n with
  | Some k => Z.of_nat k
  | None => 0
  end.

(** What the download loop has to report when the fate of a download
    depends on the link alone. *)
Definition expected_failures `{Runtime} (verdict : string -> result unit)
    (links : list string) : list (string * string) :=
  flat_map (fun link =>
              match verdict link with
              | Raise e => [(link, exn_str e)]
              | Ok _ => []
              end) links.

Definition expected_successes (verdict : string -> result unit)
    (links : list string) : Z :=
  Z.of_nat (List.length (filter (fun link =>
                                   match verdict link with
                                   | Ok _ => true
                                   | Raise _ => false
                                   end) links)).

(** The number of videos and of rising queries that a report holds. *)
Definition video_total (yr : list (country * list (json * list video_info))) : nat :=
  list_sum (map (fun cq : country * list (json * list video_info) =>
                   list_sum (map (fun qs : json * list video_info =>
                                    List.length (snd qs)) (snd cq))) yr).

Definition rising_total (rs : list (country * country_result)) : nat :=
  list_sum (map (fun cr : country * country_result =>
                   match snd cr with
                   | RisingQueries l => List.length l
                   | CountryError _ => 0%nat
                   end) rs).

(** The headers of the two sheets. *)
Definition youtube_columns : list string :=
  ["Country"; "Search Query"; "Title"; "Channel"; "Views"; "Likes";
   "Published Date"; "url"; "thumbnail_url"].

Definition trends_columns : list string := ["Country"; "Related Query"; "Value"].

(** Lines 176-183 as one value: the pairs that [results[country]] is to
    hold. *)
Definition rising_pairs (data : json) : result (list (json * json)) :=
  (rising_queries <-? rising_queries_of data;
   items <-? py_iter rising_queries;
   map_result query_value items)%result.

(** Sizes in a report: at most 15 queries with videos for a country, at
    most 5 videos for a query. *)
Definition report_bounded (rep : report) : Prop :=
  forall c d,
    dict_get country_eqb c (youtube_results rep) = Some d ->
    (List.length d <= 15)%nat /\
    forall k shorts, In (k, shorts) d -> (List.length shorts <= 5)%nat.

(** How the inner loop may change a report whose videos for [c] were [d]:
    only the videos of [c] change, to [d'], which has at most [n] more
    queries than [d], no query less, and where every list that is new
    satisfies [P]. *)
Definition shorts_grow (P : list video_info -> Prop) (c : country)
    (rep rep' : report) (d d' : list (json * list video_info)) (n : nat) : Prop :=
  results rep' = results rep /\
  same_elsewhere c rep rep' /\
  dict_get country_eqb c (youtube_results rep') = Some d' /\
  (List.length d' <= List.length d + n)%nat /\
  (forall k s, In (k, s) d' -> In (k, s) d \/ P s) /\
  (forall q, dict_get py_key_eqb q d <> None -> dict_get py_key_eqb q d' <> None).

(** A list of videos that [get_youtube_shorts] returned, called as the
    analysis loop calls it, for some query and in some state of the world. *)
Definition stage_output `{Runtime} (p : period) (shorts : list video_info) : Prop :=
  exists search_query w w',
    get_youtube_shorts search_query (PERIOD_OPTIONS p) 5 w = (Ok shorts, w').

(** Every list of videos in the report satisfies [P]. *)
Definition report_lists (P : list video_info -> Prop) (rep : report) : Prop :=
  forall c d k shorts,
    dict_get country_eqb c (youtube_results rep) = Some d ->
    In (k, shorts) d -> P shorts.

(** The video was built from an item of some detail response whose parsed
    duration is at most 60 seconds. *)
Definition from_short_item `{Runtime} (info : video_info) : Prop :=
  exists ids w w' video_response items video dur,
    youtube_videos ids w = (Ok video_response, w') /\
    response_items video_response = Ok items /\
    In video items /\
    video_duration video = Ok dur /\ dur <= 60 /\
    make_video_info video = Ok info.

(** ** A concrete runtime, used to run the program on examples *)

Definition demo_video (id duration : string) (stats : list (string * json)) : json :=
  JObj [("id", JStr id);
        ("snippet", JObj [("title", JStr ("title " ++ id));
                          ("publishedAt", JStr "2024-05-01T10:00:00Z");
                          ("channelTitle", JStr "channel")]);
        ("statistics", JObj stats);
        ("contentDetails", JObj [("duration", JStr duration)])].

Definition demo_short : json :=
  demo_video "a" "PT30S" [("viewCount", JStr "100"); ("likeCount", JStr "3")].

Definition demo_long : json :=
  demo_video "b" "PT2M" [("viewCount", JStr "999999"); ("likeCount", JStr "9")].

Definition demo_uncounted : json := demo_video "c" "PT45S" [].

Definition demo_tail : list json :=
  [demo_video "d" "PT1M" [("viewCount", JStr "100")];
   demo_video "e" "PT59S" [("viewCount", JStr "500"); ("likeCount", JStr "1")];
   demo_video "f" "PT10S" [("viewCount", JStr "50")];
   demo_video "g" "PT5S" [("viewCount", JStr "7")]].

Definition demo_items : list json :=
  demo_short :: demo_long :: demo_uncounted :: demo_tail.

Definition demo_search_response : json :=
  JObj [("items", JArr (map (fun id => JObj [("id", JObj [("videoId", JStr id)])])
                          ["a"; "b"; "c"; "d"; "e"; "f"; "g"]))].

Definition demo_rising (n : nat) : list json :=
  map (fun i => JObj [("query", JStr ("meme " ++ NilZero.string_of_uint (Nat.to_uint i)));
                      ("value", JInt (Z.of_nat (100 * i)))])
      (seq 1 n).

Definition demo_exn_str (e : exn) : string :=
  match e with
  | KeyError key => "'" ++ key ++ "'"
  | TypeError => "type error"
  | ValueError => "value error"
  | AttributeError => "attribute error"
  | IndexError => "index error"
  | External tag => tag
  end.

(** The world is the text printed so far.  The search is out of quota for
    the query [down]; the trend provider fails for Korea, reports twenty
    rising queries for the USA and none for Japan; a link that contains
    [gone] cannot be downloaded. *)
Definition demo_runtime : Runtime := {|
  world := list string;
  py_repr := fun _ => "<repr>";
  exn_str := demo_exn_str;
  int_max_str_digits := 4300;
  console_print := fun line w => (w ++ [line])%list;
  youtube_build := fun w => (Ok tt, w);
  youtube_search := fun q _ w =>
    if String.eqb q "down #shorts" then (Raise (External "quotaExceeded"), w)
    else (Ok demo_search_response, w);
  youtube_videos := fun _ w => (Ok (JObj [("items", JArr demo_items)]), w);
  serpapi_search := fun _ geo _ w =>
    if String.eqb geo "KR" then (Raise (External "500 Server Error"), w)
    else if String.eqb geo "US"
    then (Ok (JObj [("related_queries", JObj [("rising", JArr (demo_rising 20))])]), w)
    else (Ok (JObj [("search_metadata", JObj [])]), w);
  published_date := fun v =>
    match v with
    | JStr s => Ok (substring 0 10 s)
    | _ => Raise TypeError
    end;
  to_excel_error := fun _ _ => None;
  ydl_download := fun link w =>
    if str_contains "gone" link then (Raise (External "Video unavailable"), w)
    else (Ok tt, w)
|}.

(** What the loop of [get_youtube_shorts] collects from [demo_items]. *)
Definition demo_candidates : list video_info :=
  match @collect_videos demo_runtime demo_items [] with
  | Ok videos => videos
  | Raise _ => []
  end.

Definition demo_uncounted_info : video_info :=
  mk_video_info (JStr "title c") (JStr "c") 0 0 (JStr "2024-05-01T10:00:00Z")
    (JStr "channel") "https://www.youtube.com/watch?v=c".

(** The report of a run over the three countries on the concrete runtime. *)
Definition demo_report : report :=
  fst (snd (@run_analysis demo_runtime [Japan; Korea; USA] LastYear [])).

(** An item of the detail response that is short enough but lacks its
    [snippet]. *)
Definition demo_bare : json :=
  JObj [("id", JStr "x");
        ("statistics", JObj [("viewCount", JStr "1")]);
        ("contentDetails", JObj [("duration", JStr "PT5S")])].

(** [demo_runtime] with a detail response that holds [demo_bare] between
    two well-formed items. *)
Definition demo_runtime_bare : Runtime := {|
  world := list string;
  py_repr := @py_repr demo_runtime;
  exn_str := demo_exn_str;
  int_max_str_digits := 4300;
  console_print := @console_print demo_runtime;
  youtube_build := @youtube_build demo_runtime;
  youtube_search := @youtube_search demo_runtime;
  youtube_videos := fun _ w =>
    (Ok (JObj [("items", JArr [demo_short; demo_bare; demo_uncounted])]), w);
  serpapi_search := @serpapi_search demo_runtime;
  published_date := @published_date demo_runtime;
  to_excel_error := @to_excel_error demo_runtime;
  ydl_download := @ydl_download demo_runtime
|}.

(** An item whose duration has a day part, and the entries built from it
    and from [demo_short]. *)
Definition demo_day_long : json :=
  demo_video "z" "P1DT2H3M" [("viewCount", JStr "42")].

Definition demo_day_long_info : video_info :=
  mk_video_info (JStr "title z") (JStr "z") 42 0 (JStr "2024-05-01T10:00:00Z")
    (JStr "channel") "https://www.youtube.com/watch?v=z".

Definition demo_short_info : video_info :=
  mk_video_info (JStr "title a") (JStr "a") 100 3 (JStr "2024-05-01T10:00:00Z")
    (JStr "channel") "https://www.youtube.com/watch?v=a".

Definition demo_verdict (link : string) : result unit :=
  if str_contains "gone" link then Raise (External "Video unavailable") else Ok tt.

(** A report with one video whose publication time is [null]. *)
Definition demo_undated_info : video_info :=
  mk_video_info (JStr "title u") (JStr "u") 9 0 JNull (JStr "channel")
    "https://www.youtube.com/watch?v=u".

Definition demo_report_undated : report :=
  mk_report [(USA, RisingQueries [(JStr "cat", JInt 100)])]
            [(USA, [(JStr "cat", [demo_short_info; demo_undated_info])])].

(** [demo_runtime] with a trend provider that answers [null]. *)
Definition demo_runtime_null : Runtime := {|
  world := list string;
  py_repr := @py_repr demo_runtime;
  exn_str := demo_exn_str;
  int_max_str_digits := 4300;
  console_print := @console_print demo_runtime;
  youtube_build := @youtube_build demo_runtime;
  youtube_search := @youtube_search demo_runtime;
  youtube_videos := @youtube_videos demo_runtime;
  serpapi_search := fun _ _ _ w => (Ok JNull, w);
  published_date := @published_date demo_runtime;
  to_excel_error := @to_excel_error demo_runtime;
  ydl_download := @ydl_download demo_runtime
|}.

(** The report after the [try] block of the USA on the concrete runtime. *)
Definition demo_report_usa : report :=
  fst (snd (@process_country_try demo_runtime LastYear USA (empty_report, []))).

(** A run of 4301 zeros, and the duration with that many digits of
    seconds. *)
Definition demo_long_run : string := string_of_list_ascii (repeat "0"%char 4301).

Definition demo_long_duration : string := "PT" ++ demo_long_run ++ "S".

(** A user interface that accepts every call and logs the headers. *)
Definition demo_st_call (widget : st_widget) : M (@world demo_runtime) unit :=
  fun w =>
    match widget with
    | StHeader text => (Ok tt, (w ++ [text])%list)
    | _ => (Ok tt, w)
    end.

(** The report of a run in which the second country fails. *)
Definition demo_report_failure : report :=
  fst (snd (@run_analysis demo_runtime [Japan; Korea; USA] LastYear [])).

(** * Properties *)

(** ** The duration parser *)

Example parse_example_mixed_order :
  @parse_iso8601_duration demo_runtime "PT1M2H" = Ok 60.
Proof. reflexivity. Qed.

Example parse_example_days : @parse_iso8601_duration demo_runtime "P1DT2H" = Ok 0.
Proof. reflexivity. Qed.

Example parse_example_trailing :
  @parse_iso8601_duration demo_runtime "PT1Hxyz" = Ok 3600.
Proof. reflexivity. Qed.

Lemma digit_value_bounds (c : ascii) :
  is_digit c = true -> 0 <= digit_value c <= 9.
Proof.
  unfold is_digit, digit_value. intros H.
  apply andb_prop in H as [Hlo Hhi].
  apply Nat.leb_le in Hlo, Hhi. lia.
Qed.

Lemma int_of_digits_acc_nonneg (s : string) :
  forall acc, all_digits s = true -> 0 <= acc -> 0 <= int_of_digits_acc acc s.
Proof.
  induction s as [|c s IH]; simpl; intros acc Hd Hacc.
  - exact Hacc.
  - apply andb_prop in Hd as [Hc Hs].
    apply IH; [exact Hs|].
    pose proof (digit_value_bounds c Hc). lia.
Qed.

(** [int_of_digits] is the value in base ten. *)
Lemma int_of_digits_snoc (s : string) (c : ascii) :
  int_of_digits (s ++ String c "") = int_of_digits s * 10 + digit_value c.
Proof.
  unfold int_of_digits. generalize 0 as acc.
  induction s as [|x s IH]; intros acc; simpl; [reflexivity|apply IH].
Qed.

Lemma span_digits_spec (s : string) :
  forall d r, span_digits s = (d, r) -> s = d ++ r /\ all_digits d = true.
Proof.
  induction s as [|c s IH]; simpl; intros d r H.
  - inversion H; subst. split; reflexivity.
  - destruct (is_digit c) eqn:Hc.
    + destruct (span_digits s) as [d' r'] eqn:Hs.
      inversion H; subst; clear H.
      destruct (IH d' r eq_refl) as [-> Hd']. simpl.
      rewrite Hc, Hd'. split; reflexivity.
    + inversion H; subst. split; reflexivity.
Qed.

Lemma span_digits_append (d : string) (c : ascii) (r : string) :
  all_digits d = true -> is_digit c = false ->
  span_digits (d ++ String c r) = (d, String c r).
Proof.
  intros Hd Hc. induction d as [|x d IH]; simpl in *.
  - rewrite Hc. reflexivity.
  - apply andb_prop in Hd as [Hx Hd]. rewrite Hx, (IH Hd). reflexivity.
Qed.

Lemma append_length (a b : string) :
  String.length (a ++ b) = (String.length a + String.length b)%nat.
Proof. induction a as [|x a IH]; simpl; [reflexivity|]. rewrite IH. reflexivity. Qed.

(** What a group captures is a non-empty run of digits out of the input,
    and the input only gets shorter. *)
Lemma match_unit_capture (u : ascii) (s : string) (g : option string) (r : string) :
  match_unit u s = (g, r) ->
  capture_of s g /\ (String.length r <= String.length s)%nat.
Proof.
  unfold match_unit. intros H.
  destruct (span_digits s) as [d r0] eqn:Hs.
  destruct (span_digits_spec _ _ _ Hs) as [Hsplit Hd].
  assert (Hnone : capture_of s None /\ (String.length s <= String.length s)%nat)
    by (split; [exact I|lia]).
  destruct d as [|x d]; [inversion H; subst; exact Hnone|].
  destruct r0 as [|c r0]; [inversion H; subst; exact Hnone|].
  destruct (Ascii.eqb c u); inversion H; subst g r; [|exact Hnone].
  assert (Hlen : String.length s
                 = (String.length (String x d) + String.length (String c r0))%nat)
    by (rewrite Hsplit at 1; apply append_length).
  cbn [String.length] in Hlen. cbn [capture_of String.length].
  split; [split; [discriminate|split; [exact Hd|lia]]|lia].
Qed.

(** A unit that is present is read, and the input moves past it. *)
Lemma match_unit_present (u : ascii) (d r : string) :
  d <> "" -> all_digits d = true -> is_digit u = false ->
  match_unit u (d ++ String u r) = (Some d, r).
Proof.
  intros Hne Hd Hu. unfold match_unit.
  rewrite (span_digits_append d u r Hd Hu).
  destruct d as [|x d]; [contradiction|].
  rewrite Ascii.eqb_refl. reflexivity.
Qed.

(** A run of digits that ends in another letter leaves the group empty and
    the input where it was. *)
Lemma match_unit_other (u c : ascii) (d r : string) :
  all_digits d = true -> is_digit c = false -> Ascii.eqb c u = false ->
  match_unit u (d ++ String c r) = (None, d ++ String c r).
Proof.
  intros Hd Hc Hcu. unfold match_unit.
  rewrite (span_digits_append d c r Hd Hc).
  destruct d as [|x d]; [reflexivity|].
  rewrite Hcu. reflexivity.
Qed.

Lemma match_unit_empty (u : ascii) : match_unit u "" = (None, "").
Proof. reflexivity. Qed.

Lemma capture_of_longer (s s' : string) (g : option string) :
  (String.length s <= String.length s')%nat -> capture_of s g -> capture_of s' g.
Proof.
  intros Hlen. destruct g as [d|]; [|trivial].
  intros (Hne & Hd & Hle). repeat split; [exact Hne|exact Hd|lia].
Qed.

Lemma re_match_duration_groups (s : string) (mt : duration_match) :
  re_match_duration s = Some mt ->
  capture_of s (group1 mt) /\ capture_of s (group2 mt) /\ capture_of s (group3 mt).
Proof.
  unfold re_match_duration.
  destruct s as [|p s]; [discriminate|].
  destruct s as [|t r0];
    [destruct p as [[] [] [] [] [] [] [] []]; discriminate|].
  destruct (Ascii.eqb p "P") eqn:Hp;
    [apply Ascii.eqb_eq in Hp; subst p|].
  2: { destruct p as [[] [] [] [] [] [] [] []]; try discriminate.
       all: destruct t as [[] [] [] [] [] [] [] []]; try discriminate. }
  destruct (Ascii.eqb t "T") eqn:Ht;
    [apply Ascii.eqb_eq in Ht; subst t|].
  2: { destruct t as [[] [] [] [] [] [] [] []]; try discriminate. }
  destruct (match_unit "H" r0) as [h r1] eqn:E1.
  destruct (match_unit "M" r1) as [m r2] eqn:E2.
  destruct (match_unit "S" r2) as [sec r3] eqn:E3.
  destruct (match_unit_capture _ _ _ _ E1) as [H1 L1].
  destruct (match_unit_capture _ _ _ _ E2) as [H2 L2].
  destruct (match_unit_capture _ _ _ _ E3) as [H3 L3].
  intros H; inversion H; subst; cbn [group1 group2 group3].
  repeat split; eapply capture_of_longer; try eassumption;
    cbn [String.length]; lia.
Qed.

Lemma append_unit (d : string) (u : ascii) (r : string) :
  (d ++ String u "") ++ r = d ++ String u r.
Proof. induction d as [|x d IH]; simpl; [reflexivity|]. rewrite IH. reflexivity. Qed.

Lemma append_empty_r (s : string) : s ++ "" = s.
Proof. induction s as [|x s IH]; simpl; [reflexivity|]. rewrite IH. reflexivity. Qed.

(** On a well-formed duration the three groups capture exactly the digits of
    the units that are present. *)
Lemma re_match_duration_fields (h m s : option string) :
  field_wf h -> field_wf m -> field_wf s ->
  re_match_duration
    ("PT" ++ duration_field h "H" ++ duration_field m "M" ++ duration_field s "S")
  = Some (mk_duration_match h m s).
Proof.
  intros Hh Hm Hs.
  change ("PT" ++ ?x) with (String "P" (String "T" x)).
  unfold re_match_duration.
  destruct h as [dh|], m as [dm|], s as [ds|]; simpl in Hh, Hm, Hs;
    unfold duration_field;
    repeat match goal with H : _ /\ _ |- _ => destruct H end;
    rewrite ?append_unit; simpl append;
    repeat first
      [ rewrite match_unit_present by (assumption || reflexivity)
      | rewrite match_unit_other by (assumption || reflexivity)
      | rewrite match_unit_empty ];
    reflexivity.
Qed.

Lemma re_match_duration_none (s : string) :
  re_match_duration s = None <-> prefix "PT" s = false.
Proof.
  unfold re_match_duration.
  destruct s as [|p s]; [simpl; tauto|].
  destruct s as [|t r0].
  - destruct p as [[] [] [] [] [] [] [] []]; simpl; tauto.
  - destruct (match_unit "H" r0) as [h r1], (match_unit "M" r1) as [m r2],
      (match_unit "S" r2) as [sec r3].
    destruct p as [[] [] [] [] [] [] [] []]; simpl; try tauto.
    destruct t as [[] [] [] [] [] [] [] []]; simpl; try tauto.
    destruct r0; simpl; split; intros; discriminate.
Qed.

(** *** [int()] on a run of digits *)

Lemma digit_not_space (c : ascii) : is_digit c = true -> is_space c = false.
Proof.
  unfold is_digit, is_space. intros H.
  apply andb_prop in H as [Hlo Hhi]. apply Nat.leb_le in Hlo, Hhi.
  cbv zeta.
  repeat match goal with
         | |- context [(?a <=? ?b)%nat] =>
             destruct (Nat.leb_spec a b)
         | |- context [(?a =? ?b)%nat] =>
             destruct (Nat.eqb_spec a b)
         end; try reflexivity; lia.
Qed.

Lemma lstrip_no_space (l : list ascii) :
  match l with c :: _ => is_space c = false | [] => True end -> lstrip l = l.
Proof. destruct l as [|c l]; simpl; [reflexivity|]. intros ->. reflexivity. Qed.

Lemma all_digits_forall (s : string) :
  all_digits s = true <-> Forall (fun c => is_digit c = true) (list_ascii_of_string s).
Proof.
  induction s as [|c s IH]; simpl.
  - split; [constructor|reflexivity].
  - rewrite andb_true_iff, IH. split.
    + intros [Hc Hs]. constructor; assumption.
    + intros H. inversion H; subst. split; assumption.
Qed.

Lemma strip_digits (s : string) : all_digits s = true -> strip s = s.
Proof.
  intros H. apply all_digits_forall in H. unfold strip.
  rewrite (lstrip_no_space (list_ascii_of_string s)).
  - rewrite lstrip_no_space.
    + rewrite rev_involutive. apply string_of_list_ascii_of_string.
    + apply Forall_rev in H.
      destruct (rev (list_ascii_of_string s)) as [|c l]; [exact I|].
      inversion H; subst. apply digit_not_space. assumption.
  - destruct (list_ascii_of_string s) as [|c l]; [exact I|].
    inversion H; subst. apply digit_not_space. assumption.
Qed.

Lemma int_literal_tail_digits (s : string) :
  forall acc, all_digits s = true ->
    int_literal_tail acc s = Some (int_of_digits_acc acc s).
Proof.
  induction s as [|c s IH]; intros acc H; simpl in *; [reflexivity|].
  apply andb_prop in H as [Hc Hs]. rewrite Hc. apply IH. exact Hs.
Qed.

Lemma count_digits_all (s : string) :
  all_digits s = true -> count_digits s = Z.of_nat (String.length s).
Proof.
  induction s as [|c s IH]; cbn [all_digits count_digits String.length];
    [reflexivity|].
  intros H. apply andb_prop in H as [Hc Hs].
  rewrite Hc, (IH Hs). lia.
Qed.

Section Parser.
Context {RT : Runtime}.

Lemma digits_allowed_small (n : Z) : n <= 640 -> digits_allowed n = true.
Proof.
  intros H. unfold digits_allowed.
  destruct (Z.ltb_spec 640 n); [lia|reflexivity].
Qed.

Lemma digits_allowed_unlimited (n : Z) :
  int_max_str_digits <= 0 -> digits_allowed n = true.
Proof.
  intros H. unfold digits_allowed.
  destruct (Z.ltb_spec 0 int_max_str_digits); [lia|].
  destruct (640 <? n); reflexivity.
Qed.

Lemma digits_allowed_le (n m : Z) :
  m <= n -> digits_allowed n = true -> digits_allowed m = true.
Proof.
  unfold digits_allowed. intros Hle H.
  destruct (Z.ltb_spec 640 m); [|reflexivity].
  destruct (Z.ltb_spec 640 n); [|lia].
  destruct (0 <? int_max_str_digits); [|reflexivity].
  destruct (Z.ltb_spec int_max_str_digits n); [discriminate H|].
  destruct (Z.ltb_spec int_max_str_digits m); [lia|reflexivity].
Qed.

(** [int()] reads a run of digits as its value in base ten, unless the run
    is longer than the interpreter allows. *)
Lemma int_of_string_digits_cases (s : string) :
  s <> "" -> all_digits s = true ->
  int_of_string s
  = if digits_allowed (Z.of_nat (String.length s))
    then Ok (int_of_digits s) else Raise ValueError.
Proof.
  intros Hne H. unfold int_of_string.
  rewrite (strip_digits s H), (count_digits_all s H).
  destruct s as [|c s]; [congruence|].
  simpl in H. apply andb_prop in H as [Hc Hs].
  assert (Hlit : int_literal (String c s) = Some (int_of_digits (String c s))).
  { unfold int_literal. rewrite Hc.
    rewrite (int_literal_tail_digits s _ Hs). reflexivity. }
  destruct c as [[] [] [] [] [] [] [] []]; try discriminate Hc;
    rewrite Hlit; reflexivity.
Qed.

Lemma int_of_string_digits (s : string) :
  s <> "" -> all_digits s = true ->
  digits_allowed (Z.of_nat (String.length s)) = true ->
  int_of_string s = Ok (int_of_digits s).
Proof.
  intros Hne H Ha. rewrite (int_of_string_digits_cases s Hne H), Ha. reflexivity.
Qed.

(** The value of a group that captured a run of digits, or nothing. *)
Lemma group_value_cases (mt : duration_match)
    (group : duration_match -> option string) :
  field_wf (group mt) ->
  group_value (Some mt) group
  = match group mt with
    | Some g =>
        if digits_allowed (Z.of_nat (String.length g))
        then Ok (int_of_digits g) else Raise ValueError
    | None => Ok 0
    end.
Proof.
  unfold group_value, field_wf.
  destruct (group mt) as [g|]; [|reflexivity].
  intros [Hne Hd]. rewrite <- (int_of_string_digits_cases g Hne Hd).
  destruct g; [congruence|reflexivity].
Qed.

Lemma group_value_some (mt : duration_match)
    (group : duration_match -> option string) :
  field_wf (group mt) -> field_allowed (group mt) ->
  group_value (Some mt) group = Ok (field_value (group mt)).
Proof.
  intros Hwf Ha. rewrite (group_value_cases mt group Hwf).
  unfold field_allowed, field_value in *.
  destruct (group mt) as [g|]; [rewrite Ha|]; reflexivity.
Qed.

(** What a group is worth when its capture comes out of [s]: a number that
    is not negative, or [ValueError] when the capture is longer than
    allowed. *)
Lemma group_value_outcome (s : string) (mt : duration_match)
    (group : duration_match -> option string) :
  capture_of s (group mt) ->
  (exists n, group_value (Some mt) group = Ok n /\ 0 <= n) \/
  (group_value (Some mt) group = Raise ValueError /\
   digits_allowed (Z.of_nat (String.length s)) = false).
Proof.
  intros Hc.
  assert (Hwf : field_wf (group mt)).
  { unfold capture_of in Hc. unfold field_wf.
    destruct (group mt); [split; apply Hc|exact I]. }
  rewrite (group_value_cases mt group Hwf).
  unfold capture_of in Hc. destruct (group mt) as [g|].
  - destruct Hc as (_ & Hd & Hlen).
    destruct (digits_allowed (Z.of_nat (String.length g))) eqn:Ha.
    + left. eexists. split; [reflexivity|].
      apply int_of_digits_acc_nonneg; [exact Hd|lia].
    + right. split; [reflexivity|].
      destruct (digits_allowed (Z.of_nat (String.length s))) eqn:Hs;
        [|reflexivity].
      assert (Hle : Z.of_nat (String.length g) <= Z.of_nat (String.length s))
        by lia.
      rewrite (digits_allowed_le _ _ Hle Hs) in Ha. discriminate Ha.
  - left. exists 0. split; [reflexivity|lia].
Qed.

(** The outcomes of the parser: a number that is not negative, or
    [ValueError], the latter only for a string longer than [int()] allows
    digits. *)
Lemma parse_iso8601_duration_outcome (s : string) :
  (exists n, parse_iso8601_duration s = Ok n /\ 0 <= n) \/
  (parse_iso8601_duration s = Raise ValueError /\
   digits_allowed (Z.of_nat (String.length s)) = false).
Proof.
  unfold parse_iso8601_duration.
  destruct (re_match_duration s) as [mt|] eqn:Hm.
  - destruct (re_match_duration_groups s mt Hm) as (C1 & C2 & C3).
    destruct (group_value_outcome s mt group1 C1) as [(n1 & -> & P1)|[-> Hs]];
      cbn [rbind]; [|right; auto].
    destruct (group_value_outcome s mt group2 C2) as [(n2 & -> & P2)|[-> Hs]];
      cbn [rbind]; [|right; auto].
    destruct (group_value_outcome s mt group3 C3) as [(n3 & -> & P3)|[-> Hs]];
      cbn [rbind]; [|right; auto].
    left. eexists. split; [reflexivity|lia].
  - left. exists 0. split; [reflexivity|lia].
Qed.

(** C3, as the code has it.  [parse_iso8601_duration] reads
    [PT[nH][nM][nS]] as hours * 3600 + minutes * 60 + seconds, a missing
    unit counting for zero, when no unit has more digits than [int()]
    converts; [PT1H2M3S] gives 3723, [PT45S] gives 45, [PT] gives 0; a
    string on which the regular expression does not match gives 0.  A
    result is never negative, and there is one for every string of at most
    640 characters, and for every string that is not longer than the limit
    on digits or when there is no limit.  Otherwise the call raises
    [ValueError], and it does so on a well-formed duration with a unit of
    more digits than allowed. *)
Theorem parse_iso8601_duration_spec :
  (forall h m s : option string,
     field_wf h -> field_wf m -> field_wf s ->
     field_allowed h -> field_allowed m -> field_allowed s ->
     parse_iso8601_duration
       ("PT" ++ duration_field h "H" ++ duration_field m "M" ++ duration_field s "S")
     = Ok (field_value h * 3600 + field_value m * 60 + field_value s)) /\
  parse_iso8601_duration "PT1H2M3S" = Ok 3723 /\
  parse_iso8601_duration "PT45S" = Ok 45 /\
  parse_iso8601_duration "PT" = Ok 0 /\
  (forall str, re_match_duration str = None -> parse_iso8601_duration str = Ok 0) /\
  (forall str n, parse_iso8601_duration str = Ok n -> 0 <= n) /\
  (forall str,
     (String.length str <= 640)%nat \/
     int_max_str_digits <= 0 \/
     Z.of_nat (String.length str) <= int_max_str_digits ->
     exists n, parse_iso8601_duration str = Ok n /\ 0 <= n) /\
  (forall str e, parse_iso8601_duration str = Raise e -> e = ValueError) /\
  (forall h m s : option string,
     field_wf h -> field_wf m -> field_wf s ->
     ~ (field_allowed h /\ field_allowed m /\ field_allowed s) ->
     parse_iso8601_duration
       ("PT" ++ duration_field h "H" ++ duration_field m "M" ++ duration_field s "S")
     = Raise ValueError).
Proof.
  split; [|split; [reflexivity|split; [reflexivity|split; [reflexivity|]]]].
  { intros h m s Hh Hm Hs Ah Am As. unfold parse_iso8601_duration.
    rewrite (re_match_duration_fields h m s Hh Hm Hs).
    rewrite !group_value_some by assumption. reflexivity. }
  split.
  { intros str H. unfold parse_iso8601_duration. rewrite H. reflexivity. }
  split.
  { intros str n H.
    destruct (parse_iso8601_duration_outcome str) as [(n' & Hn & Hpos)|[Hr _]];
      congruence. }
  split.
  { intros str Hlen.
    destruct (parse_iso8601_duration_outcome str) as [Hok|[_ Hno]]; [exact Hok|].
    assert (Hyes : digits_allowed (Z.of_nat (String.length str)) = true).
    { destruct Hlen as [Hlen|[Hlen|Hlen]].
      - apply digits_allowed_small. lia.
      - apply digits_allowed_unlimited. exact Hlen.
      - unfold digits_allowed.
        destruct (Z.ltb_spec int_max_str_digits (Z.of_nat (String.length str)));
          [lia|].
        rewrite andb_false_r. reflexivity. }
    congruence. }
  split.
  { intros str e H.
    destruct (parse_iso8601_duration_outcome str) as [(n' & Hn & _)|[Hr _]];
      congruence. }
  intros h m s Hh Hm Hs Hnot. unfold parse_iso8601_duration.
  rewrite (re_match_duration_fields h m s Hh Hm Hs).
  rewrite !group_value_cases by assumption.
  cbn [group1 group2 group3].
  unfold field_allowed in Hnot.
  destruct h as [dh|];
    [destruct (digits_allowed (Z.of_nat (String.length dh))); [|reflexivity]|];
    cbn [rbind];
    (destruct m as [dm|];
     [destruct (digits_allowed (Z.of_nat (String.length dm))); [|reflexivity]|]);
    cbn [rbind];
    (destruct s as [ds|];
     [destruct (digits_allowed (Z.of_nat (String.length ds))); [|reflexivity]|]);
    cbn [rbind];
    exfalso; apply Hnot; auto.
Qed.
End Parser.

Lemma parse_iso8601_duration_spec_witness :
  field_wf (Some "1") /\ field_wf (Some "2") /\ field_wf (Some "3") /\
  @field_allowed demo_runtime (Some "1") /\
  @field_allowed demo_runtime (Some "2") /\
  @field_allowed demo_runtime (Some "3") /\
  @parse_iso8601_duration demo_runtime
    ("PT" ++ duration_field (Some "1") "H" ++ duration_field (Some "2") "M"
          ++ duration_field (Some "3") "S")
  = Ok (field_value (Some "1") * 3600 + field_value (Some "2") * 60
        + field_value (Some "3")).
Proof.
  assert (W1 : field_wf (Some "1")) by (split; [discriminate|reflexivity]).
  assert (W2 : field_wf (Some "2")) by (split; [discriminate|reflexivity]).
  assert (W3 : field_wf (Some "3")) by (split; [discriminate|reflexivity]).
  assert (A1 : @field_allowed demo_runtime (Some "1")) by reflexivity.
  assert (A2 : @field_allowed demo_runtime (Some "2")) by reflexivity.
  assert (A3 : @field_allowed demo_runtime (Some "3")) by reflexivity.
  refine (conj W1 (conj W2 (conj W3 (conj A1 (conj A2 (conj A3 _)))))).
  exact (proj1 (@parse_iso8601_duration_spec demo_runtime)
           (Some "1") (Some "2") (Some "3") W1 W2 W3 A1 A2 A3).
Defined.

(** C3, as the claim has it, fails: with the limit of 4300 digits that the
    interpreter starts with, a duration whose seconds are written with 4301
    digits has no result; the call raises [ValueError]. *)
Lemma parse_iso8601_duration_spec_counterexample :
  String.length demo_long_duration = 4304%nat /\
  re_match_duration demo_long_duration
  = Some (mk_duration_match None None (Some demo_long_run)) /\
  @parse_iso8601_duration demo_runtime demo_long_duration = Raise ValueError /\
  ~ exists n, @parse_iso8601_duration demo_runtime demo_long_duration = Ok n /\ 0 <= n.
Proof.
  assert (H : @parse_iso8601_duration demo_runtime demo_long_duration
              = Raise ValueError) by (vm_compute; reflexivity).
  split; [vm_compute; reflexivity|].
  split; [vm_compute; reflexivity|].
  split; [exact H|].
  intros (n & Hn & _). rewrite H in Hn. discriminate Hn.
Qed.

(** ** Sorting *)

Section Sorting.
Context {A : Type} (key : A -> Z).

Lemma insert_by_perm (x : A) (l : list A) :
  Permutation (insert_by key x l) (x :: l).
Proof.
  induction l as [|y l IH]; simpl.
  - apply Permutation_refl.
  - destruct (key x <=? key y).
    + apply Permutation_refl.
    + apply Permutation_trans with (y :: x :: l).
      * apply perm_skip, IH.
      * apply perm_swap.
Qed.

Lemma sort_by_perm (l : list A) : Permutation (sort_by key l) l.
Proof.
  induction l as [|x l IH]; simpl.
  - apply perm_nil.
  - apply Permutation_trans with (x :: sort_by key l).
    + apply insert_by_perm.
    + apply perm_skip, IH.
Qed.

Lemma insert_by_sorted (x : A) (l : list A) :
  StronglySorted (ascending key) l -> StronglySorted (ascending key) (insert_by key x l).
Proof.
  induction 1 as [|y l Hs IH Hy]; simpl.
  - constructor; constructor.
  - destruct (key x <=? key y) eqn:E.
    + apply Z.leb_le in E. constructor.
      * constructor; assumption.
      * constructor; [exact E|].
        rewrite Forall_forall in *. intros z Hz.
        unfold ascending in *. specialize (Hy z Hz). lia.
    + apply Z.leb_gt in E. constructor; [exact IH|].
      rewrite Forall_forall in *. intros z Hz.
      apply (Permutation_in z (insert_by_perm x l)) in Hz.
      destruct Hz as [<-|Hz]; unfold ascending in *; [lia|auto].
Qed.

Lemma sort_by_sorted (l : list A) : StronglySorted (ascending key) (sort_by key l).
Proof.
  induction l as [|x l IH]; simpl.
  - constructor.
  - apply insert_by_sorted, IH.
Qed.

Lemma sorted_snoc (R : A -> A -> Prop) (l : list A) (x : A) :
  StronglySorted R l -> Forall (fun y => R y x) l -> StronglySorted R (l ++ [x]).
Proof.
  induction 1 as [|y l Hs IH Hy]; simpl; intros Hx.
  - constructor; constructor.
  - inversion Hx; subst. constructor.
    + apply IH. assumption.
    + apply Forall_app. split; [assumption|]. constructor; [assumption|constructor].
Qed.

Lemma sorted_rev (l : list A) :
  StronglySorted (ascending key) l -> StronglySorted (descending key) (rev l).
Proof.
  induction 1 as [|y l Hs IH Hy]; simpl.
  - constructor.
  - apply sorted_snoc; [exact IH|].
    apply Forall_rev. exact Hy.
Qed.





Lemma sorted_reverse_perm (l : list A) : Permutation (sorted_reverse key l) l.
Proof.
  unfold sorted_reverse.
  apply Permutation_trans with (sort_by key (rev l)).
  - apply Permutation_sym, Permutation_rev.
  - apply Permutation_trans with (rev l).
    + apply sort_by_perm.
    + apply Permutation_sym, Permutation_rev.
Qed.

Lemma sorted_reverse_descending (l : list A) :
  StronglySorted (descending key) (sorted_reverse key l).
Proof. apply sorted_rev, sort_by_sorted. Qed.



Lemma py_slice_to_nonneg (n : Z) (l : list A) :
  0 <= n -> py_slice_to n l = firstn (Z.to_nat n) l.
Proof.
  intros Hn. unfold py_slice_to.
  apply Z.leb_le in Hn. rewrite Hn. reflexivity.
Qed.
End Sorting.

Lemma sorted_app_cross {A} (R : A -> A -> Prop) (l1 l2 : list A) :
  StronglySorted R (l1 ++ l2) ->
  forall x y, In x l1 -> In y l2 -> R x y.
Proof.
  induction l1 as [|a l1 IH]; simpl; intros Hs x y Hx Hy; [contradiction|].
  inversion Hs as [|? ? Hs' Ha]; subst.
  destruct Hx as [<-|Hx].
  - rewrite Forall_forall in Ha. apply Ha. apply in_or_app. right. exact Hy.
  - apply (IH Hs' x y Hx Hy).
Qed.

(** ** The filter-and-rank stage *)

(** Splits the chain of [<-?] at the head of a hypothesis into the outcome
    of each step. *)
Ltac split_result H :=
  repeat match type of H with
         | rbind ?r _ = _ =>
             let E := fresh "E" in
             destruct r eqn:E; cbn [rbind] in H; try discriminate H
         end.

Section Shorts.
Context {RT : Runtime}.

Lemma collect_videos_app (l1 l2 : list json) :
  forall acc,
    collect_videos (l1 ++ l2) acc
    = (acc1 <-? collect_videos l1 acc; collect_videos l2 acc1)%result.
Proof.
  induction l1 as [|video l1 IH]; intros acc; simpl; [reflexivity|].
  destruct (video_duration video) as [dur|e]; simpl; [|reflexivity].
  destruct (dur <=? 60); [|apply IH].
  destruct (make_video_info video) as [info|e]; simpl; [apply IH|reflexivity].
Qed.

(** The list built so far stays in front. *)
Lemma collect_videos_extends (items : list json) :
  forall acc videos,
    collect_videos items acc = Ok videos ->
    exists added, videos = (acc ++ added)%list.
Proof.
  induction items as [|video items IH]; simpl; intros acc videos H.
  - inversion H; subst. exists []. symmetry. apply app_nil_r.
  - split_result H.
    destruct (a <=? 60).
    + split_result H.
      destruct (IH _ _ H) as [added ->].
      exists (a0 :: added). rewrite <- app_assoc. reflexivity.
    + apply IH. exact H.
Qed.

(** Whatever the loop adds was built from an item of at most 60 seconds. *)
Lemma collect_videos_sources (items : list json) :
  forall acc videos info,
    collect_videos items acc = Ok videos ->
    In info videos ->
    In info acc \/
    exists video dur,
      In video items /\ video_duration video = Ok dur /\ dur <= 60 /\
      make_video_info video = Ok info.
Proof.
  induction items as [|video items IH]; simpl; intros acc videos info H Hin.
  - inversion H; subst. left. exact Hin.
  - split_result H.
    destruct (a <=? 60) eqn:Hd.
    + split_result H.
      destruct (IH _ _ _ H Hin) as [Hacc|(v & d & Hv & Hdur & Hle & Hmk)].
      * apply in_app_or in Hacc as [Hacc|[<-|[]]]; [left; exact Hacc|].
        right. exists video, a. apply Z.leb_le in Hd. auto.
      * right. exists v, d. auto.
    + destruct (IH _ _ _ H Hin) as [Hacc|(v & d & Hv & Hdur & Hle & Hmk)].
      * left. exact Hacc.
      * right. exists v, d. auto.
Qed.

(** An item longer than 60 seconds leaves no trace in the loop. *)
Lemma collect_videos_drop_long (l1 l2 : list json) (video : json) (dur : Z) :
  video_duration video = Ok dur -> 60 < dur ->
  forall acc,
    collect_videos (l1 ++ video :: l2) acc = collect_videos (l1 ++ l2) acc.
Proof.
  intros Hdur Hlong acc.
  rewrite !collect_videos_app.
  destruct (collect_videos l1 acc) as [acc1|e]; simpl; [|reflexivity].
  rewrite Hdur. simpl.
  apply Z.leb_gt in Hlong. rewrite Hlong. reflexivity.
Qed.

(** An item of at most 60 seconds is appended where the loop meets it. *)
Lemma collect_videos_keep_short (l1 l2 : list json) (video : json) (dur : Z)
    (info : video_info) :
  video_duration video = Ok dur -> dur <= 60 ->
  make_video_info video = Ok info ->
  forall acc,
    collect_videos (l1 ++ video :: l2) acc
    = (acc1 <-? collect_videos l1 acc; collect_videos l2 (acc1 ++ [info]))%result.
Proof.
  intros Hdur Hshort Hmk acc.
  rewrite collect_videos_app.
  destruct (collect_videos l1 acc) as [acc1|e]; simpl; [|reflexivity].
  rewrite Hdur. simpl.
  apply Z.leb_le in Hshort. rewrite Hshort, Hmk. reflexivity.
Qed.

Lemma collect_videos_keeps (l1 l2 : list json) (video : json) (dur : Z)
    (info : video_info) (acc videos : list video_info) :
  video_duration video = Ok dur -> dur <= 60 ->
  make_video_info video = Ok info ->
  collect_videos (l1 ++ video :: l2) acc = Ok videos ->
  In info videos.
Proof.
  intros Hdur Hshort Hmk H.
  rewrite (collect_videos_keep_short l1 l2 video dur info Hdur Hshort Hmk) in H.
  split_result H.
  destruct (collect_videos_extends _ _ _ H) as [added ->].
  apply in_or_app. left. apply in_or_app. right. left. reflexivity.
Qed.

Lemma rank_videos_perm_in (videos : list video_info) (info : video_info) :
  In info (sorted_reverse view_count videos) <-> In info videos.
Proof.
  split; apply Permutation_in;
    [apply sorted_reverse_perm|apply Permutation_sym, sorted_reverse_perm].
Qed.

Lemma rank_videos_incl (videos : list video_info) (n : Z) (info : video_info) :
  In info (rank_videos videos n) -> In info videos.
Proof.
  unfold rank_videos, py_slice_to. intros H.
  apply rank_videos_perm_in.
  destruct (0 <=? n);
    match type of H with
    | In _ (firstn ?k ?l) =>
        rewrite <- (firstn_skipn k l); apply in_or_app; left; exact H
    end.
Qed.

Lemma rank_videos_length (videos : list video_info) (n : Z) :
  0 <= n -> (List.length (rank_videos videos n) <= Z.to_nat n)%nat.
Proof.
  intros Hn. unfold rank_videos. rewrite py_slice_to_nonneg by exact Hn.
  apply firstn_le_length.
Qed.



Lemma rank_videos_all (videos : list video_info) (n : Z) :
  Z.of_nat (List.length videos) <= n ->
  rank_videos videos n = sorted_reverse view_count videos.
Proof.
  intros Hn. unfold rank_videos.
  rewrite py_slice_to_nonneg by lia.
  apply firstn_all2.
  rewrite (Permutation_length (sorted_reverse_perm view_count videos)). lia.
Qed.

(** The two ways [get_youtube_shorts] ends: with the ranking of what the
    loop collected from the detail response, or, after an exception
    anywhere in the [try] block, with the empty list and one printed line. *)
Lemma get_youtube_shorts_cases (search_query : json) (days_ago max_results : Z)
    (w : world) :
  (exists video_response w1 items videos,
      fetch_video_response search_query days_ago w = (Ok video_response, w1) /\
      response_items video_response = Ok items /\
      collect_videos items [] = Ok videos /\
      get_youtube_shorts search_query days_ago max_results w
      = (Ok (rank_videos videos max_results), w1)) \/
  (exists e w1,
      get_youtube_shorts_try search_query days_ago max_results w = (Raise e, w1) /\
      get_youtube_shorts search_query days_ago max_results w
      = (Ok [], console_print ("YouTube API 오류: " ++ exn_str e) w1)).
Proof.
  unfold get_youtube_shorts, try_except, get_youtube_shorts_try, bind.
  destruct (fetch_video_response search_query days_ago w) as [[vr|e] w1].
  - unfold lift, rank_response.
    destruct (response_items vr) as [items|e] eqn:Hi; simpl.
    + unfold rank_items.
      destruct (collect_videos items []) as [videos|e] eqn:Hc; simpl.
      * left. exists vr, w1, items, videos. auto.
      * right. exists e, w1. auto.
    + right. exists e, w1. auto.
  - right. exists e, w1. auto.
Qed.

Lemma get_youtube_shorts_returns (search_query : json) (days_ago max_results : Z)
    (w : world) :
  exists out w',
    get_youtube_shorts search_query days_ago max_results w = (Ok out, w').
Proof.
  destruct (get_youtube_shorts_cases search_query days_ago max_results w)
    as [(vr & w1 & items & videos & _ & _ & _ & H)|(e & w1 & _ & H)];
    rewrite H; eauto.
Qed.
Lemma get_youtube_shorts_success (search_query : json) (days_ago max_results : Z)
    (w w1 : world) (video_response : json) (items : list json)
    (videos : list video_info) :
  fetch_video_response search_query days_ago w = (Ok video_response, w1) ->
  response_items video_response = Ok items ->
  collect_videos items [] = Ok videos ->
  get_youtube_shorts search_query days_ago max_results w
  = (Ok (rank_videos videos max_results), w1).
Proof.
  intros Hf Hi Hc.
  unfold get_youtube_shorts, try_except, get_youtube_shorts_try, bind.
  rewrite Hf. unfold lift, rank_response. rewrite Hi. cbn [rbind].
  unfold rank_items. rewrite Hc. reflexivity.
Qed.

(** An answer of [fetch_video_response] is an answer of the detail
    request. *)
Lemma fetch_video_response_detail (search_query : json) (days_ago : Z)
    (w w1 : world) (video_response : json) :
  fetch_video_response search_query days_ago w = (Ok video_response, w1) ->
  exists ids w0, youtube_videos ids w0 = (Ok video_response, w1).
Proof.
  unfold fetch_video_response, bind, lift.
  destruct (youtube_build w) as [[[]|e1] w1']; [|discriminate].
  destruct (youtube_search _ _ w1') as [[sr|e2] w2']; [|discriminate].
  destruct (search_video_ids sr) as [video_ids|e3]; [|discriminate].
  destruct (join_comma video_ids) as [ids|e4]; [|discriminate].
  intros H. exists ids, w2'. exact H.
Qed.

(** Whatever [get_youtube_shorts] returns was built from an item of the
    detail response whose parsed duration is at most 60 seconds. *)
Lemma get_youtube_shorts_sources (search_query : json) (days_ago max_results : Z)
    (w w' : world) (out : list video_info) :
  get_youtube_shorts search_query days_ago max_results w = (Ok out, w') ->
  forall info, In info out ->
    exists video_response w1 items video dur,
      fetch_video_response search_query days_ago w = (Ok video_response, w1) /\
      response_items video_response = Ok items /\
      In video items /\
      video_duration video = Ok dur /\ dur <= 60 /\
      make_video_info video = Ok info.
Proof.
  intros H info Hin.
  destruct (get_youtube_shorts_cases search_query days_ago max_results w)
    as [(vr & w1 & items & videos & Hf & Hi & Hc & H')|(e & w1 & _ & H')];
    rewrite H' in H; injection H as <- _; [|destruct Hin].
  apply rank_videos_incl in Hin.
  destruct (collect_videos_sources items [] videos info Hc Hin)
    as [[]|(video & dur & Hv & Hd & Hle & Hmk)].
  exists vr, w1, items, video, dur. repeat split; assumption.
Qed.
End Shorts.

Section ShortsClaims.
Context {RT : Runtime}.


(** The steps of the [try] block at which an exception can start, in
    order: building the client, the search request, reading the identifiers
    out of its answer, joining them, the detail request, and the loop over
    its answer. *)
Lemma get_youtube_shorts_try_raises
    (search_query : json) (days_ago max_results : Z) (w : world) (e : exn) :
  (forall w1, youtube_build w = (Raise e, w1) ->
     get_youtube_shorts_try search_query days_ago max_results w = (Raise e, w1)) /\
  (forall w1 w2,
     youtube_build w = (Ok tt, w1) ->
     youtube_search (py_str search_query ++ " #shorts") days_ago w1 = (Raise e, w2) ->
     get_youtube_shorts_try search_query days_ago max_results w = (Raise e, w2)) /\
  (forall w1 w2 search_response,
     youtube_build w = (Ok tt, w1) ->
     youtube_search (py_str search_query ++ " #shorts") days_ago w1
     = (Ok search_response, w2) ->
     (ids <-? search_video_ids search_response; join_comma ids)%result = Raise e ->
     get_youtube_shorts_try search_query days_ago max_results w = (Raise e, w2)) /\
  (forall w1 w2 w3 search_response video_ids ids,
     youtube_build w = (Ok tt, w1) ->
     youtube_search (py_str search_query ++ " #shorts") days_ago w1
     = (Ok search_response, w2) ->
     search_video_ids search_response = Ok video_ids ->
     join_comma video_ids = Ok ids ->
     youtube_videos ids w2 = (Raise e, w3) ->
     get_youtube_shorts_try search_query days_ago max_results w = (Raise e, w3)) /\
  (forall w1 video_response,
     fetch_video_response search_query days_ago w = (Ok video_response, w1) ->
     rank_response video_response max_results = Raise e ->
     get_youtube_shorts_try search_query days_ago max_results w = (Raise e, w1)).
Proof.
  unfold get_youtube_shorts_try, fetch_video_response, bind, lift.
  repeat split.
  - intros w1 ->. reflexivity.
  - intros w1 w2 -> ->. reflexivity.
  - intros w1 w2 sr -> -> H.
    destruct (search_video_ids sr) as [ids|e']; cbn [rbind] in H.
    + rewrite H. reflexivity.
    + injection H as ->. reflexivity.
  - intros w1 w2 w3 sr video_ids ids -> -> -> -> ->. reflexivity.
  - intros w1 vr H Hr. revert H.
    destruct (youtube_build w) as [[[]|e1] w1']; [|discriminate].
    destruct (youtube_search _ _ w1') as [[sr|e2] w2']; [|discriminate].
    destruct (search_video_ids sr) as [video_ids|e3]; [|discriminate].
    destruct (join_comma video_ids) as [ids|e4]; [|discriminate].
    destruct (youtube_videos ids w2') as [[vr'|e5] w3']; [|discriminate].
    intros H. injection H as -> ->. rewrite Hr. reflexivity.
Qed.

(** C5.  [get_youtube_shorts] never raises; when anything inside its
    [try] block raises, what the caller gets is the empty list, the only
    other effect being the line printed on the console.  This holds in
    particular when a request fails and when an answer is malformed. *)
Theorem get_youtube_shorts_swallows_errors
    (search_query : json) (days_ago max_results : Z) (w : world) :
  (exists out w',
      get_youtube_shorts search_query days_ago max_results w = (Ok out, w')) /\
  (forall e w1,
      get_youtube_shorts_try search_query days_ago max_results w = (Raise e, w1) ->
      get_youtube_shorts search_query days_ago max_results w
      = (Ok [], console_print ("YouTube API 오류: " ++ exn_str e) w1)) /\
  (forall e w1,
      fetch_video_response search_query days_ago w = (Raise e, w1) ->
      get_youtube_shorts search_query days_ago max_results w
      = (Ok [], console_print ("YouTube API 오류: " ++ exn_str e) w1)) /\
  (forall e w1 video_response,
      fetch_video_response search_query days_ago w = (Ok video_response, w1) ->
      rank_response video_response max_results = Raise e ->
      get_youtube_shorts search_query days_ago max_results w
      = (Ok [], console_print ("YouTube API 오류: " ++ exn_str e) w1)).
Proof.
  assert (Hcatch : forall e w1,
      get_youtube_shorts_try search_query days_ago max_results w = (Raise e, w1) ->
      get_youtube_shorts search_query days_ago max_results w
      = (Ok [], console_print ("YouTube API 오류: " ++ exn_str e) w1)).
  { intros e w1 H. unfold get_youtube_shorts, try_except. rewrite H. reflexivity. }
  split; [apply get_youtube_shorts_returns|].
  split; [exact Hcatch|]. split.
  - intros e w1 H. apply Hcatch.
    unfold get_youtube_shorts_try, bind. rewrite H. reflexivity.
  - intros e w1 vr H Hr. apply Hcatch.
    destruct (get_youtube_shorts_try_raises search_query days_ago max_results w e)
      as (_ & _ & _ & _ & Hrank).
    apply (Hrank w1 vr H Hr).
Qed.

Lemma statistic_missing (video : json) (stats : list (string * json))
    (field : string) :
  py_getitem video "statistics" = Ok (JObj stats) ->
  assoc field stats = None ->
  statistic video field = Ok 0.
Proof.
  intros Hs Ha. unfold statistic. rewrite Hs. simpl. rewrite Ha. reflexivity.
Qed.

Lemma make_video_info_counts (video : json) (info : video_info) :
  make_video_info video = Ok info ->
  statistic video "viewCount" = Ok (view_count info) /\
  statistic video "likeCount" = Ok (like_count info).
Proof.
  unfold make_video_info. intros H.
  split_result H. inversion H; subst. simpl. auto.
Qed.

(** C9.  For an item whose [statistics] has no [viewCount] (no
    [likeCount]) the count is read as 0 and the video built from it has
    [view_count] 0 ([like_count] 0).  The loop treats the item like any
    other: with a duration of at most 60 seconds it is collected, it is
    among the sorted candidates, and it is returned whenever no more than
    [max_results] candidates were collected. *)
Theorem missing_counts_default_to_zero (video : json)
    (stats : list (string * json)) :
  py_getitem video "statistics" = Ok (JObj stats) ->
  (assoc "viewCount" stats = None ->
     statistic video "viewCount" = Ok 0 /\
     forall info, make_video_info video = Ok info -> view_count info = 0) /\
  (assoc "likeCount" stats = None ->
     statistic video "likeCount" = Ok 0 /\
     forall info, make_video_info video = Ok info -> like_count info = 0) /\
  (forall info dur l1 l2 videos max_results,
     make_video_info video = Ok info ->
     video_duration video = Ok dur -> dur <= 60 ->
     collect_videos (l1 ++ video :: l2) [] = Ok videos ->
     In info videos /\
     In info (sorted_reverse view_count videos) /\
     (Z.of_nat (List.length videos) <= max_results ->
      In info (rank_videos videos max_results))).
Proof.
  intros Hs. split; [|split].
  - intros Hnone.
    pose proof (statistic_missing video stats "viewCount" Hs Hnone) as Hzero.
    split; [exact Hzero|].
    intros info Hmk. destruct (make_video_info_counts video info Hmk) as [Hv _].
    rewrite Hzero in Hv. injection Hv as <-. reflexivity.
  - intros Hnone.
    pose proof (statistic_missing video stats "likeCount" Hs Hnone) as Hzero.
    split; [exact Hzero|].
    intros info Hmk. destruct (make_video_info_counts video info Hmk) as [_ Hl].
    rewrite Hzero in Hl. injection Hl as <-. reflexivity.
  - intros info dur l1 l2 videos max_results Hmk Hdur Hshort Hcollect.
    pose proof (collect_videos_keeps l1 l2 video dur info [] videos
                  Hdur Hshort Hmk Hcollect) as Hin.
    split; [exact Hin|].
    split; [apply rank_videos_perm_in; exact Hin|].
    intros Hlen. rewrite (rank_videos_all videos max_results Hlen).
    apply rank_videos_perm_in. exact Hin.
Qed.
End ShortsClaims.

(** *** The stage on the concrete runtime *)

Example demo_ranking :
  map (fun v => (video_id v, view_count v))
      (match fst (@get_youtube_shorts demo_runtime (JStr "cat") 365 5 []) with
       | Ok out => out
       | Raise _ => []
       end)
  = [(JStr "e", 500); (JStr "a", 100); (JStr "d", 100); (JStr "f", 50); (JStr "g", 7)].
Proof. vm_compute. reflexivity. Qed.


Lemma get_youtube_shorts_swallows_errors_witness :
  @get_youtube_shorts_try demo_runtime (JStr "down") 365 5 []
  = (Raise (External "quotaExceeded"), []) /\
  @get_youtube_shorts demo_runtime (JStr "down") 365 5 []
  = (Ok [], ["YouTube API 오류: quotaExceeded"]).
Proof.
  assert (Ht : @get_youtube_shorts_try demo_runtime (JStr "down") 365 5 []
               = (Raise (External "quotaExceeded"), [])) by reflexivity.
  refine (conj Ht _).
  exact (proj1 (proj2 (@get_youtube_shorts_swallows_errors demo_runtime
                          (JStr "down") 365 5 []))
           (External "quotaExceeded") [] Ht).
Defined.

Lemma missing_counts_default_to_zero_witness :
  py_getitem demo_uncounted "statistics" = Ok (JObj []) /\
  @statistic demo_runtime demo_uncounted "viewCount" = Ok 0 /\
  @statistic demo_runtime demo_uncounted "likeCount" = Ok 0 /\
  In demo_uncounted_info (rank_videos demo_candidates 6).
Proof.
  assert (Hs : py_getitem demo_uncounted "statistics" = Ok (JObj [])) by reflexivity.
  destruct (@missing_counts_default_to_zero demo_runtime demo_uncounted [] Hs)
    as (Hv & Hl & Hrank).
  refine (conj Hs (conj (proj1 (Hv eq_refl)) (conj (proj1 (Hl eq_refl)) _))).
  apply (Hrank demo_uncounted_info 45 [demo_short; demo_long] demo_tail
           demo_candidates 6); try reflexivity; vm_compute; discriminate.
Defined.

(** ** The download list *)

Lemma starts_with_app (needle x y : string) :
  starts_with needle x = true -> starts_with needle (x ++ y) = true.
Proof.
  revert x. induction needle as [|a needle IH]; intros x H; [reflexivity|].
  destruct x as [|b x]; simpl in *; [discriminate|].
  apply andb_prop in H as [Hab Hx]. rewrite Hab, (IH x Hx). reflexivity.
Qed.

Lemma str_contains_app (needle x y : string) :
  str_contains needle x = true -> str_contains needle (x ++ y) = true.
Proof.
  induction x as [|b x IH]; simpl; intros H.
  - rewrite orb_false_r in H.
    destruct needle; [|discriminate].
    destruct y; reflexivity.
  - apply orb_prop in H as [H|H].
    + change (String b (x ++ y)) with (String b x ++ y).
      rewrite (starts_with_app needle (String b x) y H). reflexivity.
    + rewrite (IH H). apply orb_true_r.
Qed.

(** A needle that ends in a slash cannot reach into a part without one. *)
Lemma starts_with_slash_end (needle : string) :
  forall x y, no_slash y ->
    starts_with (needle ++ "/") (x ++ y) = starts_with (needle ++ "/") x.
Proof.
  unfold no_slash.
  induction needle as [|a needle IH]; intros x y Hy.
  - destruct x as [|b x]; cbn -[Ascii.eqb]; [|reflexivity].
    destruct y as [|c y]; cbn -[Ascii.eqb] in *; [reflexivity|].
    apply orb_false_elim in Hy as [Hc _].
    rewrite Ascii.eqb_sym, Hc. reflexivity.
  - destruct x as [|b x]; cbn -[Ascii.eqb].
    + destruct y as [|c y]; cbn -[Ascii.eqb] in *; [reflexivity|].
      apply orb_false_elim in Hy as [_ Hy].
      specialize (IH "" y Hy). cbn -[Ascii.eqb] in IH. rewrite IH.
      destruct needle; cbn -[Ascii.eqb]; apply andb_false_r.
    + rewrite (IH x y Hy). reflexivity.
Qed.

Lemma str_contains_slash_end (needle x y : string) :
  no_slash y ->
  str_contains (needle ++ "/") (x ++ y) = str_contains (needle ++ "/") x.
Proof.
  intros Hy. induction x as [|b x IH].
  - simpl append at 2.
    assert (Hnil : str_contains (needle ++ "/") "" = false)
      by (destruct needle; reflexivity).
    rewrite Hnil. clear Hnil.
    unfold no_slash in Hy.
    induction y as [|c y IHy]; [destruct needle; reflexivity|].
    simpl in Hy. apply orb_false_elim in Hy as [Hc Hy].
    simpl. rewrite (IHy Hy), orb_false_r.
    pose proof (starts_with_slash_end needle "" (String c y)) as H.
    simpl append in H at 2. rewrite H.
    + destruct needle; reflexivity.
    + unfold no_slash. simpl. rewrite Hc, Hy. reflexivity.
  - change (String b x ++ y) with (String b (x ++ y)).
    simpl str_contains.
    change (String b (x ++ y)) with (String b x ++ y).
    rewrite (starts_with_slash_end needle (String b x) y Hy), IH.
    reflexivity.
Qed.

Lemma split_on_nonempty (sep : ascii) (s : string) : split_on sep s <> [].
Proof.
  destruct s as [|c s]; simpl; [discriminate|].
  destruct (Ascii.eqb c sep); [discriminate|].
  destruct (split_on sep s); discriminate.
Qed.

(** [(a + sep + b).split(sep) == a.split(sep) + b.split(sep)] *)
Lemma split_on_app (sep : ascii) (a b : string) :
  split_on sep (a ++ String sep b) = (split_on sep a ++ split_on sep b)%list.
Proof.
  induction a as [|c a IH]; simpl.
  - rewrite Ascii.eqb_refl. reflexivity.
  - destruct (Ascii.eqb c sep); rewrite IH; [reflexivity|].
    pose proof (split_on_nonempty sep a) as Hne.
    destruct (split_on sep a); [contradiction|reflexivity].
Qed.

Lemma split_on_no_sep (sep : ascii) (s : string) :
  has_char sep s = false -> split_on sep s = [s].
Proof.
  induction s as [|c s IH]; simpl; intros H; [reflexivity|].
  apply orb_false_elim in H as [Hc Hs]. rewrite Hc, (IH Hs). reflexivity.
Qed.

Lemma last_app_cons {A} (l : list A) (x : A) (l' : list A) (d : A) :
  last (l ++ x :: l') d = last (x :: l') d.
Proof.
  induction l as [|y l IH]; [reflexivity|].
  simpl app. rewrite <- IH.
  destruct (l ++ x :: l')%list eqn:E; [|reflexivity].
  destruct l; discriminate.
Qed.

Lemma last_segment (a id : string) :
  no_slash id -> last (split_on "/" (a ++ String "/" id)) "" = id.
Proof.
  intros H. rewrite split_on_app, (split_on_no_sep "/" id H).
  apply last_app_cons.
Qed.

(** C7.  A short-form address [https://youtube.com/shorts/ID] becomes
    [https://www.youtube.com/watch?v=ID]; a watch address is left as it is.
    In particular [https://youtube.com/shorts/XYZ] becomes
    [https://www.youtube.com/watch?v=XYZ]. *)
Theorem normalize_url_spec :
  (forall id, no_slash id ->
     normalize_url ("https://youtube.com/shorts/" ++ id)
     = "https://www.youtube.com/watch?v=" ++ id /\
     normalize_url ("https://www.youtube.com/watch?v=" ++ id)
     = "https://www.youtube.com/watch?v=" ++ id) /\
  normalize_url "https://youtube.com/shorts/XYZ" = "https://www.youtube.com/watch?v=XYZ" /\
  normalize_url "https://www.youtube.com/watch?v=XYZ" = "https://www.youtube.com/watch?v=XYZ".
Proof.
  split; [|split; reflexivity].
  intros id Hid. split; unfold normalize_url.
  - rewrite (str_contains_app "youtube.com/shorts/" "https://youtube.com/shorts/" id)
      by reflexivity.
    change ("https://youtube.com/shorts/" ++ id)
      with ("https://youtube.com/shorts" ++ String "/" id).
    rewrite (last_segment "https://youtube.com/shorts" id Hid). reflexivity.
  - change "youtube.com/shorts/" with ("youtube.com/shorts" ++ "/").
    rewrite (str_contains_slash_end "youtube.com/shorts"
               "https://www.youtube.com/watch?v=" id Hid).
    reflexivity.
Qed.

Lemma normalize_url_spec_witness :
  no_slash "dQw4w9WgXcQ" /\
  normalize_url "https://youtube.com/shorts/dQw4w9WgXcQ"
  = "https://www.youtube.com/watch?v=dQw4w9WgXcQ" /\
  normalize_url "https://www.youtube.com/watch?v=dQw4w9WgXcQ"
  = "https://www.youtube.com/watch?v=dQw4w9WgXcQ".
Proof.
  assert (H : no_slash "dQw4w9WgXcQ") by reflexivity.
  exact (conj H (proj1 normalize_url_spec "dQw4w9WgXcQ" H)).
Defined.

Example normalize_url_query_suffix :
  normalize_url "https://youtube.com/shorts/XYZ?feature=share"
  = "https://www.youtube.com/watch?v=XYZ?feature=share".
Proof. reflexivity. Qed.

Lemma build_video_links_spec (urls : list xl_cell) :
  forall acc,
    build_video_links urls acc = (acc ++ map normalize_url (string_cells urls))%list.
Proof.
  induction urls as [|cell urls IH]; intros acc; simpl.
  - symmetry. apply app_nil_r.
  - destruct cell; simpl; rewrite IH; try reflexivity.
    rewrite <- app_assoc. reflexivity.
Qed.

Lemma string_cells_skip (l1 l2 : list xl_cell) (cell : xl_cell) :
  pd_isna cell || negb (isinstance_str cell) = true ->
  string_cells (l1 ++ cell :: l2) = string_cells (l1 ++ l2).
Proof.
  intros H. unfold string_cells. rewrite !flat_map_app. simpl.
  destruct cell; try reflexivity. discriminate H.
Qed.

Section Download.
Context {RT : Runtime}.

(** The loop ends normally, and a failure it records is the failure of a
    link it was given. *)
Lemma download_loop_spec (links : list string) :
  forall failed downloaded w,
  exists failed' downloaded' w',
    download_loop links failed downloaded w = (Ok (failed', downloaded'), w') /\
    (forall u msg, In (u, msg) failed' -> In (u, msg) failed \/ In u links) /\
    downloaded' + Z.of_nat (List.length failed')
    = downloaded + Z.of_nat (List.length failed) + Z.of_nat (List.length links).
Proof.
  induction links as [|link links IH]; intros failed downloaded w.
  - exists failed, downloaded, w. simpl. repeat split; [auto|lia].
  - cbn [download_loop]. unfold bind at 1, try_except, bind, ret.
    destruct (ydl_download link w) as [[[]|e] w1]; cbn [fst snd].
    + destruct (IH failed (downloaded + 1) w1) as (f' & d' & w' & -> & Hin & Hn).
      exists f', d', w'. split; [reflexivity|]. split.
      * intros u msg Hu. destruct (Hin u msg Hu); [left|right; right]; assumption.
      * cbn [List.length]. lia.
    + destruct (IH (failed ++ [(link, exn_str e)])%list downloaded w1)
        as (f' & d' & w' & -> & Hin & Hn).
      exists f', d', w'. split; [reflexivity|]. split.
      * intros u msg Hu. destruct (Hin u msg Hu) as [Hf|Hl].
        -- apply in_app_or in Hf as [Hf|[Hf|[]]]; [left; exact Hf|].
           inversion Hf; subst. right. left. reflexivity.
        -- right. right. exact Hl.
      * rewrite length_app in Hn. cbn [List.length] in *. lia.
Qed.

(** C10.  A row whose [url] cell is missing or is not a string is skipped
    without a trace: the list of links is the one built without the row,
    and so are the whole outcome of the download, its total and its
    failure list.  The links are exactly the normalized string cells, the
    total is their number, and only such links can fail. *)
Theorem skipped_rows_leave_no_trace :
  (forall (l1 l2 : list xl_cell) (cell : xl_cell),
      pd_isna cell || negb (isinstance_str cell) = true ->
      build_video_links (l1 ++ cell :: l2) [] = build_video_links (l1 ++ l2) []) /\
  (forall (df df' : list (string * list xl_cell))
          (l1 l2 : list xl_cell) (cell : xl_cell) (w : world),
      pd_isna cell || negb (isinstance_str cell) = true ->
      column "url" df = Some (l1 ++ cell :: l2)%list ->
      column "url" df' = Some (l1 ++ l2)%list ->
      download_videos df w = download_videos df' w) /\
  (forall (df : list (string * list xl_cell)) urls (w : world),
      column "url" df = Some urls ->
      exists summary w',
        download_videos df w = (Ok (Some summary), w') /\
        video_links summary = map normalize_url (string_cells urls) /\
        num_videos summary = Z.of_nat (List.length (string_cells urls)) /\
        downloaded_count summary + Z.of_nat (List.length (failed_list summary))
        = num_videos summary /\
        (forall u msg, In (u, msg) (failed_list summary) ->
                       In u (video_links summary))).
Proof.
  split; [|split].
  - intros l1 l2 cell H. rewrite !build_video_links_spec.
    rewrite (string_cells_skip l1 l2 cell H). reflexivity.
  - intros df df' l1 l2 cell w H Hdf Hdf'. unfold download_videos.
    rewrite Hdf, Hdf', !build_video_links_spec.
    rewrite (string_cells_skip l1 l2 cell H). reflexivity.
  - intros df urls w Hdf. unfold download_videos. rewrite Hdf.
    rewrite build_video_links_spec. cbn [app].
    unfold bind, ret.
    destruct (download_loop_spec (map normalize_url (string_cells urls)) [] 0 w)
      as (f' & d' & w' & -> & Hin & Hn).
    eexists. eexists. split; [reflexivity|]. cbn [video_links num_videos
      downloaded_count failed_list fst snd].
    rewrite length_map in *. cbn [List.length] in Hn.
    repeat split; [lia|].
    intros u msg Hu. destruct (Hin u msg Hu) as [[]|Hl]. exact Hl.
Qed.
End Download.

Lemma skipped_rows_leave_no_trace_witness :
  pd_isna XlMissing || negb (isinstance_str XlMissing) = true /\
  pd_isna (XlNumber 3) || negb (isinstance_str (XlNumber 3)) = true /\
  build_video_links
    [XlStr "https://youtube.com/shorts/abc"; XlMissing; XlStr "https://youtu.be/gone"] []
  = build_video_links
      [XlStr "https://youtube.com/shorts/abc"; XlStr "https://youtu.be/gone"] [] /\
  @download_videos demo_runtime
    [("url", [XlStr "https://youtube.com/shorts/abc"; XlNumber 3;
              XlStr "https://youtu.be/gone"])] []
  = @download_videos demo_runtime
      [("url", [XlStr "https://youtube.com/shorts/abc"; XlStr "https://youtu.be/gone"])] [].
Proof.
  assert (H1 : pd_isna XlMissing || negb (isinstance_str XlMissing) = true)
    by reflexivity.
  assert (H2 : pd_isna (XlNumber 3) || negb (isinstance_str (XlNumber 3)) = true)
    by reflexivity.
  refine (conj H1 (conj H2 (conj _ _))).
  - exact (proj1 (@skipped_rows_leave_no_trace demo_runtime)
             [XlStr "https://youtube.com/shorts/abc"] [XlStr "https://youtu.be/gone"]
             XlMissing H1).
  - exact (proj1 (proj2 (@skipped_rows_leave_no_trace demo_runtime))
             [("url", [XlStr "https://youtube.com/shorts/abc"; XlNumber 3;
                       XlStr "https://youtu.be/gone"])]
             [("url", [XlStr "https://youtube.com/shorts/abc";
                       XlStr "https://youtu.be/gone"])]
             [XlStr "https://youtube.com/shorts/abc"] [XlStr "https://youtu.be/gone"]
             (XlNumber 3) [] H2 eq_refl eq_refl).
Defined.

Example demo_download :
  fst (@download_videos demo_runtime
         [("name", [XlStr "x"; XlStr "y"; XlStr "z"; XlStr "t"]);
          ("url", [XlStr "https://youtube.com/shorts/abc"; XlMissing; XlNumber 3;
                   XlStr "https://youtu.be/gone"])] [])
  = Ok (Some (mk_download_summary
                ["https://www.youtube.com/watch?v=abc"; "https://youtu.be/gone"]
                2 1 [("https://youtu.be/gone", "Video unavailable")])).
Proof. vm_compute. reflexivity. Qed.

(** ** The analysis loop *)

Lemma country_eqb_eq (a b : country) : country_eqb a b = true <-> a = b.
Proof. destruct a, b; simpl; split; intros H; (reflexivity || discriminate). Qed.

Lemma country_eqb_neq (a b : country) : a <> b -> country_eqb a b = false.
Proof.
  intros H. destruct (country_eqb a b) eqn:E; [|reflexivity].
  apply country_eqb_eq in E. contradiction.
Qed.

Section CountryDict.
Context {V : Type}.

Lemma dict_get_set_same (c : country) (v : V) (d : list (country * V)) :
  dict_get country_eqb c (dict_set country_eqb c v d) = Some v.
Proof.
  induction d as [|[k v'] d IH]; simpl.
  - rewrite (proj2 (country_eqb_eq c c) eq_refl). reflexivity.
  - destruct (country_eqb k c) eqn:E; simpl; rewrite E; [reflexivity|exact IH].
Qed.

Lemma dict_get_set_other (b c : country) (v : V) (d : list (country * V)) :
  b <> c ->
  dict_get country_eqb b (dict_set country_eqb c v d) = dict_get country_eqb b d.
Proof.
  intros Hbc. induction d as [|[k v'] d IH]; simpl.
  - rewrite country_eqb_neq by congruence. reflexivity.
  - destruct (country_eqb k c) eqn:E; simpl.
    + apply country_eqb_eq in E. subst k.
      rewrite country_eqb_neq by congruence. reflexivity.
    + destruct (country_eqb k b); [reflexivity|exact IH].
Qed.
End CountryDict.

Lemma same_elsewhere_refl (c : country) (rep : report) : same_elsewhere c rep rep.
Proof. intros b _. split; reflexivity. Qed.

Lemma same_elsewhere_trans (c : country) (r1 r2 r3 : report) :
  same_elsewhere c r1 r2 -> same_elsewhere c r2 r3 -> same_elsewhere c r1 r3.
Proof.
  intros H12 H23 b Hb.
  destruct (H12 b Hb) as [Ha Hb'], (H23 b Hb) as [Hc Hd].
  split; congruence.
Qed.

Lemma same_elsewhere_set_result (c : country) (r : country_result) (rep : report) :
  same_elsewhere c rep (set_result c r rep).
Proof.
  intros b Hb. simpl. split; [apply dict_get_set_other; exact Hb|reflexivity].
Qed.

Lemma same_elsewhere_set_youtube (c : country) (d : list (json * list video_info))
    (rep : report) :
  same_elsewhere c rep (set_youtube c d rep).
Proof.
  intros b Hb. simpl. split; [reflexivity|apply dict_get_set_other; exact Hb].
Qed.

Lemma map_result_length {A B} (f : A -> result B) (l : list A) :
  forall l', map_result f l = Ok l' -> List.length l' = List.length l.
Proof.
  induction l as [|x l IH]; simpl; intros l' H.
  - inversion H. reflexivity.
  - split_result H. inversion H; subst. simpl. rewrite (IH a0 eq_refl). reflexivity.
Qed.

Lemma substring_length_le (n : nat) (s : string) :
  (String.length (substring 0 n s) <= n)%nat.
Proof.
  revert s. induction n as [|n IH]; intros [|c s]; simpl; try lia.
  specialize (IH s). lia.
Qed.

Lemma chars_length (s : string) : List.length (chars s) = String.length s.
Proof.
  unfold chars. rewrite length_map.
  induction s as [|c s IH]; simpl; [reflexivity|]. rewrite IH. reflexivity.
Qed.

Lemma py_slice_json_capped (v v' : json) (n : nat) (items : list json) :
  py_slice_json v n = Ok v' -> py_iter v' = Ok items ->
  (List.length items <= n)%nat.
Proof.
  destruct v; simpl; intros H Hi; try discriminate;
    injection H as <-; simpl in Hi; injection Hi as <-.
  - rewrite chars_length. apply substring_length_le.
  - apply firstn_le_length.
Qed.

(** What the comprehension of lines 180-183 iterates has at most 15 items. *)
Lemma rising_queries_capped (data rising_queries : json) (items : list json) :
  rising_queries_of data = Ok rising_queries ->
  py_iter rising_queries = Ok items ->
  (List.length items <= 15)%nat.
Proof.
  unfold rising_queries_of. intros H Hi.
  split_result H.
  destruct (py_truthy a0).
  - split_result H.
    apply (py_slice_json_capped a1 rising_queries 15 items H Hi).
  - injection H as <-. cbn [py_iter] in Hi. injection Hi as <-. simpl. lia.
Qed.

Lemma rising_queries_none (data : json) :
  reports_no_rising data -> rising_queries_of data = Ok (JArr []).
Proof.
  intros (fields & -> & [Hr|(related & Hr & [Hn|[Hn|Hn]])]);
    unfold rising_queries_of; simpl; rewrite Hr; simpl; try rewrite Hn;
    reflexivity.
Qed.

Section Analysis.
Context {RT : Runtime}.

(** One pass of the inner loop changes nothing but the world and the
    videos stored for [c]. *)
Lemma search_shorts_spec (p : period) (c : country) (item : json)
    (rep : report) (w : world) :
  exists r rep' w',
    search_shorts p c item (rep, w) = (r, (rep', w')) /\
    results rep' = results rep /\
    same_elsewhere c rep rep'.
Proof.
  unfold search_shorts, bind, lift, on_world. cbn [fst snd].
  destruct (py_getitem item "query") as [key|e].
  2: { exists (Raise e), rep, w. split; [reflexivity|].
       split; [reflexivity|apply same_elsewhere_refl]. }
  destruct (get_youtube_shorts key (PERIOD_OPTIONS p) 5 w) as [[shorts|e] w1].
  2: { exists (Raise e), rep, w1. split; [reflexivity|].
       split; [reflexivity|apply same_elsewhere_refl]. }
  unfold store_shorts. cbn [fst snd].
  destruct (dict_get country_eqb c (youtube_results rep)) as [d|].
  2: { eexists; exists rep, w1. split; [reflexivity|].
       split; [reflexivity|apply same_elsewhere_refl]. }
  destruct (py_hashable key).
  - eexists; eexists; exists w1. split; [reflexivity|].
    split; [reflexivity|apply same_elsewhere_set_youtube].
  - eexists; exists rep, w1. split; [reflexivity|].
    split; [reflexivity|apply same_elsewhere_refl].
Qed.

Lemma shorts_loop_spec (p : period) (c : country) (items : list json) :
  forall rep w,
  exists r rep' w',
    for_each items (search_shorts p c) (rep, w) = (r, (rep', w')) /\
    results rep' = results rep /\
    same_elsewhere c rep rep'.
Proof.
  induction items as [|item items IH]; intros rep w.
  - exists (Ok tt), rep, w. split; [reflexivity|].
    split; [reflexivity|apply same_elsewhere_refl].
  - cbn [for_each]. unfold bind.
    destruct (search_shorts_spec p c item rep w) as (r & rep1 & w1 & -> & Hr & Hs).
    destruct r as [[]|e].
    + destruct (IH rep1 w1) as (r' & rep2 & w2 & -> & Hr' & Hs').
      exists r', rep2, w2. split; [reflexivity|].
      split; [congruence|exact (same_elsewhere_trans c _ _ _ Hs Hs')].
    + exists (Raise e), rep1, w1. auto.
Qed.

(** The [try] block of one country touches the entries of that country
    only, and when it ends normally the rising queries it stored are at
    most 15. *)
Lemma process_country_try_spec (p : period) (c : country) (rep : report)
    (w : world) :
  exists r rep' w',
    process_country_try p c (rep, w) = (r, (rep', w')) /\
    same_elsewhere c rep rep' /\
    (r = Ok tt ->
     exists pairs,
       dict_get country_eqb c (results rep') = Some (RisingQueries pairs) /\
       (List.length pairs <= 15)%nat).
Proof.
  unfold process_country_try, bind at 1, on_world. cbn [fst snd].
  destruct (serpapi_search _ _ _ w) as [[data|e] w1].
  2: { exists (Raise e), rep, w1. split; [reflexivity|].
       split; [apply same_elsewhere_refl|discriminate]. }
  unfold bind at 1, lift.
  destruct (rising_queries_of data) as [rq|e] eqn:Hrq.
  2: { exists (Raise e), rep, w1. split; [reflexivity|].
       split; [apply same_elsewhere_refl|discriminate]. }
  unfold bind at 1.
  destruct (py_iter rq) as [items|e] eqn:Hit.
  2: { exists (Raise e), rep, w1. split; [reflexivity|].
       split; [apply same_elsewhere_refl|discriminate]. }
  unfold bind at 1.
  destruct (map_result query_value items) as [pairs|e] eqn:Hp.
  2: { exists (Raise e), rep, w1. split; [reflexivity|].
       split; [apply same_elsewhere_refl|discriminate]. }
  unfold bind, modify. cbn [fst snd].
  destruct (shorts_loop_spec p c items
              (set_youtube c [] (set_result c (RisingQueries pairs) rep)) w1)
    as (r & rep' & w' & -> & Hr & Hs).
  exists r, rep', w'. split; [destruct r as [[]|]; reflexivity|]. split.
  - apply same_elsewhere_trans with (set_result c (RisingQueries pairs) rep);
      [apply same_elsewhere_set_result|].
    apply same_elsewhere_trans
      with (set_youtube c [] (set_result c (RisingQueries pairs) rep));
      [apply same_elsewhere_set_youtube|exact Hs].
  - intros _. exists pairs. rewrite Hr. simpl.
    split; [apply dict_get_set_same|].
    rewrite (map_result_length query_value items pairs Hp).
    apply (rising_queries_capped data rq items Hrq Hit).
Qed.

(** One turn of the outer loop: it ends normally, touches the entries of
    its country only, and leaves for that country either at most 15 rising
    queries or the text of the exception that the [try] block raised. *)
Lemma process_country_spec (p : period) (c : country) (rep : report) (w : world) :
  exists rep' w',
    process_country p c (rep, w) = (Ok tt, (rep', w')) /\
    same_elsewhere c rep rep' /\
    ((process_country_try p c (rep, w) = (Ok tt, (rep', w')) /\
      exists pairs,
        dict_get country_eqb c (results rep') = Some (RisingQueries pairs) /\
        (List.length pairs <= 15)%nat) \/
     (exists e s,
        process_country_try p c (rep, w) = (Raise e, s) /\
        dict_get country_eqb c (results rep') = Some (CountryError (exn_str e)))).
Proof.
  unfold process_country, try_except.
  destruct (process_country_try_spec p c rep w) as (r & rep1 & w1 & Ht & Hs & Hok).
  rewrite Ht. destruct r as [[]|e].
  - exists rep1, w1. split; [reflexivity|]. split; [exact Hs|].
    left. split; [reflexivity|]. apply Hok. reflexivity.
  - unfold modify. cbn [fst snd].
    eexists; eexists. split; [reflexivity|]. split.
    + apply same_elsewhere_trans with rep1;
        [exact Hs|apply same_elsewhere_set_result].
    + right. exists e, (rep1, w1). split; [reflexivity|].
      simpl. apply dict_get_set_same.
Qed.

Lemma process_country_entry (p : period) (c : country) (rep rep' : report)
    (w w' : world) :
  process_country p c (rep, w) = (Ok tt, (rep', w')) ->
  dict_get country_eqb c (results rep') <> None.
Proof.
  intros H.
  destruct (process_country_spec p c rep w)
    as (rep2 & w2 & H2 & _ & [(_ & pairs & Hp & _)|(e & s & _ & He)]);
    rewrite H in H2; inversion H2; subst; congruence.
Qed.

Lemma for_each_app {S A} (l1 l2 : list A) (body : A -> M S unit) (s : S) :
  for_each (l1 ++ l2) body s
  = match for_each l1 body s with
    | (Ok _, s1) => for_each l2 body s1
    | (Raise e, s1) => (Raise e, s1)
    end.
Proof.
  revert s. induction l1 as [|x l1 IH]; intros s; [reflexivity|].
  cbn [app for_each]. unfold bind.
  destruct (body x s) as [[[]|e] s1]; [apply IH|reflexivity].
Qed.

(** The outer loop visits every country: it ends normally, leaves an entry
    for each country of the list, respects the cap, and does not touch a
    country that is not in the list. *)
Lemma countries_loop_spec (p : period) (countries : list country) :
  forall rep w,
  exists rep' w',
    for_each countries (process_country p) (rep, w) = (Ok tt, (rep', w')) /\
    (forall b, In b countries -> dict_get country_eqb b (results rep') <> None) /\
    (forall b, ~ In b countries ->
       dict_get country_eqb b (results rep') = dict_get country_eqb b (results rep) /\
       dict_get country_eqb b (youtube_results rep')
       = dict_get country_eqb b (youtube_results rep)) /\
    ((forall b l, dict_get country_eqb b (results rep) = Some (RisingQueries l) ->
                  (List.length l <= 15)%nat) ->
     forall b l, dict_get country_eqb b (results rep') = Some (RisingQueries l) ->
                 (List.length l <= 15)%nat).
Proof.
  induction countries as [|c countries IH]; intros rep w.
  - exists rep, w. split; [reflexivity|]. split; [intros b []|]. auto.
  - cbn [for_each]. unfold bind.
    destruct (process_country_spec p c rep w) as (rep1 & w1 & Hc & Hs & Hentry).
    rewrite Hc.
    destruct (IH rep1 w1) as (rep2 & w2 & Hloop & Hin & Hout & Hcap).
    exists rep2, w2. split; [exact Hloop|]. split; [|split].
    + intros b [<-|Hb]; [|apply Hin; exact Hb].
      destruct (in_dec country_eq_dec c countries) as [Hc'|Hc'].
      * apply Hin. exact Hc'.
      * destruct (Hout c Hc') as [-> _].
        apply (process_country_entry p c rep rep1 w w1 Hc).
    + intros b Hb.
      assert (Hbc : b <> c) by (intros ->; apply Hb; left; reflexivity).
      assert (Hb' : ~ In b countries) by (intros H; apply Hb; right; exact H).
      destruct (Hout b Hb') as [-> ->]. apply Hs. exact Hbc.
    + intros Hrep. apply Hcap. intros b l Hb.
      destruct (country_eqb b c) eqn:E.
      * apply country_eqb_eq in E. subst b.
        destruct Hentry as [(_ & pairs & Hp & Hlen)|(e & s & _ & He)];
          [|congruence].
        rewrite Hp in Hb. inversion Hb; subst. exact Hlen.
      * assert (Hbc : b <> c).
        { intros ->. rewrite (proj2 (country_eqb_eq c c) eq_refl) in E. discriminate. }
        destruct (Hs b Hbc) as [Hres _]. rewrite Hres in Hb.
        apply (Hrep b l Hb).
Qed.
End Analysis.

Section AnalysisClaims.
Context {RT : Runtime}.

(** C4.  Whatever the provider answers, a list of rising queries stored
    for a country has at most 15 entries, after one country and after the
    whole loop; and when the provider reports no rising queries the list
    stored for the country is empty. *)
Theorem rising_queries_at_most_15 :
  (forall (p : period) (c : country) (rep : report) (w : world),
      exists rep' w',
        process_country p c (rep, w) = (Ok tt, (rep', w')) /\
        forall l, dict_get country_eqb c (results rep') = Some (RisingQueries l) ->
                  (List.length l <= 15)%nat) /\
  (forall (selected_countries : list country) (p : period) (w : world),
      exists rep w',
        run_analysis selected_countries p w = (Ok tt, (rep, w')) /\
        forall c l, dict_get country_eqb c (results rep) = Some (RisingQueries l) ->
                    (List.length l <= 15)%nat) /\
  (forall (p : period) (c : country) (rep : report) (w w1 : world) (data : json),
      serpapi_search (term (COUNTRY_QUERIES c)) (geo (COUNTRY_QUERIES c))
        (hl (COUNTRY_QUERIES c)) w = (Ok data, w1) ->
      reports_no_rising data ->
      exists rep',
        process_country p c (rep, w) = (Ok tt, (rep', w1)) /\
        dict_get country_eqb c (results rep') = Some (RisingQueries []) /\
        dict_get country_eqb c (youtube_results rep') = Some []).
Proof.
  split; [|split].
  - intros p c rep w.
    destruct (process_country_spec p c rep w)
      as (rep' & w' & H & _ & [(_ & pairs & Hp & Hlen)|(e & s & _ & He)]);
      exists rep', w'; (split; [exact H|]); intros l Hl.
    + rewrite Hp in Hl. inversion Hl; subst. exact Hlen.
    + congruence.
  - intros selected p w. unfold run_analysis.
    destruct (countries_loop_spec p selected empty_report w)
      as (rep & w' & H & _ & _ & Hcap).
    exists rep, w'. split; [exact H|].
    apply Hcap. intros b l Hb. discriminate Hb.
  - intros p c rep w w1 data Hdata Hnone.
    exists (set_youtube c [] (set_result c (RisingQueries []) rep)).
    split; [|split; simpl; apply dict_get_set_same].
    unfold process_country, try_except, process_country_try, bind, on_world, lift.
    cbn [fst snd]. rewrite Hdata, (rising_queries_none data Hnone).
    reflexivity.
Qed.

(** C6.  Let the loop reach country [A] after the countries [before], and
    let the [try] block of [A] raise.  Then the turn of [A] still ends
    normally and the loop goes on with the countries [after]; the entry of
    [A] in [results] holds the text of the exception; the entries of every
    other country are what they were before the turn of [A], and, for a
    country that does not come up again, what they are in the final
    report; every country handled before or after has an entry.  When it
    is the trend request of [A] that raises, the turn of [A] does nothing
    else than record that text. *)
Theorem country_failure_is_isolated (p : period) (before after : list country)
    (A : country) (w : world) :
  exists rep1 w1 rep2 w2 rep3 w3,
    for_each before (process_country p) (empty_report, w) = (Ok tt, (rep1, w1)) /\
    process_country p A (rep1, w1) = (Ok tt, (rep2, w2)) /\
    for_each after (process_country p) (rep2, w2) = (Ok tt, (rep3, w3)) /\
    run_analysis (before ++ A :: after) p w = (Ok tt, (rep3, w3)) /\
    (forall B, In B before -> dict_get country_eqb B (results rep1) <> None) /\
    (forall B, In B after -> dict_get country_eqb B (results rep3) <> None) /\
    (forall e s,
       process_country_try p A (rep1, w1) = (Raise e, s) ->
       dict_get country_eqb A (results rep2) = Some (CountryError (exn_str e)) /\
       (~ In A after ->
        dict_get country_eqb A (results rep3) = Some (CountryError (exn_str e)))) /\
    (forall e w',
       serpapi_search (term (COUNTRY_QUERIES A)) (geo (COUNTRY_QUERIES A))
         (hl (COUNTRY_QUERIES A)) w1 = (Raise e, w') ->
       process_country_try p A (rep1, w1) = (Raise e, (rep1, w')) /\
       rep2 = set_result A (CountryError (exn_str e)) rep1 /\ w2 = w') /\
    (forall B, B <> A ->
       dict_get country_eqb B (results rep2) = dict_get country_eqb B (results rep1) /\
       dict_get country_eqb B (youtube_results rep2)
       = dict_get country_eqb B (youtube_results rep1)) /\
    (forall B, B <> A -> ~ In B after ->
       dict_get country_eqb B (results rep3) = dict_get country_eqb B (results rep1) /\
       dict_get country_eqb B (youtube_results rep3)
       = dict_get country_eqb B (youtube_results rep1)).
Proof.
  destruct (countries_loop_spec p before empty_report w)
    as (rep1 & w1 & H1 & Hin1 & _ & _).
  destruct (process_country_spec p A rep1 w1) as (rep2 & w2 & H2 & Hs & Hentry).
  destruct (countries_loop_spec p after rep2 w2)
    as (rep3 & w3 & H3 & Hin3 & Hout3 & _).
  exists rep1, w1, rep2, w2, rep3, w3.
  split; [exact H1|]. split; [exact H2|]. split; [exact H3|].
  split.
  { unfold run_analysis. rewrite for_each_app, H1.
    cbn [for_each]. unfold bind. rewrite H2. exact H3. }
  split; [exact Hin1|]. split; [exact Hin3|].
  split; [|split; [|split]].
  - intros e s He.
    assert (HA : dict_get country_eqb A (results rep2)
                 = Some (CountryError (exn_str e))).
    { destruct Hentry as [(Hok & _)|(e' & s' & He' & Hres)].
      - rewrite He in Hok. discriminate.
      - rewrite He in He'. inversion He'; subst. exact Hres. }
    split; [exact HA|].
    intros Hnot. destruct (Hout3 A Hnot) as [-> _]. exact HA.
  - intros e w' Hfetch.
    assert (Htry : process_country_try p A (rep1, w1) = (Raise e, (rep1, w'))).
    { unfold process_country_try, bind, on_world. cbn [fst snd].
      rewrite Hfetch. reflexivity. }
    split; [exact Htry|].
    unfold process_country, try_except in H2. rewrite Htry in H2.
    unfold modify in H2. cbn [fst snd] in H2.
    injection H2 as <- <-. split; reflexivity.
  - intros B HB. apply Hs. exact HB.
  - intros B HB Hnot.
    destruct (Hout3 B Hnot) as [-> ->]. apply Hs. exact HB.
Qed.
End AnalysisClaims.

Example demo_analysis_usa :
  match @run_analysis demo_runtime [USA] LastYear [] with
  | (r, (rep, _)) =>
      (r,
       map (fun cr => match snd cr with
                      | RisingQueries l => Some (List.length l)
                      | CountryError _ => None
                      end) (results rep),
       map (fun cy => List.length (snd cy)) (youtube_results rep))
  end
  = (Ok tt, [Some 15%nat], [15%nat]).
Proof. vm_compute. reflexivity. Qed.

Example demo_analysis_failure :
  @run_analysis demo_runtime [Japan; Korea] LastYear []
  = (Ok tt,
     (mk_report [(Japan, RisingQueries []); (Korea, CountryError "500 Server Error")]
                [(Japan, [])],
      [])).
Proof. vm_compute. reflexivity. Qed.

Lemma rising_queries_at_most_15_witness :
  reports_no_rising (JObj [("search_metadata", JObj [])]) /\
  exists rep',
    @process_country demo_runtime LastYear Japan (empty_report, [])
    = (Ok tt, (rep', [])) /\
    dict_get country_eqb Japan (results rep') = Some (RisingQueries []) /\
    dict_get country_eqb Japan (youtube_results rep') = Some [].
Proof.
  assert (Hnone : reports_no_rising (JObj [("search_metadata", JObj [])])).
  { exists [("search_metadata", JObj [])]. split; [reflexivity|].
    left. reflexivity. }
  refine (conj Hnone _).
  exact (proj2 (proj2 (@rising_queries_at_most_15 demo_runtime))
           LastYear Japan empty_report [] [] _ eq_refl Hnone).
Defined.

Lemma country_failure_is_isolated_witness :
  @process_country_try demo_runtime LastYear Korea
    (mk_report [(Japan, RisingQueries [])] [(Japan, [])], [])
  = (Raise (External "500 Server Error"),
     (mk_report [(Japan, RisingQueries [])] [(Japan, [])], [])) /\
  exists rep3 w3,
    @run_analysis demo_runtime [Japan; Korea; USA] LastYear [] = (Ok tt, (rep3, w3)) /\
    dict_get country_eqb Korea (results rep3) = Some (CountryError "500 Server Error") /\
    dict_get country_eqb Japan (results rep3) = Some (RisingQueries []) /\
    dict_get country_eqb Japan (youtube_results rep3) = Some [] /\
    dict_get country_eqb USA (results rep3) <> None.
Proof.
  split; [reflexivity|].
  destruct (@country_failure_is_isolated demo_runtime LastYear [Japan] [USA] Korea [])
    as (rep1 & w1 & rep2 & w2 & rep3 & w3 & H1 & H2 & H3 & Hrun & _ & Hafter & Herr
        & _ & _ & Hkeep).
  exists rep3, w3. split; [exact Hrun|].
  injection H1 as <- <-.
  split; [|split; [|split]].
  - apply (Herr (External "500 Server Error")
             (mk_report [(Japan, RisingQueries [])] [(Japan, [])], [])).
    + reflexivity.
    + intros [H|[]]. discriminate H.
  - refine (eq_trans (proj1 (Hkeep Japan _ _)) _);
      [discriminate|intros [H|[]]; discriminate H|reflexivity].
  - refine (eq_trans (proj2 (Hkeep Japan _ _)) _);
      [discriminate|intros [H|[]]; discriminate H|reflexivity].
  - apply Hafter. left. reflexivity.
Defined.

(** ** The workbook export *)

Lemma map_result_ok {A B} (f : A -> result B) (l : list A) :
  (forall x, In x l -> exists y, f x = Ok y) ->
  exists l', map_result f l = Ok l'.
Proof.
  induction l as [|x l IH]; intros H; simpl.
  - exists []. reflexivity.
  - destruct (H x (or_introl eq_refl)) as [y ->].
    destruct IH as [l' ->]; [intros z Hz; apply H; right; exact Hz|].
    exists (y :: l'). reflexivity.
Qed.

Section Workbook.
Context {RT : Runtime}.

(** The export, step by step: building the rows of the first sheet,
    writing the first sheet, writing the second one.  A failure before any
    sheet exists ends in the [IndexError] of the save. *)
Lemma export_excel_cases (rep : report) :
  match youtube_data (youtube_results rep) with
  | Raise _ => export_excel rep = Raise IndexError
  | Ok rows =>
      match to_excel_error "YouTube Shorts" rows with
      | Some (e, created) =>
          export_excel rep = Raise (if created then e else IndexError)
      | None =>
          match to_excel_error "Meme Keyword" (trends_data (results rep)) with
          | Some (e, _) => export_excel rep = Raise e
          | None =>
              export_excel rep
              = Ok [mk_sheet "YouTube Shorts" rows;
                    mk_sheet "Meme Keyword" (trends_data (results rep))]
          end
      end
  end.
Proof.
  unfold export_excel, export_body, bind, lift, to_excel.
  destruct (youtube_data (youtube_results rep)) as [rows|e]; [|reflexivity].
  destruct (to_excel_error "YouTube Shorts" rows) as [[e []]|]; try reflexivity.
  destruct (to_excel_error "Meme Keyword" (trends_data (results rep)))
    as [[e []]|]; reflexivity.
Qed.

Lemma youtube_data_ok (yr : list (country * list (json * list video_info))) :
  (forall c d q shorts v,
      In (c, d) yr -> In (q, shorts) d -> In v shorts ->
      exists date, published_date (published_at v) = Ok date) ->
  exists rows, youtube_data yr = Ok rows.
Proof.
  intros H. unfold youtube_data.
  match goal with
  | |- context [map_result ?f yr] =>
      destruct (map_result_ok f yr) as [per_country ->]
  end.
  - intros [c d] Hcd. cbn [fst snd].
    match goal with
    | |- context [map_result ?f d] =>
        destruct (map_result_ok f d) as [per_query ->]
    end.
    + intros [q shorts] Hq. cbn [fst snd].
      apply map_result_ok. intros v Hv. unfold youtube_row.
      destruct (H c d q shorts v Hcd Hq Hv) as [date ->].
      eexists. reflexivity.
    + eexists. reflexivity.
  - eexists. reflexivity.
Qed.

(** C8, as the code has it.  A workbook that the export produces holds
    exactly two sheets, [YouTube Shorts] and [Meme Keyword], in this
    order; and the export does produce one whenever every stored
    publication time can be read and the writer accepts the two frames
    that the export hands to it. *)
Theorem export_sheet_names :
  (forall (rep : report) (book : workbook),
      export_excel rep = Ok book ->
      map sheet_name book = ["YouTube Shorts"; "Meme Keyword"]) /\
  (forall rep : report,
      (forall c d q shorts v,
          In (c, d) (youtube_results rep) -> In (q, shorts) d -> In v shorts ->
          exists date, published_date (published_at v) = Ok date) ->
      (forall rows,
          youtube_data (youtube_results rep) = Ok rows ->
          to_excel_error "YouTube Shorts" rows = None) ->
      to_excel_error "Meme Keyword" (trends_data (results rep)) = None ->
      exists book, export_excel rep = Ok book).
Proof.
  split.
  - intros rep book H. pose proof (export_excel_cases rep) as Hc.
    destruct (youtube_data (youtube_results rep)) as [rows|e]; [|congruence].
    destruct (to_excel_error "YouTube Shorts" rows) as [[e created]|];
      [congruence|].
    destruct (to_excel_error "Meme Keyword" (trends_data (results rep)))
      as [[e created]|]; [congruence|].
    rewrite Hc in H. injection H as <-. reflexivity.
  - intros rep Hdates Hvideos Hkeywords.
    pose proof (export_excel_cases rep) as Hc.
    destruct (youtube_data_ok (youtube_results rep) Hdates) as [rows Hrows].
    rewrite Hrows in Hc. rewrite (Hvideos rows Hrows), Hkeywords in Hc.
    eexists. exact Hc.
Qed.
End Workbook.

Lemma export_sheet_names_witness :
  exists book,
    @export_excel demo_runtime demo_report = Ok book /\
    map sheet_name book = ["YouTube Shorts"; "Meme Keyword"] /\
    map (fun sh => List.length (sheet_rows sh)) book = [75%nat; 15%nat].
Proof.
  destruct (@export_excel demo_runtime demo_report) as [book|e] eqn:E;
    [|vm_compute in E; discriminate E].
  exists book. split; [reflexivity|].
  split; [exact (proj1 (@export_sheet_names demo_runtime) demo_report book E)|].
  vm_compute in E. injection E as <-. reflexivity.
Defined.

(** C8, as the claim has it, fails: the sheets of the workbook are not
    called [Video results] and [Search Keyword]. *)
Lemma export_sheet_names_counterexample :
  exists book,
    @export_excel demo_runtime demo_report = Ok book /\
    map sheet_name book <> ["Video results"; "Search Keyword"] /\
    ~ In "Video results" (map sheet_name book) /\
    ~ In "Search Keyword" (map sheet_name book).
Proof.
  destruct (@export_excel demo_runtime demo_report) as [book|e] eqn:E;
    vm_compute in E; [|discriminate E].
  injection E as <-. eexists. split; [reflexivity|]. simpl.
  split; [discriminate|].
  split; intros [H|[H|[]]]; discriminate H.
Qed.

(** * Further properties of the code *)

(** ** The duration parser on numerals, trailing text and other shapes *)

Lemma int_of_digits_acc_uint (d : Decimal.uint) :
  forall acc : nat,
    int_of_digits_acc (Z.of_nat acc) (NilEmpty.string_of_uint d)
    = Z.of_nat (Nat.of_uint_acc d acc).
Proof.
  induction d; intros acc; cbn [NilEmpty.string_of_uint int_of_digits_acc Nat.of_uint_acc];
    [reflexivity|..];
    rewrite <- IHd; f_equal; rewrite Nat.tail_mul_spec;
    unfold digit_value; cbn [nat_of_ascii]; simpl Z.of_nat at 2; lia.
Qed.

Lemma all_digits_uint (d : Decimal.uint) :
  all_digits (NilEmpty.string_of_uint d) = true.
Proof. induction d; simpl; auto. Qed.

Lemma decimal_digits (n : nat) : decimal n <> "" /\ all_digits (decimal n) = true.
Proof.
  unfold decimal, NilZero.string_of_uint.
  destruct (Nat.to_uint n); cbv iota; split;
    solve [simpl; discriminate | reflexivity | apply all_digits_uint].
Qed.

Lemma int_of_digits_decimal (n : nat) : int_of_digits (decimal n) = Z.of_nat n.
Proof.
  rewrite <- (DecimalNat.Unsigned.of_to n) at 2.
  unfold decimal, NilZero.string_of_uint, Nat.of_uint, int_of_digits.
  destruct (Nat.to_uint n) eqn:E; [reflexivity|..];
    rewrite <- E; apply (int_of_digits_acc_uint (Nat.to_uint n) 0).
Qed.

Lemma match_unit_no_digit (u : ascii) (s : string) :
  first_is_digit s = false -> match_unit u s = (None, s).
Proof.
  unfold match_unit. destruct s as [|c s]; [reflexivity|].
  simpl. intros ->. reflexivity.
Qed.

(** With text after it, a well-formed duration still yields its three
    groups, as long as the seconds are present or the text does not start
    with a digit. *)
Lemma re_match_duration_fields_tail (h m s : option string) (tail : string) :
  field_wf h -> field_wf m -> field_wf s ->
  s <> None \/ first_is_digit tail = false ->
  re_match_duration
    ("PT" ++ duration_field h "H" ++ duration_field m "M" ++ duration_field s "S"
          ++ tail)
  = Some (mk_duration_match h m s).
Proof.
  intros Hh Hm Hs Htail.
  change ("PT" ++ ?x) with (String "P" (String "T" x)).
  unfold re_match_duration.
  destruct h as [dh|], m as [dm|], s as [ds|]; simpl in Hh, Hm, Hs;
    unfold duration_field;
    repeat match goal with H : _ /\ _ |- _ => destruct H end;
    (destruct Htail as [Htail|Htail]; [try congruence|]);
    rewrite ?append_unit; simpl append;
    repeat first
      [ rewrite match_unit_present by (assumption || reflexivity)
      | rewrite match_unit_other by (assumption || reflexivity)
      | rewrite match_unit_no_digit by assumption ];
    reflexivity.
Qed.

Lemma field_wf_decimal (n : option nat) : field_wf (option_map decimal n).
Proof. destruct n as [k|]; simpl; [apply decimal_digits|exact I]. Qed.

Lemma field_value_decimal (n : option nat) :
  field_value (option_map decimal n) = unit_count n.
Proof. destruct n as [k|]; simpl; [apply int_of_digits_decimal|reflexivity]. Qed.

Section ParserMore.
Context {RT : Runtime}.

(** X1.  Writing hours, minutes and seconds as decimal numerals in
    [PT[nH][nM][nS]], each unit present or not, and parsing the string gives
    back hours * 3600 + minutes * 60 + seconds, when no numeral has more
    digits than [int()] converts. *)
Theorem parse_iso8601_duration_numerals (h m s : option nat) :
  field_allowed (option_map decimal h) ->
  field_allowed (option_map decimal m) ->
  field_allowed (option_map decimal s) ->
  parse_iso8601_duration
    ("PT" ++ duration_field (option_map decimal h) "H"
          ++ duration_field (option_map decimal m) "M"
          ++ duration_field (option_map decimal s) "S")
  = Ok (unit_count h * 3600 + unit_count m * 60 + unit_count s).
Proof.
  intros Ah Am As. unfold parse_iso8601_duration.
  rewrite (re_match_duration_fields _ _ _ (field_wf_decimal h) (field_wf_decimal m)
             (field_wf_decimal s)).
  rewrite !group_value_some by (assumption || apply field_wf_decimal).
  cbn [group1 group2 group3 rbind]. rewrite !field_value_decimal. reflexivity.
Qed.

(** X2.  [re.match] looks at the start of the string only: text after a
    well-formed duration does not change the outcome, provided the seconds
    are present or the text does not begin with a digit, and no unit has
    more digits than [int()] converts. *)
Theorem parse_iso8601_duration_ignores_tail (h m s : option string) (tail : string) :
  field_wf h -> field_wf m -> field_wf s ->
  field_allowed h -> field_allowed m -> field_allowed s ->
  s <> None \/ first_is_digit tail = false ->
  parse_iso8601_duration
    ("PT" ++ duration_field h "H" ++ duration_field m "M" ++ duration_field s "S"
          ++ tail)
  = Ok (field_value h * 3600 + field_value m * 60 + field_value s).
Proof.
  intros Hh Hm Hs Ah Am As Htail. unfold parse_iso8601_duration.
  rewrite (re_match_duration_fields_tail h m s tail Hh Hm Hs Htail).
  rewrite !group_value_some by assumption. reflexivity.
Qed.

(** X3.  The units are read in the order hours, minutes, seconds only:
    hours written after the minutes are not counted, whatever follows; the
    minutes are, when they have no more digits than [int()] converts. *)
Theorem parse_iso8601_duration_order (minutes hours tail : string) :
  minutes <> "" -> all_digits minutes = true ->
  hours <> "" -> all_digits hours = true ->
  digits_allowed (Z.of_nat (String.length minutes)) = true ->
  parse_iso8601_duration ("PT" ++ minutes ++ "M" ++ hours ++ "H" ++ tail)
  = Ok (int_of_digits minutes * 60).
Proof.
  intros Hm Hmd Hh Hhd Ha. unfold parse_iso8601_duration.
  change ("PT" ++ ?x) with (String "P" (String "T" x)).
  unfold re_match_duration. simpl append.
  rewrite (match_unit_other "H" "M" minutes _ Hmd eq_refl eq_refl).
  rewrite (match_unit_present "M" minutes _ Hm Hmd eq_refl).
  rewrite (match_unit_other "S" "H" hours _ Hhd eq_refl eq_refl).
  rewrite !group_value_cases by (cbn [group1 group2 group3 field_wf]; auto).
  cbn [group1 group2 group3 rbind]. rewrite Ha. cbn [rbind].
  f_equal. lia.
Qed.
End ParserMore.

Lemma parse_iso8601_duration_numerals_witness :
  @field_allowed demo_runtime (option_map decimal (Some 1%nat)) /\
  @field_allowed demo_runtime (option_map decimal None) /\
  @field_allowed demo_runtime (option_map decimal (Some 30%nat)) /\
  @parse_iso8601_duration demo_runtime
    ("PT" ++ duration_field (option_map decimal (Some 1%nat)) "H"
          ++ duration_field (option_map decimal None) "M"
          ++ duration_field (option_map decimal (Some 30%nat)) "S")
  = Ok (unit_count (Some 1%nat) * 3600 + unit_count None * 60
        + unit_count (Some 30%nat)).
Proof.
  assert (A1 : @field_allowed demo_runtime (option_map decimal (Some 1%nat)))
    by reflexivity.
  assert (A2 : @field_allowed demo_runtime (option_map decimal None)) by exact I.
  assert (A3 : @field_allowed demo_runtime (option_map decimal (Some 30%nat)))
    by reflexivity.
  refine (conj A1 (conj A2 (conj A3 _))).
  exact (@parse_iso8601_duration_numerals demo_runtime (Some 1%nat) None
           (Some 30%nat) A1 A2 A3).
Defined.

Example parse_example_numerals :
  @parse_iso8601_duration demo_runtime "PT1H30S" = Ok 3630.
Proof. vm_compute. reflexivity. Qed.

Lemma parse_iso8601_duration_ignores_tail_witness :
  field_wf (Some "1") /\ field_wf None /\ field_wf (Some "30") /\
  @field_allowed demo_runtime (Some "1") /\
  @field_allowed demo_runtime (Some "30") /\
  @parse_iso8601_duration demo_runtime
    ("PT" ++ duration_field (Some "1") "H" ++ duration_field None "M"
          ++ duration_field (Some "30") "S" ++ " and then some 7M")
  = Ok (field_value (Some "1") * 3600 + field_value None * 60
        + field_value (Some "30")).
Proof.
  assert (W1 : field_wf (Some "1")) by (split; [discriminate|reflexivity]).
  assert (W2 : field_wf None) by exact I.
  assert (W3 : field_wf (Some "30")) by (split; [discriminate|reflexivity]).
  assert (A1 : @field_allowed demo_runtime (Some "1")) by reflexivity.
  assert (A3 : @field_allowed demo_runtime (Some "30")) by reflexivity.
  refine (conj W1 (conj W2 (conj W3 (conj A1 (conj A3 _))))).
  apply (@parse_iso8601_duration_ignores_tail demo_runtime (Some "1") None
           (Some "30") " and then some 7M" W1 W2 W3 A1 I A3).
  left. discriminate.
Defined.

Example parse_example_tail :
  @parse_iso8601_duration demo_runtime "PT1H30S and then some 7M" = Ok 3630.
Proof. vm_compute. reflexivity. Qed.

Lemma parse_iso8601_duration_order_witness :
  @digits_allowed demo_runtime (Z.of_nat (String.length "15")) = true /\
  @parse_iso8601_duration demo_runtime ("PT" ++ "15" ++ "M" ++ "2" ++ "H" ++ "9S")
  = Ok (int_of_digits "15" * 60).
Proof.
  assert (A : @digits_allowed demo_runtime (Z.of_nat (String.length "15")) = true)
    by reflexivity.
  refine (conj A _).
  apply (@parse_iso8601_duration_order demo_runtime "15" "2" "9S");
    solve [discriminate | reflexivity].
Defined.

Example parse_example_order :
  @parse_iso8601_duration demo_runtime "PT15M2H9S" = Ok 900.
Proof. vm_compute. reflexivity. Qed.

(** ** More on the filter-and-rank stage *)

Lemma prefix_PT_days (days rest : string) :
  first_is_digit days = true -> prefix "PT" ("P" ++ days ++ rest) = false.
Proof.
  destruct days as [|c days]; [discriminate|]. simpl first_is_digit. intros Hc.
  destruct c as [[] [] [] [] [] [] [] []]; try discriminate Hc; reflexivity.
Qed.

Section ShortsMore.
Context {RT : Runtime}.

(** X4.  A duration on which the regular expression does not match, such
    as one with a day part ([P1DT2H]), counts as 0 seconds, so the loop
    keeps the video as if it were short. *)
Theorem unmatched_duration_is_kept :
  (forall days rest, first_is_digit days = true ->
     parse_iso8601_duration ("P" ++ days ++ rest) = Ok 0) /\
  (forall (video details : json) (s : string),
     py_getitem video "contentDetails" = Ok details ->
     py_getitem details "duration" = Ok (JStr s) ->
     prefix "PT" s = false ->
     video_duration video = Ok 0 /\
     forall info l1 l2 videos,
       make_video_info video = Ok info ->
       collect_videos (l1 ++ video :: l2) [] = Ok videos ->
       In info videos).
Proof.
  assert (Hzero : forall s,
             prefix "PT" s = false -> parse_iso8601_duration s = Ok 0).
  { intros s H. apply re_match_duration_none in H.
    unfold parse_iso8601_duration. rewrite H. reflexivity. }
  split.
  - intros days rest H. apply Hzero, prefix_PT_days, H.
  - intros video details s Hd Hs Hp.
    assert (Hdur : video_duration video = Ok 0).
    { unfold video_duration. rewrite Hd. cbn [rbind]. rewrite Hs. cbn [rbind].
      exact (Hzero s Hp). }
    split; [exact Hdur|].
    intros info l1 l2 videos Hmk Hc.
    apply (collect_videos_keeps l1 l2 video 0 info [] videos Hdur ltac:(lia) Hmk Hc).
Qed.

(** X5.  With a non-negative [max_results] the stage returns the
    [max_results] most viewed candidates, or all of them if there are fewer:
    the returned list together with some rest is a rearrangement of the
    candidates, and nothing in the rest has more views than anything
    returned. *)
Theorem get_youtube_shorts_top (search_query : json) (days_ago max_results : Z)
    (w w1 : world) (video_response : json) (items : list json)
    (videos : list video_info) :
  0 <= max_results ->
  fetch_video_response search_query days_ago w = (Ok video_response, w1) ->
  response_items video_response = Ok items ->
  collect_videos items [] = Ok videos ->
  exists out rest,
    get_youtube_shorts search_query days_ago max_results w = (Ok out, w1) /\
    Permutation (out ++ rest) videos /\
    List.length out = Nat.min (Z.to_nat max_results) (List.length videos) /\
    forall o r, In o out -> In r rest -> view_count r <= view_count o.
Proof.
  intros Hn Hf Hi Hc.
  exists (rank_videos videos max_results),
         (skipn (Z.to_nat max_results) (sorted_reverse view_count videos)).
  split; [apply (get_youtube_shorts_success _ _ _ _ _ _ _ _ Hf Hi Hc)|].
  unfold rank_videos. rewrite py_slice_to_nonneg by exact Hn.
  split; [|split].
  - rewrite firstn_skipn. apply sorted_reverse_perm.
  - rewrite length_firstn.
    rewrite (Permutation_length (sorted_reverse_perm view_count videos)).
    reflexivity.
  - intros o r Ho Hr.
    pose proof (sorted_reverse_descending view_count videos) as Hs.
    rewrite <- (firstn_skipn (Z.to_nat max_results)) in Hs.
    apply (sorted_app_cross _ _ _ Hs o r Ho Hr).
Qed.

(** X6.  The result is all or nothing: if the loop reaches an item whose
    duration cannot be read, or a short item from which no entry can be
    built, the videos collected before it are dropped and the caller gets
    the empty list. *)
Theorem one_bad_item_empties_result (search_query : json)
    (days_ago max_results : Z) (w w1 : world) (video_response : json)
    (l1 l2 : list json) (video : json) (before : list video_info) (e : exn) :
  fetch_video_response search_query days_ago w = (Ok video_response, w1) ->
  response_items video_response = Ok (l1 ++ video :: l2)%list ->
  collect_videos l1 [] = Ok before ->
  video_duration video = Raise e \/
  (exists dur, video_duration video = Ok dur /\ dur <= 60 /\
               make_video_info video = Raise e) ->
  get_youtube_shorts search_query days_ago max_results w
  = (Ok [], console_print ("YouTube API 오류: " ++ exn_str e) w1).
Proof.
  intros Hf Hi Hb Hbad.
  assert (Hc : collect_videos (l1 ++ video :: l2) [] = Raise e).
  { rewrite collect_videos_app, Hb. cbn [rbind collect_videos].
    destruct Hbad as [Hd|(dur & Hd & Hle & Hmk)]; rewrite Hd; cbn [rbind];
      [reflexivity|].
    apply Z.leb_le in Hle. rewrite Hle, Hmk. reflexivity. }
  unfold get_youtube_shorts, try_except, get_youtube_shorts_try, bind.
  rewrite Hf. unfold lift, rank_response. rewrite Hi. cbn [rbind].
  unfold rank_items. rewrite Hc. reflexivity.
Qed.

(** X7.  The [url] of a video is the watch address of its [video_id]; when
    that is a string without a slash, the download section leaves the
    address as it is. *)
Theorem video_url_is_canonical (video : json) (info : video_info) :
  make_video_info video = Ok info ->
  url info = "https://www.youtube.com/watch?v=" ++ py_str (video_id info) /\
  forall id, video_id info = JStr id -> no_slash id ->
    normalize_url (url info) = url info.
Proof.
  intros H.
  assert (Hurl : url info
                 = "https://www.youtube.com/watch?v=" ++ py_str (video_id info)).
  { unfold make_video_info in H. split_result H. injection H as <-. reflexivity. }
  split; [exact Hurl|].
  intros id Hv Hid. rewrite Hurl, Hv. cbn [py_str]. unfold normalize_url.
  change "youtube.com/shorts/" with ("youtube.com/shorts" ++ "/").
  rewrite (str_contains_slash_end "youtube.com/shorts"
             "https://www.youtube.com/watch?v=" id Hid).
  reflexivity.
Qed.

(** X8.  A count that the service delivers as a string of decimal digits,
    possibly with leading zeros, is read as the number it denotes, when it
    has no more digits than [int()] converts. *)
Theorem statistic_of_digits (video : json) (stats : list (string * json))
    (field digits : string) :
  py_getitem video "statistics" = Ok (JObj stats) ->
  assoc field stats = Some (JStr digits) ->
  digits <> "" -> all_digits digits = true ->
  digits_allowed (Z.of_nat (String.length digits)) = true ->
  statistic video field = Ok (int_of_digits digits) /\
  forall n, digits = decimal n -> statistic video field = Ok (Z.of_nat n).
Proof.
  intros Hs Ha Hne Hd Hlen.
  assert (H : statistic video field = Ok (int_of_digits digits)).
  { unfold statistic. rewrite Hs. cbn [rbind py_get]. rewrite Ha. cbn [rbind py_int].
    apply int_of_string_digits; assumption. }
  split; [exact H|].
  intros n ->. rewrite H, int_of_digits_decimal. reflexivity.
Qed.
End ShortsMore.

Lemma unmatched_duration_is_kept_witness :
  prefix "PT" "P1DT2H3M" = false /\
  @video_duration demo_runtime demo_day_long = Ok 0 /\
  In demo_day_long_info [demo_short_info; demo_day_long_info].
Proof.
  assert (Hp : prefix "PT" "P1DT2H3M" = false) by reflexivity.
  destruct (proj2 (@unmatched_duration_is_kept demo_runtime) demo_day_long
              (JObj [("duration", JStr "P1DT2H3M")]) "P1DT2H3M" eq_refl eq_refl Hp)
    as [Hdur Hkept].
  refine (conj Hp (conj Hdur _)).
  apply (Hkept demo_day_long_info [demo_short] []); reflexivity.
Defined.

Lemma get_youtube_shorts_top_witness :
  0 <= 3 /\
  exists out rest,
    @get_youtube_shorts demo_runtime (JStr "cat") 365 3 [] = (Ok out, []) /\
    Permutation (out ++ rest) demo_candidates /\
    List.length out = Nat.min (Z.to_nat 3) (List.length demo_candidates) /\
    forall o r, In o out -> In r rest -> view_count r <= view_count o.
Proof.
  assert (H3 : 0 <= 3) by lia.
  refine (conj H3 _).
  apply (@get_youtube_shorts_top demo_runtime (JStr "cat") 365 3 [] []
           (JObj [("items", JArr demo_items)]) demo_items demo_candidates H3);
    reflexivity.
Defined.

Lemma one_bad_item_empties_result_witness :
  @video_duration demo_runtime_bare demo_bare = Ok 5 /\ 5 <= 60 /\
  @make_video_info demo_runtime_bare demo_bare = Raise (KeyError "snippet") /\
  @get_youtube_shorts demo_runtime_bare (JStr "cat") 365 5 []
  = (Ok [], ["YouTube API 오류: 'snippet'"]).
Proof.
  assert (Hd : @video_duration demo_runtime_bare demo_bare = Ok 5) by reflexivity.
  assert (Hle : 5 <= 60) by lia.
  assert (Hmk : @make_video_info demo_runtime_bare demo_bare
                = Raise (KeyError "snippet")) by reflexivity.
  refine (conj Hd (conj Hle (conj Hmk _))).
  apply (@one_bad_item_empties_result demo_runtime_bare (JStr "cat") 365 5 [] []
           (JObj [("items", JArr [demo_short; demo_bare; demo_uncounted])])
           [demo_short] [demo_uncounted] demo_bare [demo_short_info]
           (KeyError "snippet")); try reflexivity.
  right. exists 5. auto.
Defined.

Lemma video_url_is_canonical_witness :
  @make_video_info demo_runtime demo_short = Ok demo_short_info /\
  no_slash "a" /\
  normalize_url (url demo_short_info) = url demo_short_info.
Proof.
  assert (Hmk : @make_video_info demo_runtime demo_short = Ok demo_short_info)
    by reflexivity.
  assert (Hid : no_slash "a") by reflexivity.
  refine (conj Hmk (conj Hid _)).
  exact (proj2 (@video_url_is_canonical demo_runtime demo_short demo_short_info Hmk)
           "a" eq_refl Hid).
Defined.

Lemma statistic_of_digits_witness :
  @digits_allowed demo_runtime (Z.of_nat (String.length "100")) = true /\
  @statistic demo_runtime demo_short "viewCount" = Ok (int_of_digits "100") /\
  @statistic demo_runtime demo_short "viewCount" = Ok (Z.of_nat 100).
Proof.
  assert (A : @digits_allowed demo_runtime (Z.of_nat (String.length "100")) = true)
    by reflexivity.
  destruct (@statistic_of_digits demo_runtime demo_short
              [("viewCount", JStr "100"); ("likeCount", JStr "3")]
              "viewCount" "100" eq_refl eq_refl ltac:(discriminate) eq_refl A)
    as [H Hn].
  exact (conj A (conj H (Hn 100%nat eq_refl))).
Defined.

(** ** More on the download section *)

Lemma split_on_pieces (sep : ascii) (s : string) :
  Forall (fun piece => has_char sep piece = false) (split_on sep s).
Proof.
  induction s as [|c s IH]; simpl.
  - constructor; [reflexivity|constructor].
  - destruct (Ascii.eqb c sep) eqn:E.
    + constructor; [reflexivity|exact IH].
    + destruct (split_on sep s) as [|piece pieces].
      * constructor; [simpl; rewrite E; reflexivity|constructor].
      * inversion IH; subst. constructor; [|assumption].
        simpl. rewrite E. assumption.
Qed.

Lemma last_segment_no_slash (s : string) : no_slash (last (split_on "/" s) "").
Proof.
  unfold no_slash.
  pose proof (split_on_pieces "/" s) as H.
  induction H as [|piece pieces Hp Hps IH]; [reflexivity|].
  destruct pieces; [exact Hp|exact IH].
Qed.

(** X16.  Normalizing an address twice is the same as normalizing it
    once. *)
Theorem normalize_url_idempotent (url : string) :
  normalize_url (normalize_url url) = normalize_url url.
Proof.
  unfold normalize_url at 2 3.
  destruct (str_contains "youtube.com/shorts/" url) eqn:E.
  - unfold normalize_url.
    change "youtube.com/shorts/" with ("youtube.com/shorts" ++ "/") at 1.
    rewrite (str_contains_slash_end "youtube.com/shorts"
               "https://www.youtube.com/watch?v=" _ (last_segment_no_slash url)).
    reflexivity.
  - unfold normalize_url. rewrite E. reflexivity.
Qed.

(** X17.  Whatever comes before it, the identifier taken from a short-form
    address is the text after its last slash; an address that ends in a
    slash therefore gives the watch address of the empty identifier. *)
Theorem normalize_url_last_segment (front id : string) :
  no_slash id ->
  str_contains "youtube.com/shorts/" (front ++ "/" ++ id) = true ->
  normalize_url (front ++ "/" ++ id) = "https://www.youtube.com/watch?v=" ++ id.
Proof.
  intros Hid H. unfold normalize_url. rewrite H.
  change (front ++ "/" ++ id) with (front ++ String "/" id).
  rewrite (last_segment front id Hid). reflexivity.
Qed.

Lemma normalize_url_last_segment_witness :
  no_slash "" /\
  str_contains "youtube.com/shorts/" ("https://youtube.com/shorts/XYZ" ++ "/" ++ "") = true /\
  normalize_url ("https://youtube.com/shorts/XYZ" ++ "/" ++ "")
  = "https://www.youtube.com/watch?v=" ++ "".
Proof.
  assert (Hid : no_slash "") by reflexivity.
  assert (H : str_contains "youtube.com/shorts/"
                ("https://youtube.com/shorts/XYZ" ++ "/" ++ "") = true) by reflexivity.
  exact (conj Hid (conj H (normalize_url_last_segment
                             "https://youtube.com/shorts/XYZ" "" Hid H))).
Defined.

Example normalize_url_trailing_slash :
  normalize_url "https://youtube.com/shorts/XYZ/" = "https://www.youtube.com/watch?v=".
Proof. vm_compute. reflexivity. Qed.

Example normalize_url_mobile_host :
  normalize_url "http://m.youtube.com/shorts/XYZ" = "https://www.youtube.com/watch?v=XYZ".
Proof. vm_compute. reflexivity. Qed.

Section DownloadMore.
Context {RT : Runtime}.

Lemma download_loop_verdict (verdict : string -> result unit) (links : list string) :
  (forall link w, fst (ydl_download link w) = verdict link) ->
  forall failed downloaded w,
  exists w',
    download_loop links failed downloaded w
    = (Ok ((failed ++ expected_failures verdict links)%list,
           downloaded + expected_successes verdict links), w').
Proof.
  intros Hv. unfold expected_successes.
  induction links as [|link links IH]; intros failed downloaded w.
  - exists w. simpl. rewrite app_nil_r, Z.add_0_r. reflexivity.
  - cbn [download_loop]. unfold bind at 1, try_except, bind, ret.
    pose proof (Hv link w) as Hl.
    destruct (ydl_download link w) as [r w1]. cbn [fst] in Hl. subst r.
    cbn [expected_failures flat_map filter].
    fold (expected_failures verdict links).
    destruct (verdict link) as [[]|e]; cbn [fst snd].
    + destruct (IH failed (downloaded + 1) w1) as [w' ->].
      exists w'. cbn [List.length app]. do 3 f_equal. lia.
    + destruct (IH (failed ++ [(link, exn_str e)])%list downloaded w1) as [w' ->].
      exists w'. rewrite <- app_assoc. reflexivity.
Qed.

(** X18.  When the fate of a download depends on the link alone, the
    failure list holds, in the order of the links, exactly the links that
    fail, each with the text of its exception, and the count of successes
    is the number of links that do not fail; no failure stops the batch. *)
Theorem download_outcome (verdict : string -> result unit)
    (df : list (string * list xl_cell)) (urls : list xl_cell) (w : world) :
  (forall link w0, fst (ydl_download link w0) = verdict link) ->
  column "url" df = Some urls ->
  exists summary w',
    download_videos df w = (Ok (Some summary), w') /\
    video_links summary = map normalize_url (string_cells urls) /\
    failed_list summary = expected_failures verdict (video_links summary) /\
    downloaded_count summary = expected_successes verdict (video_links summary).
Proof.
  intros Hv Hdf. unfold download_videos. rewrite Hdf.
  rewrite build_video_links_spec. cbn [app]. unfold bind, ret.
  destruct (download_loop_verdict verdict (map normalize_url (string_cells urls))
              Hv [] 0 w) as [w' ->].
  eexists. eexists. split; [reflexivity|].
  cbn [video_links failed_list downloaded_count fst snd app].
  repeat split.
Qed.
End DownloadMore.

Lemma download_outcome_witness :
  (forall link w0, fst (@ydl_download demo_runtime link w0) = demo_verdict link) /\
  exists summary w',
    @download_videos demo_runtime
      [("url", [XlStr "https://youtu.be/gone"; XlMissing;
                XlStr "https://youtube.com/shorts/abc"; XlStr "gone too"])] []
    = (Ok (Some summary), w') /\
    failed_list summary
    = [("https://youtu.be/gone", "Video unavailable"); ("gone too", "Video unavailable")] /\
    downloaded_count summary = 1.
Proof.
  assert (Hv : forall link w0,
             fst (@ydl_download demo_runtime link w0) = demo_verdict link).
  { intros link w0. unfold demo_verdict. cbn [ydl_download demo_runtime].
    destruct (str_contains "gone" link); reflexivity. }
  refine (conj Hv _).
  destruct (@download_outcome demo_runtime demo_verdict
              [("url", [XlStr "https://youtu.be/gone"; XlMissing;
                        XlStr "https://youtube.com/shorts/abc"; XlStr "gone too"])]
              _ [] Hv eq_refl)
    as (summary & w' & Hd & Hlinks & Hfailed & Hcount).
  exists summary, w'. split; [exact Hd|].
  rewrite Hfailed, Hcount, Hlinks. split; vm_compute; reflexivity.
Defined.

(** ** More on the workbook export *)

Lemma map_result_forall2 {A B} (f : A -> result B) (l : list A) :
  forall l', map_result f l = Ok l' -> Forall2 (fun x y => f x = Ok y) l l'.
Proof.
  induction l as [|x l IH]; simpl; intros l' H.
  - injection H as <-. constructor.
  - split_result H. injection H as <-. constructor; [assumption|].
    apply IH. reflexivity.
Qed.

Lemma map_result_raises {A B} (f : A -> result B) (l : list A) (x : A) :
  In x l -> (exists e, f x = Raise e) -> exists e', map_result f l = Raise e'.
Proof.
  induction l as [|y l IH]; simpl; intros Hin Hx; [contradiction|].
  destruct (f y) as [b|e] eqn:E; cbn [rbind]; [|eexists; reflexivity].
  destruct Hin as [->|Hin].
  - destruct Hx as [e He]. congruence.
  - destruct (IH Hin Hx) as [e' ->]. eexists. reflexivity.
Qed.

(** Lengths and a property of the elements of a concatenation, read off
    piece by piece. *)
Lemma concat_forall2 {A B} (g : A -> nat) (Q : B -> Prop) (l : list A)
    (l' : list (list B)) :
  Forall2 (fun x ys => List.length ys = g x /\ Forall Q ys) l l' ->
  List.length (List.concat l') = list_sum (map g l) /\ Forall Q (List.concat l').
Proof.
  induction 1 as [|x ys l l' [Hlen HQ] _ [IHlen IHQ]]; simpl.
  - split; [reflexivity|constructor].
  - rewrite length_app, Hlen, IHlen. split; [reflexivity|].
    apply Forall_app. split; assumption.
Qed.

Lemma forall2_impl {A B} (P Q : A -> B -> Prop) (l : list A) (l' : list B) :
  (forall x y, P x y -> Q x y) -> Forall2 P l l' -> Forall2 Q l l'.
Proof. intros H. induction 1; constructor; auto. Qed.

Section WorkbookMore.
Context {RT : Runtime}.

Lemma youtube_row_columns (c : country) (query : json) (short : video_info)
    (r : row) :
  youtube_row c query short = Ok r -> map fst r = youtube_columns.
Proof.
  unfold youtube_row. intros H. split_result H. injection H as <-. reflexivity.
Qed.

Lemma youtube_rows_of_query (c : country) (query : json)
    (shorts : list video_info) (rows : list row) :
  map_result (youtube_row c query) shorts = Ok rows ->
  List.length rows = List.length shorts /\
  Forall (fun r => map fst r = youtube_columns) rows.
Proof.
  intros H. split; [apply (map_result_length _ _ _ H)|].
  apply map_result_forall2 in H.
  induction H as [|short r shorts rows Hr _ IH]; constructor;
    [apply (youtube_row_columns c query short r Hr)|exact IH].
Qed.

Lemma youtube_data_rows (yr : list (country * list (json * list video_info)))
    (rows : list row) :
  youtube_data yr = Ok rows ->
  List.length rows = video_total yr /\
  Forall (fun r => map fst r = youtube_columns) rows.
Proof.
  unfold youtube_data, video_total. intros H. split_result H. injection H as <-.
  apply concat_forall2.
  apply map_result_forall2 in E.
  eapply forall2_impl; [|exact E].
  intros cq rows_c H. cbn beta in H. split_result H. injection H as <-.
  apply concat_forall2.
  apply map_result_forall2 in E0.
  eapply forall2_impl; [|exact E0].
  intros qs rows_q H. cbn beta in H.
  apply (youtube_rows_of_query _ _ _ _ H).
Qed.

Lemma trends_data_rows (rs : list (country * country_result)) :
  List.length (trends_data rs) = rising_total rs /\
  Forall (fun r => map fst r = trends_columns) (trends_data rs).
Proof.
  unfold trends_data, rising_total.
  induction rs as [|[c r] rs [IHlen IHcols]]; cbn [flat_map map list_sum fst snd].
  - split; [reflexivity|constructor].
  - split.
    + rewrite length_app. apply (f_equal2 Nat.add); [|exact IHlen].
      destruct r; cbn [List.length]; [rewrite length_map|]; reflexivity.
    + apply Forall_app. split; [|exact IHcols].
      destruct r; [|constructor].
      apply Forall_forall. intros x Hx. apply in_map_iff in Hx as [qv [<- _]].
      reflexivity.
Qed.

(** X14.  A workbook that the export produces has one row per stored
    video on its first sheet and one row per stored rising query on its
    second sheet, a country that ended in an error adding none; every row
    carries the columns of its sheet in their fixed order. *)
Theorem export_rows (rep : report) (book : workbook) :
  export_excel rep = Ok book ->
  exists videos_sheet keywords_sheet,
    book = [videos_sheet; keywords_sheet] /\
    List.length (sheet_rows videos_sheet) = video_total (youtube_results rep) /\
    Forall (fun r => map fst r = youtube_columns) (sheet_rows videos_sheet) /\
    sheet_rows keywords_sheet = trends_data (results rep) /\
    List.length (sheet_rows keywords_sheet) = rising_total (results rep) /\
    Forall (fun r => map fst r = trends_columns) (sheet_rows keywords_sheet).
Proof.
  intros H. pose proof (export_excel_cases rep) as Hc.
  destruct (youtube_data (youtube_results rep)) as [rows|e] eqn:E; [|congruence].
  destruct (to_excel_error "YouTube Shorts" rows) as [[e created]|];
    [congruence|].
  destruct (to_excel_error "Meme Keyword" (trends_data (results rep)))
    as [[e created]|]; [congruence|].
  rewrite Hc in H. injection H as <-.
  destruct (youtube_data_rows _ _ E) as [Hlen Hcols].
  destruct (trends_data_rows (results rep)) as [Hlen' Hcols'].
  eexists. eexists. split; [reflexivity|]. cbn [sheet_rows].
  repeat split; assumption.
Qed.

(** X15.  One stored video whose publication time cannot be read makes
    the whole export fail: no workbook is produced. *)
Theorem export_fails_on_unreadable_date (rep : report) (c : country)
    (d : list (json * list video_info)) (q : json) (shorts : list video_info)
    (v : video_info) (e : exn) :
  In (c, d) (youtube_results rep) -> In (q, shorts) d -> In v shorts ->
  published_date (published_at v) = Raise e ->
  exists e', export_excel rep = Raise e'.
Proof.
  intros Hc Hq Hv He.
  assert (H : exists e', youtube_data (youtube_results rep) = Raise e').
  { unfold youtube_data.
    match goal with
    | |- context [map_result ?f (youtube_results rep)] =>
        destruct (map_result_raises f (youtube_results rep) (c, d) Hc) as [e1 ->]
    end; [|eexists; reflexivity].
    cbn [fst snd].
    match goal with
    | |- context [map_result ?f d] =>
        destruct (map_result_raises f d (q, shorts) Hq) as [e2 ->]
    end; [|eexists; reflexivity].
    cbn [fst snd].
    destruct (map_result_raises (youtube_row c q) shorts v Hv) as [e3 ->];
      [|eexists; reflexivity].
    unfold youtube_row. rewrite He. eexists. reflexivity. }
  destruct H as [e' H]. exists IndexError.
  pose proof (export_excel_cases rep) as Hx. rewrite H in Hx. exact Hx.
Qed.
End WorkbookMore.

Lemma export_rows_witness :
  exists book videos_sheet keywords_sheet,
    @export_excel demo_runtime demo_report = Ok book /\
    book = [videos_sheet; keywords_sheet] /\
    List.length (sheet_rows videos_sheet) = 75%nat /\
    List.length (sheet_rows keywords_sheet) = 15%nat.
Proof.
  destruct (@export_excel demo_runtime demo_report) as [book|e] eqn:E;
    [|vm_compute in E; discriminate E].
  destruct (@export_rows demo_runtime demo_report book E)
    as (vs & ks & Hb & Hv & _ & _ & Hk & _).
  exists book, vs, ks. split; [reflexivity|]. split; [exact Hb|].
  rewrite Hv, Hk. split; vm_compute; reflexivity.
Defined.

Lemma export_fails_on_unreadable_date_witness :
  @published_date demo_runtime (published_at demo_undated_info) = Raise TypeError /\
  exists e', @export_excel demo_runtime demo_report_undated = Raise e'.
Proof.
  assert (He : @published_date demo_runtime (published_at demo_undated_info)
               = Raise TypeError) by reflexivity.
  refine (conj He _).
  apply (@export_fails_on_unreadable_date demo_runtime demo_report_undated USA
           [(JStr "cat", [demo_short_info; demo_undated_info])] (JStr "cat")
           [demo_short_info; demo_undated_info] demo_undated_info TypeError);
    [left; reflexivity|left; reflexivity|right; left; reflexivity|exact He].
Defined.

(** ** More on the analysis loop *)

Section DictFacts.
Context {K V : Type} (eqb : K -> K -> bool).

Lemma dict_set_length (k : K) (v : V) (d : list (K * V)) :
  (List.length (dict_set eqb k v d) <= S (List.length d))%nat.
Proof.
  induction d as [|[k' v'] d IH]; simpl; [lia|].
  destruct (eqb k' k); simpl; lia.
Qed.

Lemma dict_set_in (k : K) (v : V) (d : list (K * V)) (k' : K) (v' : V) :
  In (k', v') (dict_set eqb k v d) -> In (k', v') d \/ v' = v.
Proof.
  induction d as [|[k0 v0] d IH]; simpl.
  - intros [H|[]]. injection H as _ <-. right. reflexivity.
  - destruct (eqb k0 k); simpl.
    + intros [H|H]; [injection H as _ <-; right; reflexivity|left; right; exact H].
    + intros [H|H]; [left; left; exact H|].
      destruct (IH H) as [H'|H']; [left; right; exact H'|right; exact H'].
Qed.

Lemma dict_set_keeps (k : K) (v : V) (d : list (K * V)) (q : K) :
  dict_get eqb q d <> None -> dict_get eqb q (dict_set eqb k v d) <> None.
Proof.
  induction d as [|[k0 v0] d IH]; simpl; [congruence|].
  destruct (eqb k0 k) eqn:Ek; simpl; destruct (eqb k0 q); auto; discriminate.
Qed.

(** Insert, then look up. *)
Lemma dict_get_set_refl (k : K) (v : V) (d : list (K * V)) :
  eqb k k = true -> dict_get eqb k (dict_set eqb k v d) = Some v.
Proof.
  intros Hk. induction d as [|[k0 v0] d IH]; simpl.
  - rewrite Hk. reflexivity.
  - destruct (eqb k0 k) eqn:E; simpl; rewrite E; [reflexivity|exact IH].
Qed.

Lemma dict_get_in (q : K) (v : V) (d : list (K * V)) :
  dict_get eqb q d = Some v -> exists k, In (k, v) d /\ eqb k q = true.
Proof.
  induction d as [|[k0 v0] d IH]; simpl; [discriminate|].
  destruct (eqb k0 q) eqn:E.
  - intros H. injection H as <-. exists k0. auto.
  - intros H. destruct (IH H) as (k & Hin & Hk). exists k. auto.
Qed.
End DictFacts.

Lemma py_key_eqb_refl (k : json) : py_hashable k = true -> py_key_eqb k k = true.
Proof.
  destruct k; simpl; intros H; try discriminate; try reflexivity;
    try apply Qeq_bool_refl.
  apply String.eqb_refl.
Qed.

Lemma py_key_eqb_sym (a b : json) : py_key_eqb a b = py_key_eqb b a.
Proof.
  destruct a, b; simpl; try reflexivity;
    try apply Qeq_bool_comm.
  apply String.eqb_sym.
Qed.

Lemma py_key_eqb_trans (a b c : json) :
  py_key_eqb a b = true -> py_key_eqb b c = true -> py_key_eqb a c = true.
Proof.
  destruct a, b; simpl; try discriminate; destruct c; simpl; try discriminate;
    try reflexivity; try apply Qeq_bool_trans.
  intros H1 H2. apply String.eqb_eq in H1, H2. subst. apply String.eqb_refl.
Qed.

(** Setting one key leaves the value under every other key alone. *)
Lemma py_dict_get_set_other {V} (key q : json) (v : V) (d : list (json * V)) :
  py_key_eqb key q = false ->
  dict_get py_key_eqb q (dict_set py_key_eqb key v d) = dict_get py_key_eqb q d.
Proof.
  intros Hq. induction d as [|[k0 v0] d IH]; simpl.
  - rewrite Hq. reflexivity.
  - destruct (py_key_eqb k0 key) eqn:Ek; simpl.
    + destruct (py_key_eqb k0 q) eqn:E; [|reflexivity].
      rewrite py_key_eqb_sym in Ek.
      rewrite (py_key_eqb_trans key k0 q Ek E) in Hq. discriminate.
    + destruct (py_key_eqb k0 q); [reflexivity|exact IH].
Qed.

Lemma shorts_grow_refl (P : list video_info -> Prop) (c : country) (rep : report)
    (d : list (json * list video_info)) (n : nat) :
  dict_get country_eqb c (youtube_results rep) = Some d ->
  shorts_grow P c rep rep d d n.
Proof.
  intros H. unfold shorts_grow.
  split; [reflexivity|]. split; [apply same_elsewhere_refl|].
  split; [exact H|]. split; [lia|]. split; auto.
Qed.

Lemma shorts_grow_trans (P : list video_info -> Prop) (c : country)
    (r1 r2 r3 : report) (d1 d2 d3 : list (json * list video_info)) (n m : nat) :
  shorts_grow P c r1 r2 d1 d2 n -> shorts_grow P c r2 r3 d2 d3 m ->
  shorts_grow P c r1 r3 d1 d3 (n + m).
Proof.
  intros (Ha & Hb & Hc & Hd & He & Hf) (Ha' & Hb' & Hc' & Hd' & He' & Hf').
  unfold shorts_grow.
  split; [congruence|].
  split; [apply (same_elsewhere_trans c _ _ _ Hb Hb')|].
  split; [exact Hc'|]. split; [lia|]. split.
  - intros k s H. destruct (He' k s H) as [H'|H']; [apply He; exact H'|right; exact H'].
  - intros q H. apply Hf', Hf, H.
Qed.

Section AnalysisMore.
Context {RT : Runtime}.

Lemma get_youtube_shorts_at_most_5 (search_query : json) (days_ago : Z)
    (w w' : world) (r : result (list video_info)) :
  get_youtube_shorts search_query days_ago 5 w = (r, w') ->
  exists out, r = Ok out /\ (List.length out <= 5)%nat.
Proof.
  intros H.
  destruct (get_youtube_shorts_cases search_query days_ago 5 w)
    as [(vr & w1 & items & videos & _ & _ & _ & H')|(e & w1 & _ & H')];
    rewrite H' in H; injection H as <- _; eexists; (split; [reflexivity|]).
  - apply (rank_videos_length videos 5). lia.
  - simpl. lia.
Qed.

Lemma stage_output_at_most_5 (p : period) (shorts : list video_info) :
  stage_output p shorts -> (List.length shorts <= 5)%nat.
Proof.
  intros (q & w & w' & H).
  destruct (get_youtube_shorts_at_most_5 _ _ _ _ _ H) as (out & Hout & Hlen).
  injection Hout as ->. exact Hlen.
Qed.

(** Every video of such a list was built from a short item. *)
Lemma stage_output_short (p : period) (shorts : list video_info)
    (info : video_info) :
  stage_output p shorts -> In info shorts -> from_short_item info.
Proof.
  intros (q & w & w' & H) Hin.
  destruct (get_youtube_shorts_sources _ _ _ _ _ _ H info Hin)
    as (vr & w1 & items & video & dur & Hf & Hi & Hv & Hd & Hle & Hmk).
  destruct (fetch_video_response_detail _ _ _ _ _ Hf) as (ids & w0 & Hdetail).
  exists ids, w0, w1, vr, items, video, dur. repeat split; assumption.
Qed.

(** One pass of the inner loop, seen from the videos stored for [c]. *)
Lemma search_shorts_grow (p : period) (c : country) (item : json)
    (rep : report) (w : world) (d : list (json * list video_info)) :
  dict_get country_eqb c (youtube_results rep) = Some d ->
  exists r rep' w' d',
    search_shorts p c item (rep, w) = (r, (rep', w')) /\
    shorts_grow (stage_output p) c rep rep' d d' 1 /\
    (r = Ok tt ->
     exists q, py_getitem item "query" = Ok q /\ dict_get py_key_eqb q d' <> None).
Proof.
  intros Hd.
  unfold search_shorts, bind, lift, on_world. cbn [fst snd].
  destruct (py_getitem item "query") as [key|e].
  2: { exists (Raise e), rep, w, d. split; [reflexivity|].
       split; [apply shorts_grow_refl; exact Hd|discriminate]. }
  destruct (get_youtube_shorts key (PERIOD_OPTIONS p) 5 w) as [r0 w1] eqn:Hg.
  destruct (get_youtube_shorts_at_most_5 _ _ _ _ _ Hg) as (shorts & -> & Hlen).
  unfold store_shorts. cbn [fst snd]. rewrite Hd.
  destruct (py_hashable key) eqn:Hh.
  - exists (Ok tt), (set_youtube c (dict_set py_key_eqb key shorts d) rep), w1,
           (dict_set py_key_eqb key shorts d).
    split; [reflexivity|]. split.
    + unfold shorts_grow. split; [reflexivity|].
      split; [apply same_elsewhere_set_youtube|].
      split; [simpl; apply dict_get_set_same|].
      split; [pose proof (dict_set_length py_key_eqb key shorts d); lia|].
      split.
      * intros k s H. destruct (dict_set_in py_key_eqb _ _ _ _ _ H) as [H'| ->];
          [left; exact H'|right; exists key, w, w1; exact Hg].
      * intros q H. apply dict_set_keeps. exact H.
    + intros _. exists key. split; [reflexivity|].
      rewrite (dict_get_set_refl py_key_eqb key shorts d (py_key_eqb_refl key Hh)).
      discriminate.
  - exists (Raise TypeError), rep, w1, d. split; [reflexivity|].
    split; [apply shorts_grow_refl; exact Hd|discriminate].
Qed.

Lemma shorts_loop_grow (p : period) (c : country) (items : list json) :
  forall rep w d,
    dict_get country_eqb c (youtube_results rep) = Some d ->
    exists r rep' w' d',
      for_each items (search_shorts p c) (rep, w) = (r, (rep', w')) /\
      shorts_grow (stage_output p) c rep rep' d d' (List.length items) /\
      (r = Ok tt ->
       forall item, In item items ->
         exists q, py_getitem item "query" = Ok q /\
                   dict_get py_key_eqb q d' <> None).
Proof.
  induction items as [|item items IH]; intros rep w d Hd.
  - exists (Ok tt), rep, w, d. split; [reflexivity|].
    split; [apply shorts_grow_refl; exact Hd|]. intros _ item [].
  - cbn [for_each]. unfold bind.
    destruct (search_shorts_grow p c item rep w d Hd)
      as (r & rep1 & w1 & d1 & -> & Hg & Hq).
    destruct r as [[]|e].
    + assert (Hd1 : dict_get country_eqb c (youtube_results rep1) = Some d1)
        by apply Hg.
      destruct (IH rep1 w1 d1 Hd1) as (r' & rep2 & w2 & d2 & -> & Hg' & Hq').
      exists r', rep2, w2, d2. split; [reflexivity|].
      split; [apply (shorts_grow_trans _ c _ _ _ _ _ _ 1 _ Hg Hg')|].
      intros Hr item' [<-|Hin].
      * destruct (Hq eq_refl) as (q & Hqi & Hpresent).
        exists q. split; [exact Hqi|]. apply Hg'. exact Hpresent.
      * apply (Hq' Hr item' Hin).
    + exists (Raise e), rep1, w1, d1. split; [reflexivity|].
      split; [|discriminate].
      destruct Hg as (Ha & Hb & Hc & Hlen & He & Hf).
      unfold shorts_grow.
      split; [exact Ha|]. split; [exact Hb|]. split; [exact Hc|].
      split; [cbn [List.length]; lia|]. split; assumption.
Qed.

(** The [try] block either raises before it has stored anything, leaving
    the report as it was, or stores the pairs read from the answer and an
    empty dict of videos and then runs the inner loop on at most 15
    items. *)
Lemma process_country_try_cases (p : period) (c : country) (rep : report)
    (w : world) :
  (exists e w1, process_country_try p c (rep, w) = (Raise e, (rep, w1))) \/
  (exists data w1 items pairs,
      serpapi_search (term (COUNTRY_QUERIES c)) (geo (COUNTRY_QUERIES c))
        (hl (COUNTRY_QUERIES c)) w = (Ok data, w1) /\
      rising_pairs data = Ok pairs /\
      Forall2 (fun item qv => query_value item = Ok qv) items pairs /\
      (List.length items <= 15)%nat /\
      process_country_try p c (rep, w)
      = for_each items (search_shorts p c)
          (set_youtube c [] (set_result c (RisingQueries pairs) rep), w1)).
Proof.
  remember (process_country_try p c (rep, w)) as outcome eqn:Ho.
  unfold process_country_try, bind, on_world, lift, modify in Ho.
  cbn [fst snd] in Ho.
  destruct (serpapi_search _ _ _ w) as [[data|e] w1];
    [|left; exists e, w1; exact Ho].
  destruct (rising_queries_of data) as [rq|e] eqn:Hrq;
    [|left; exists e, w1; exact Ho].
  destruct (py_iter rq) as [items|e] eqn:Hit;
    [|left; exists e, w1; exact Ho].
  destruct (map_result query_value items) as [pairs|e] eqn:Hp;
    [|left; exists e, w1; exact Ho].
  right. exists data, w1, items, pairs.
  split; [reflexivity|].
  split; [unfold rising_pairs; rewrite Hrq; cbn [rbind]; rewrite Hit; exact Hp|].
  split; [apply (map_result_forall2 _ _ _ Hp)|].
  split; [apply (rising_queries_capped data rq items Hrq Hit)|].
  rewrite Ho.
  destruct (for_each items (search_shorts p c) _) as [[[]|e] st]; reflexivity.
Qed.
End AnalysisMore.

Lemma forall2_in_r {A B} (P : A -> B -> Prop) (l : list A) (l' : list B) (y : B) :
  Forall2 P l l' -> In y l' -> exists x, In x l /\ P x y.
Proof.
  induction 1 as [|x y' l l' Hxy _ IH]; simpl; [contradiction|].
  intros [<-|Hy].
  - exists x. auto.
  - destruct (IH Hy) as (x' & Hin & HP). exists x'. auto.
Qed.

Lemma forall2_length {A B} (P : A -> B -> Prop) (l : list A) (l' : list B) :
  Forall2 P l l' -> List.length l = List.length l'.
Proof. induction 1; simpl; congruence. Qed.

Lemma report_bounded_set_result (c : country) (r : country_result) (rep : report) :
  report_bounded rep -> report_bounded (set_result c r rep).
Proof. intros H b d Hd. apply (H b d). exact Hd. Qed.

Lemma py_dict_get_set_same {V} (key q : json) (v : V) (d : list (json * V)) :
  py_key_eqb key q = true ->
  dict_get py_key_eqb q (dict_set py_key_eqb key v d) = Some v.
Proof.
  intros Hq. induction d as [|[k0 v0] d IH]; simpl.
  - rewrite Hq. reflexivity.
  - destruct (py_key_eqb k0 key) eqn:Ek; simpl.
    + rewrite (py_key_eqb_trans k0 key q Ek Hq). reflexivity.
    + destruct (py_key_eqb k0 q) eqn:E; [|exact IH].
      rewrite py_key_eqb_sym in Hq.
      rewrite (py_key_eqb_trans k0 q key E Hq) in Ek. discriminate.
Qed.

Lemma rising_pairs_of_list (fields related : list (string * json)) (l : list json) :
  assoc "related_queries" fields = Some (JObj related) ->
  assoc "rising" related = Some (JArr l) ->
  rising_pairs (JObj fields) = map_result query_value (firstn 15 l).
Proof.
  intros Hr Hl. unfold rising_pairs, rising_queries_of.
  cbn [py_get]. rewrite Hr. cbn [rbind py_get]. rewrite Hl.
  cbn [rbind py_truthy].
  destruct l as [|x l]; cbn [rbind py_slice_json py_iter]; reflexivity.
Qed.

Section AnalysisExtras.
Context {RT : Runtime}.

(** What a [try] block that ended normally has left for its country. *)
Lemma process_country_try_ok (p : period) (c : country) (rep rep' : report)
    (w w' : world) :
  process_country_try p c (rep, w) = (Ok tt, (rep', w')) ->
  exists data w1 items pairs d,
    serpapi_search (term (COUNTRY_QUERIES c)) (geo (COUNTRY_QUERIES c))
      (hl (COUNTRY_QUERIES c)) w = (Ok data, w1) /\
    rising_pairs data = Ok pairs /\
    Forall2 (fun item qv => query_value item = Ok qv) items pairs /\
    dict_get country_eqb c (results rep') = Some (RisingQueries pairs) /\
    dict_get country_eqb c (youtube_results rep') = Some d /\
    (List.length d <= List.length items)%nat /\
    (forall k s, In (k, s) d -> (List.length s <= 5)%nat) /\
    (forall item, In item items ->
       exists q, py_getitem item "query" = Ok q /\ dict_get py_key_eqb q d <> None).
Proof.
  intros H.
  destruct (process_country_try_cases p c rep w)
    as [(e & w1 & He)|(data & w1 & items & pairs & Hs & Hp & Hf & _ & Ht)].
  { rewrite He in H. discriminate. }
  rewrite Ht in H.
  destruct (shorts_loop_grow p c items
              (set_youtube c [] (set_result c (RisingQueries pairs) rep)) w1 [])
    as (r & rep2 & w2 & d2 & Hloop & (Hres & _ & Hd2 & Hlen & Hlists & _) & Hq).
  { simpl. apply dict_get_set_same. }
  rewrite Hloop in H. injection H as -> -> ->.
  exists data, w1, items, pairs, d2.
  split; [exact Hs|]. split; [exact Hp|]. split; [exact Hf|].
  split; [rewrite Hres; simpl; apply dict_get_set_same|].
  split; [exact Hd2|]. split; [exact Hlen|]. split.
  - intros k s Hin. destruct (Hlists k s Hin) as [[]|Hout].
    apply (stage_output_at_most_5 p s Hout).
  - apply Hq. reflexivity.
Qed.

(** What the turn of a country leaves under any country of the report:
    the videos that were there, or, under the country itself, at most 15
    lists that [get_youtube_shorts] returned. *)
Lemma process_country_videos (p : period) (c : country) (rep rep' : report)
    (w w' : world) :
  process_country p c (rep, w) = (Ok tt, (rep', w')) ->
  forall b d,
    dict_get country_eqb b (youtube_results rep') = Some d ->
    dict_get country_eqb b (youtube_results rep) = Some d \/
    (b = c /\ (List.length d <= 15)%nat /\
     forall k shorts, In (k, shorts) d -> stage_output p shorts).
Proof.
  intros H. unfold process_country, try_except in H.
  assert (Hmid : forall r rep2 w2,
             process_country_try p c (rep, w) = (r, (rep2, w2)) ->
             forall b d,
               dict_get country_eqb b (youtube_results rep2) = Some d ->
               dict_get country_eqb b (youtube_results rep) = Some d \/
               (b = c /\ (List.length d <= 15)%nat /\
                forall k shorts, In (k, shorts) d -> stage_output p shorts)).
  { intros r rep2 w2 Ht.
    destruct (process_country_try_cases p c rep w)
      as [(e & w1 & He)|(data & w1 & items & pairs & _ & _ & _ & Hitems & Hrun)].
    { rewrite He in Ht. injection Ht as _ <- _. intros b d Hd. left. exact Hd. }
    rewrite Hrun in Ht.
    destruct (shorts_loop_grow p c items
                (set_youtube c [] (set_result c (RisingQueries pairs) rep)) w1 [])
      as (r' & rep3 & w3 & d3 & Hloop & (_ & Hsame & Hd3 & Hlen & Hlists & _) & _).
    { simpl. apply dict_get_set_same. }
    rewrite Hloop in Ht. injection Ht as _ <- _.
    intros b d Hd.
    destruct (country_eq_dec b c) as [->|Hbc].
    - right. rewrite Hd3 in Hd. injection Hd as <-. cbn [List.length] in Hlen.
      split; [reflexivity|]. split; [lia|].
      intros k s Hin. destruct (Hlists k s Hin) as [[]|Hout]. exact Hout.
    - left. destruct (Hsame b Hbc) as [_ Hy]. rewrite Hy in Hd.
      simpl in Hd. rewrite dict_get_set_other in Hd by exact Hbc.
      exact Hd. }
  destruct (process_country_try p c (rep, w)) as [[[]|e] [rep2 w2]] eqn:Ht.
  - injection H as <- _. apply (Hmid _ _ _ eq_refl).
  - unfold modify in H. cbn [fst snd] in H. injection H as <- _.
    intros b d Hd. apply (Hmid _ _ _ eq_refl b d). exact Hd.
Qed.

Lemma process_country_bounded (p : period) (c : country) (rep rep' : report)
    (w w' : world) :
  report_bounded rep ->
  process_country p c (rep, w) = (Ok tt, (rep', w')) ->
  report_bounded rep'.
Proof.
  intros Hb H b d Hd.
  destruct (process_country_videos p c rep rep' w w' H b d Hd)
    as [Hold|(_ & Hlen & Hlists)].
  - apply (Hb b d Hold).
  - split; [exact Hlen|].
    intros k shorts Hin. apply (stage_output_at_most_5 p shorts (Hlists k shorts Hin)).
Qed.

Lemma countries_loop_bounded (p : period) (countries : list country) :
  forall rep w rep' w',
    report_bounded rep ->
    for_each countries (process_country p) (rep, w) = (Ok tt, (rep', w')) ->
    report_bounded rep'.
Proof.
  induction countries as [|c countries IH]; intros rep w rep' w' Hb H.
  - injection H as <- _. exact Hb.
  - cbn [for_each] in H. unfold bind in H.
    destruct (process_country_spec p c rep w) as (rep1 & w1 & Hc & _).
    rewrite Hc in H.
    apply (IH rep1 w1 rep' w' (process_country_bounded p c rep rep1 w w1 Hb Hc) H).
Qed.

(** Every list of videos in the report of the loop over the countries was
    returned by [get_youtube_shorts], if that held before the loop. *)
Lemma countries_loop_lists (p : period) (countries : list country) :
  forall rep w rep' w',
    report_lists (stage_output p) rep ->
    for_each countries (process_country p) (rep, w) = (Ok tt, (rep', w')) ->
    report_lists (stage_output p) rep'.
Proof.
  induction countries as [|c countries IH]; intros rep w rep' w' Hb H.
  - injection H as <- _. exact Hb.
  - cbn [for_each] in H. unfold bind in H.
    destruct (process_country_spec p c rep w) as (rep1 & w1 & Hc & _).
    rewrite Hc in H.
    apply (IH rep1 w1 rep' w'); [|exact H].
    intros b d k shorts Hd Hin.
    destruct (process_country_videos p c rep rep1 w w1 Hc b d Hd)
      as [Hold|(_ & _ & Hlists)].
    + apply (Hb b d k shorts Hold Hin).
    + apply (Hlists k shorts Hin).
Qed.

(** C1.  Every video that [get_youtube_shorts] returns was built from an
    item of the detail response whose parsed duration is at most 60
    seconds; an item whose parsed duration exceeds 60 seconds is left
    out: the ranking of the items is the same with and without it; and
    every video in the report of a run of the analysis was built from an
    item of a detail response whose parsed duration is at most 60
    seconds. *)
Theorem short_form_filter :
  (forall (search_query : json) (days_ago max_results : Z) (w : world),
      exists out w',
        get_youtube_shorts search_query days_ago max_results w = (Ok out, w') /\
        (forall info, In info out ->
           exists video_response w1 items video dur,
             fetch_video_response search_query days_ago w = (Ok video_response, w1) /\
             response_items video_response = Ok items /\
             In video items /\
             video_duration video = Ok dur /\ dur <= 60 /\
             make_video_info video = Ok info) /\
        (forall video_response w1 items,
           fetch_video_response search_query days_ago w = (Ok video_response, w1) ->
           response_items video_response = Ok items ->
           rank_items items max_results = Ok out \/
           (out = [] /\ exists e, rank_items items max_results = Raise e))) /\
  (forall (l1 l2 : list json) (video : json) (dur max_results : Z),
      video_duration video = Ok dur -> 60 < dur ->
      rank_items (l1 ++ video :: l2) max_results = rank_items (l1 ++ l2) max_results) /\
  (forall (selected_countries : list country) (p : period) (w : world),
      exists rep w',
        run_analysis selected_countries p w = (Ok tt, (rep, w')) /\
        forall c d k shorts info,
          dict_get country_eqb c (youtube_results rep) = Some d ->
          In (k, shorts) d -> In info shorts ->
          from_short_item info).
Proof.
  split; [|split].
  - intros sq d mr w.
    destruct (get_youtube_shorts_returns sq d mr w) as (out & w' & Hout).
    exists out, w'. split; [exact Hout|]. split.
    + apply (get_youtube_shorts_sources sq d mr w w' out Hout).
    + intros vr w1 items Hf Hi.
      destruct (get_youtube_shorts_cases sq d mr w)
        as [(vr' & w1' & items' & videos & Hf' & Hi' & Hc & H)|(e & w1' & Ht & H)];
        rewrite H in Hout; injection Hout as <- _.
      * rewrite Hf in Hf'. inversion Hf'; subst vr' w1'.
        rewrite Hi in Hi'. inversion Hi'; subst items'.
        left. unfold rank_items. rewrite Hc. reflexivity.
      * unfold get_youtube_shorts_try, bind in Ht. rewrite Hf in Ht.
        unfold lift, rank_response in Ht. rewrite Hi in Ht. simpl in Ht.
        right. split; [reflexivity|]. exists e.
        inversion Ht. reflexivity.
  - intros l1 l2 video dur mr Hd Hlong. unfold rank_items.
    rewrite (collect_videos_drop_long l1 l2 video dur Hd Hlong). reflexivity.
  - intros selected p w. unfold run_analysis.
    destruct (countries_loop_spec p selected empty_report w)
      as (rep & w' & H & _).
    exists rep, w'. split; [exact H|].
    intros c d k shorts info Hd Hin Hinfo.
    apply (stage_output_short p shorts info); [|exact Hinfo].
    apply (countries_loop_lists p selected empty_report w rep w'
             ltac:(intros ? ? ? ? Hempty; discriminate Hempty) H c d k shorts Hd Hin).
Qed.

(** X9.  The report of a run is bounded: for every country it holds the
    videos of at most 15 queries, and for every query at most 5 videos. *)
Theorem report_sizes (selected_countries : list country) (p : period) (w : world) :
  exists rep w',
    run_analysis selected_countries p w = (Ok tt, (rep, w')) /\
    report_bounded rep.
Proof.
  unfold run_analysis.
  destruct (countries_loop_spec p selected_countries empty_report w)
    as (rep & w' & H & _).
  exists rep, w'. split; [exact H|].
  apply (countries_loop_bounded p selected_countries empty_report w rep w');
    [|exact H].
  intros c d Hd. discriminate Hd.
Qed.

(** X10.  When the answer of the provider carries a list under
    [related_queries.rising], what is stored for the country are the
    [query] and [value] of its first 15 items, in their order; later items
    are never read. *)
Theorem stored_rising_are_first_15 (p : period) (c : country) (rep : report)
    (w w1 : world) (fields related : list (string * json)) (l : list json) :
  serpapi_search (term (COUNTRY_QUERIES c)) (geo (COUNTRY_QUERIES c))
    (hl (COUNTRY_QUERIES c)) w = (Ok (JObj fields), w1) ->
  assoc "related_queries" fields = Some (JObj related) ->
  assoc "rising" related = Some (JArr l) ->
  rising_pairs (JObj fields) = map_result query_value (firstn 15 l) /\
  forall rep' w',
    process_country_try p c (rep, w) = (Ok tt, (rep', w')) ->
    exists pairs,
      map_result query_value (firstn 15 l) = Ok pairs /\
      dict_get country_eqb c (results rep') = Some (RisingQueries pairs).
Proof.
  intros Hs Hr Hl.
  pose proof (rising_pairs_of_list fields related l Hr Hl) as Hpairs.
  split; [exact Hpairs|].
  intros rep' w' Ht.
  destruct (process_country_try_ok p c rep rep' w w' Ht)
    as (data & w1' & items & pairs & d & Hs' & Hp & _ & Hres & _).
  rewrite Hs in Hs'. injection Hs' as <- _.
  exists pairs. split; [rewrite <- Hpairs; exact Hp|exact Hres].
Qed.

(** X11.  After a [try] block that ended normally, the two dicts agree:
    every rising query stored for the country has a list of videos, of at
    most 5, and there are no more lists than stored queries. *)
Theorem stored_queries_have_videos (p : period) (c : country) (rep rep' : report)
    (w w' : world) :
  process_country_try p c (rep, w) = (Ok tt, (rep', w')) ->
  exists pairs d,
    dict_get country_eqb c (results rep') = Some (RisingQueries pairs) /\
    dict_get country_eqb c (youtube_results rep') = Some d /\
    (List.length d <= List.length pairs)%nat /\
    forall q v, In (q, v) pairs ->
      exists shorts,
        dict_get py_key_eqb q d = Some shorts /\ (List.length shorts <= 5)%nat.
Proof.
  intros Ht.
  destruct (process_country_try_ok p c rep rep' w w' Ht)
    as (data & w1 & items & pairs & d & _ & _ & Hf & Hres & Hd & Hlen & Hlists & Hq).
  exists pairs, d. split; [exact Hres|]. split; [exact Hd|].
  split; [rewrite <- (forall2_length _ _ _ Hf); exact Hlen|].
  intros q v Hin.
  destruct (forall2_in_r _ _ _ _ Hf Hin) as (item & Hitem & Hqv).
  destruct (Hq item Hitem) as (q' & Hq' & Hpresent).
  unfold query_value in Hqv. rewrite Hq' in Hqv. cbn [rbind] in Hqv.
  split_result Hqv. injection Hqv as -> _.
  destruct (dict_get py_key_eqb q d) as [shorts|] eqn:Hg; [|congruence].
  exists shorts. split; [reflexivity|].
  destruct (dict_get_in py_key_eqb q shorts d Hg) as (k & Hk & _).
  apply (Hlists k shorts Hk).
Qed.

(** X12.  When reading the answer of the provider raises (the answer is
    not an object, [related_queries] is not one, [rising] cannot be sliced,
    or one of its first 15 items lacks [query] or [value]), the turn of the
    country records the text of the exception and nothing else: the videos
    stored so far are untouched and no search is made. *)
Theorem unreadable_answer_only_records :
  (forall (p : period) (c : country) (rep : report) (w w1 : world)
          (data : json) (e : exn),
      serpapi_search (term (COUNTRY_QUERIES c)) (geo (COUNTRY_QUERIES c))
        (hl (COUNTRY_QUERIES c)) w = (Ok data, w1) ->
      rising_pairs data = Raise e ->
      process_country p c (rep, w)
      = (Ok tt, (set_result c (CountryError (exn_str e)) rep, w1))) /\
  (forall data,
      match data with JObj _ => False | _ => True end ->
      rising_pairs data = Raise AttributeError) /\
  (forall fields related l item,
      assoc "related_queries" fields = Some (JObj related) ->
      assoc "rising" related = Some (JArr l) ->
      In item (firstn 15 l) ->
      (exists e0, query_value item = Raise e0) ->
      exists e, rising_pairs (JObj fields) = Raise e).
Proof.
  split; [|split].
  - intros p c rep w w1 data e Hs Hp.
    unfold process_country, try_except, process_country_try, bind, on_world, lift.
    cbn [fst snd]. rewrite Hs.
    unfold rising_pairs in Hp.
    destruct (rising_queries_of data) as [rq|e1]; cbn [rbind] in Hp.
    + destruct (py_iter rq) as [items|e2]; cbn [rbind] in Hp.
      * rewrite Hp. reflexivity.
      * injection Hp as ->. reflexivity.
    + injection Hp as ->. reflexivity.
  - intros data H. destruct data; try contradiction; reflexivity.
  - intros fields related l item Hr Hl Hin Hbad.
    rewrite (rising_pairs_of_list fields related l Hr Hl).
    apply (map_result_raises query_value (firstn 15 l) item Hin Hbad).
Qed.
End AnalysisExtras.

Lemma short_form_filter_witness :
  @video_duration demo_runtime demo_long = Ok 120 /\ 60 < 120 /\
  @rank_items demo_runtime demo_items 5
  = @rank_items demo_runtime (demo_short :: demo_uncounted :: demo_tail) 5 /\
  (exists d k shorts,
     dict_get country_eqb USA (youtube_results demo_report) = Some d /\
     In (k, shorts) d /\ In demo_short_info shorts) /\
  @from_short_item demo_runtime demo_short_info.
Proof.
  assert (Hd : @video_duration demo_runtime demo_long = Ok 120) by reflexivity.
  assert (Hl : 60 < 120) by lia.
  refine (conj Hd (conj Hl (conj _ _))).
  - exact (proj1 (proj2 (@short_form_filter demo_runtime))
             [demo_short] (demo_uncounted :: demo_tail) demo_long 120 5 Hd Hl).
  - destruct (proj2 (proj2 (@short_form_filter demo_runtime))
                [Japan; Korea; USA] LastYear [])
      as (rep & w' & Hrun & Hall).
    assert (Hrep : demo_report = rep)
      by exact (f_equal (fun x => fst (snd x)) Hrun).
    assert (Hstored : exists d k shorts,
               dict_get country_eqb USA (youtube_results demo_report) = Some d /\
               In (k, shorts) d /\ In demo_short_info shorts).
    { eexists. eexists. eexists.
      split; [vm_compute; reflexivity|].
      split; [left; reflexivity|right; left; reflexivity]. }
    split; [exact Hstored|].
    destruct Hstored as (d & k & shorts & Hdict & Hin & Hinfo).
    rewrite Hrep in Hdict.
    exact (Hall USA d k shorts demo_short_info Hdict Hin Hinfo).
Defined.

(** X13.  Storing the videos of a query and looking the query up gives
    them back, under the key itself and under any key Python takes for
    equal to it; the videos of every other query stay as they were; a query
    that is a list or an object cannot be a key, and then nothing is
    stored. *)
Theorem store_shorts_lookup {W} (c : country) (key : json)
    (shorts : list video_info) (rep : report) (w : W)
    (d : list (json * list video_info)) :
  dict_get country_eqb c (youtube_results rep) = Some d ->
  (py_hashable key = true ->
   exists d',
     store_shorts c key shorts (rep, w) = (Ok tt, (set_youtube c d' rep, w)) /\
     dict_get country_eqb c (youtube_results (set_youtube c d' rep)) = Some d' /\
     dict_get py_key_eqb key d' = Some shorts /\
     (forall q, py_key_eqb key q = true -> dict_get py_key_eqb q d' = Some shorts) /\
     (forall q, py_key_eqb key q = false ->
                dict_get py_key_eqb q d' = dict_get py_key_eqb q d)) /\
  (py_hashable key = false ->
   store_shorts c key shorts (rep, w) = (Raise TypeError, (rep, w))).
Proof.
  intros Hd. unfold store_shorts. cbn [fst snd]. rewrite Hd. split; intros Hh;
    rewrite Hh; [|reflexivity].
  exists (dict_set py_key_eqb key shorts d).
  split; [reflexivity|]. split; [simpl; apply dict_get_set_same|].
  split; [apply py_dict_get_set_same, py_key_eqb_refl, Hh|].
  split.
  - intros q Hq. apply py_dict_get_set_same. exact Hq.
  - intros q Hq. apply py_dict_get_set_other. exact Hq.
Qed.

Lemma stored_rising_are_first_15_witness :
  @serpapi_search demo_runtime (term (COUNTRY_QUERIES USA)) (geo (COUNTRY_QUERIES USA))
    (hl (COUNTRY_QUERIES USA)) []
  = (Ok (JObj [("related_queries", JObj [("rising", JArr (demo_rising 20))])]), []) /\
  @process_country_try demo_runtime LastYear USA (empty_report, [])
  = (Ok tt, (demo_report_usa, [])) /\
  exists pairs,
    map_result query_value (firstn 15 (demo_rising 20)) = Ok pairs /\
    dict_get country_eqb USA (results demo_report_usa) = Some (RisingQueries pairs).
Proof.
  assert (Hs : @serpapi_search demo_runtime (term (COUNTRY_QUERIES USA))
                 (geo (COUNTRY_QUERIES USA)) (hl (COUNTRY_QUERIES USA)) []
               = (Ok (JObj [("related_queries",
                             JObj [("rising", JArr (demo_rising 20))])]), []))
    by reflexivity.
  assert (Ht : @process_country_try demo_runtime LastYear USA (empty_report, [])
               = (Ok tt, (demo_report_usa, [])))
    by (vm_compute; reflexivity).
  refine (conj Hs (conj Ht _)).
  exact (proj2 (@stored_rising_are_first_15 demo_runtime LastYear USA empty_report
                  [] [] [("related_queries", JObj [("rising", JArr (demo_rising 20))])]
                  [("rising", JArr (demo_rising 20))] (demo_rising 20)
                  Hs eq_refl eq_refl)
           demo_report_usa [] Ht).
Defined.

Lemma stored_queries_have_videos_witness :
  @process_country_try demo_runtime LastYear USA (empty_report, [])
  = (Ok tt, (demo_report_usa, [])) /\
  exists pairs d,
    dict_get country_eqb USA (results demo_report_usa) = Some (RisingQueries pairs) /\
    dict_get country_eqb USA (youtube_results demo_report_usa) = Some d /\
    (List.length d <= List.length pairs)%nat /\
    forall q v, In (q, v) pairs ->
      exists shorts,
        dict_get py_key_eqb q d = Some shorts /\ (List.length shorts <= 5)%nat.
Proof.
  assert (Ht : @process_country_try demo_runtime LastYear USA (empty_report, [])
               = (Ok tt, (demo_report_usa, [])))
    by (vm_compute; reflexivity).
  exact (conj Ht (@stored_queries_have_videos demo_runtime LastYear USA empty_report
                    demo_report_usa [] [] Ht)).
Defined.

Lemma unreadable_answer_only_records_witness :
  rising_pairs JNull = Raise AttributeError /\
  @process_country demo_runtime_null LastYear Japan (demo_report_usa, [])
  = (Ok tt, (set_result Japan (CountryError "attribute error") demo_report_usa, [])).
Proof.
  assert (Hp : rising_pairs JNull = Raise AttributeError)
    by exact (proj1 (proj2 (@unreadable_answer_only_records demo_runtime_null)) JNull I).
  refine (conj Hp _).
  exact (proj1 (@unreadable_answer_only_records demo_runtime_null)
           LastYear Japan demo_report_usa [] [] JNull AttributeError eq_refl Hp).
Defined.

Lemma store_shorts_lookup_witness :
  exists d',
    store_shorts USA (JInt 1) [demo_short_info]
      (mk_report [] [(USA, [(JStr "a", []); (JBool true, [])])], tt)
    = (Ok tt, (set_youtube USA d'
                 (mk_report [] [(USA, [(JStr "a", []); (JBool true, [])])]), tt)) /\
    dict_get py_key_eqb (JInt 1) d' = Some [demo_short_info] /\
    dict_get py_key_eqb (JBool true) d' = Some [demo_short_info] /\
    dict_get py_key_eqb (JStr "a") d' = Some [].
Proof.
  destruct (proj1 (store_shorts_lookup USA (JInt 1) [demo_short_info]
                     (mk_report [] [(USA, [(JStr "a", []); (JBool true, [])])]) tt
                     [(JStr "a", []); (JBool true, [])] eq_refl) eq_refl)
    as (d' & Hstore & _ & Hkey & Heq & Hother).
  exists d'. split; [exact Hstore|]. split; [exact Hkey|].
  split; [apply Heq; reflexivity|].
  rewrite (Hother (JStr "a") eq_refl). reflexivity.
Defined.

(** ** The result display *)

Lemma dict_get_key {K V} (eqb : K -> K -> bool) (k : K) (v : V) (d : list (K * V)) :
  (forall a b, eqb a b = true -> a = b) ->
  dict_get eqb k d = Some v -> In k (map fst d).
Proof.
  intros Heq. induction d as [|[k0 v0] d IH]; simpl; [discriminate|].
  destruct (eqb k0 k) eqn:E.
  - intros _. left. apply Heq. exact E.
  - intros H. right. apply IH. exact H.
Qed.

Lemma for_each_raises {S A} (body : A -> M S unit) (l : list A) (x : A) :
  In x l ->
  (forall s, exists e s', body x s = (Raise e, s')) ->
  forall s, exists e s', for_each l body s = (Raise e, s').
Proof.
  intros Hin Hx. induction l as [|y l IH]; [contradiction|].
  intros s. cbn [for_each]. unfold bind.
  destruct Hin as [->|Hin].
  - destruct (Hx s) as (e & s' & ->). eauto.
  - destruct (body y s) as [[[]|e] s1]; [apply (IH Hin)|eauto].
Qed.

Section DisplayFacts.
Context {RT : Runtime}.
Variable st_call : st_widget -> M world unit.

Lemma display_country_raises (rep : report) (c : country) (msg : string) :
  dict_get country_eqb c (results rep) = Some (CountryError msg) ->
  forall w, exists e w', display_country st_call rep c w = (Raise e, w').
Proof.
  intros Hc w. unfold display_country, bind at 1.
  destruct (st_call (StHeader _) w) as [[[]|e] w1]; [|eauto].
  unfold bind at 1.
  destruct (st_call StColumns w1) as [[[]|e] w2]; [|eauto].
  unfold bind at 1.
  destruct (st_call (StSubheader _) w2) as [[[]|e] w3]; [|eauto].
  unfold bind, lift. rewrite Hc. cbn [rising_of_entry]. eauto.
Qed.

(** X19.  Once a country has ended in an error, the display of the
    results cannot complete: whatever the user interface does, it raises;
    and if the interface accepts the header, the columns and the subheader
    of that country, what is raised there is the [KeyError] for
    [rising_related_queries], before any table of that country is shown. *)
Theorem display_raises_on_error_entry (rep : report) (c : country) (msg : string) :
  dict_get country_eqb c (results rep) = Some (CountryError msg) ->
  (forall w, exists e w', display_results st_call rep w = (Raise e, w')) /\
  (forall w w1 w2 w3,
     st_call (StHeader (COUNTRY_FLAGS c ++ " " ++ country_name c)) w = (Ok tt, w1) ->
     st_call StColumns w1 = (Ok tt, w2) ->
     st_call (StSubheader "급상승 검색어") w2 = (Ok tt, w3) ->
     display_country st_call rep c w
     = (Raise (KeyError "rising_related_queries"), w3)).
Proof.
  intros Hc. split.
  - unfold display_results.
    apply (for_each_raises (display_country st_call rep) _ c).
    + apply (dict_get_key country_eqb c (CountryError msg));
        [intros a b; apply country_eqb_eq|exact Hc].
    + apply (display_country_raises rep c msg Hc).
  - intros w w1 w2 w3 H1 H2 H3.
    unfold display_country, bind, lift. rewrite H1, H2, H3, Hc. reflexivity.
Qed.
End DisplayFacts.

Lemma display_raises_on_error_entry_witness :
  dict_get country_eqb Korea (results demo_report_failure)
  = Some (CountryError "500 Server Error") /\
  (exists e w', @display_results demo_runtime demo_st_call demo_report_failure []
                = (Raise e, w')) /\
  @display_country demo_runtime demo_st_call demo_report_failure Korea []
  = (Raise (KeyError "rising_related_queries"), ["🇰🇷 한국"]).
Proof.
  assert (Hc : dict_get country_eqb Korea (results demo_report_failure)
               = Some (CountryError "500 Server Error")) by reflexivity.
  destruct (@display_raises_on_error_entry demo_runtime demo_st_call
              demo_report_failure Korea "500 Server Error" Hc) as [Hall Hone].
  refine (conj Hc (conj (Hall []) _)).
  apply (Hone [] ["🇰🇷 한국"] ["🇰🇷 한국"] ["🇰🇷 한국"]); reflexivity.
Defined.

Example demo_display_failure :
  @display_results demo_runtime demo_st_call demo_report_failure []
  = (Raise (KeyError "rising_related_queries"), ["🇯🇵 일본"; "🇰🇷 한국"]).
Proof. vm_compute. reflexivity. Qed.
